(** * proxmox-packer agent: intent resolution, cluster model, pipeline, telemetry

    A shallow embedding of the Python package [agent] (models.py,
    intent_parser_llm.py, llm.py, orchestrator.py, proxmox_client.py,
    cli.py), the properties of its natural-language specification, and
    further properties of the code.

    Conventions of the embedding.
    - A Python [str] is a list of Unicode code points ([str := list N]).
    - Python values that come out of [json.loads] are the inductive
      [JValue]; a [dict] is an association list in insertion order.
    - A Python call that may raise returns [result A]: [Ok a] or [Err e]
      with [e] the exception class.
    - What the interpreter decides outside ASCII (the Unicode tables) and
      floating-point formatting and division are fields of the class
      [Runtime]: every theorem holds for every instance. *)

From Stdlib Require Import ZArith NArith List Bool String Ascii Lia.
From Stdlib Require Import Floats.SpecFloat DecimalString.
From Stdlib Require DecimalPos DecimalZ.
Import ListNotations.

Set Implicit Arguments.

(** ** Python strings *)

Definition char := N.
Definition str := list char.

(** A string literal: the code points of an ASCII Rocq string. *)
Definition u (s : string) : str :=
  map N_of_ascii (list_ascii_of_string s).

(** A literal in which every apostrophe stands for a double quote (JSON
    text is written with apostrophes inside Rocq strings). *)
Definition js (s : string) : str :=
  map (fun c => if N.eqb c 39 then 34%N else c) (u s).

Arguments u : simpl never.
Arguments js : simpl never.

Fixpoint str_eqb (a b : str) : bool :=
  match a, b with
  | [], [] => true
  | x :: a', y :: b' => N.eqb x y && str_eqb a' b'
  | _, _ => false
  end.

(** [s.startswith(p)] *)
Fixpoint startswith (p s : str) : bool :=
  match p, s with
  | [], _ => true
  | x :: p', y :: s' => N.eqb x y && startswith p' s'
  | _ :: _, [] => false
  end.

Fixpoint dropwhile (f : char -> bool) (s : str) : str :=
  match s with
  | [] => []
  | c :: s' => if f c then dropwhile f s' else s
  end.

(** [s.find(c)] for a one-character needle: [None] stands for -1. *)
Fixpoint find (c : char) (s : str) : option nat :=
  match s with
  | [] => None
  | x :: s' => if N.eqb x c then Some O
               else match find c s' with
                    | Some i => Some (S i)
                    | None => None
                    end
  end.

(** [s.rfind(c)] for a one-character needle: [None] stands for -1. *)
Fixpoint rfind (c : char) (s : str) : option nat :=
  match s with
  | [] => None
  | x :: s' => match rfind c s' with
               | Some i => Some (S i)
               | None => if N.eqb x c then Some O else None
               end
  end.

(** [s[a:b]] for indices [0 <= a] and [0 <= b]: empty when [b <= a]. *)
Definition slice (a b : nat) (s : str) : str :=
  firstn (b - a) (skipn a s).

(** [str(n)] for an [int]: the decimal text of [n] (the interpreter
    refuses the conversion above 4300 digits). *)
Definition str_of_Z (n : Z) : str :=
  u (NilZero.string_of_int (Z.to_int n)).

(** [s.endswith(p)] *)
Definition endswith (p s : str) : bool :=
  startswith (rev p) (rev s).

(** [s.rstrip(cs)]: the characters of [cs] removed from the right end. *)
Definition rstrip_chars (cs : str) (s : str) : str :=
  rev (dropwhile (fun c => existsb (N.eqb c) cs) (rev s)).

(** [s.split(c)] for a one-character separator: the pieces between the
    separators, empty pieces included. *)
Fixpoint split_on (c : char) (s : str) : list str :=
  match s with
  | [] => [[]]
  | x :: s' =>
      if N.eqb x c then [] :: split_on c s'
      else match split_on c s' with
           | piece :: pieces => (x :: piece) :: pieces
           | [] => [[x]]
           end
  end.

(** ** Exceptions and results *)

(** The three places of llm.py and intent_parser_llm.py that raise
    [OllamaError], told apart by their message. *)
Inductive ollama_cause : Type :=
| NotRunning      (* parse_intent: the availability probe failed *)
| CannotReach     (* _post/_get: urllib raised URLError *)
| InvalidJson.    (* _post: the HTTP body is not JSON *)

Inductive exn : Type :=
| ValueError
| JSONDecodeError      (* a subclass of ValueError *)
| UnicodeDecodeError   (* a subclass of ValueError *)
| TypeError
| OverflowError
| AttributeError
| KeyError
| IndexError
| RecursionError
| RuntimeError
| TimeoutError
| OllamaError (c : ollama_cause).

(** [isinstance(e, ValueError)] *)
Definition is_ValueError (e : exn) : bool :=
  match e with
  | ValueError | JSONDecodeError | UnicodeDecodeError => true
  | _ => false
  end.

Definition is_OllamaError (e : exn) : bool :=
  match e with
  | OllamaError _ => true
  | _ => false
  end.

Inductive result (A : Type) : Type :=
| Ok (a : A)
| Err (e : exn).

Arguments Ok {A} a.
Arguments Err {A} e.

Definition bind {A B : Type} (m : result A) (k : A -> result B) : result B :=
  match m with
  | Ok a => k a
  | Err e => Err e
  end.

Declare Scope py_scope.
Delimit Scope py_scope with py.
Notation "x <- m ;; k" := (bind m (fun x => k))
  (at level 61, m at next level, right associativity) : py_scope.
Open Scope py_scope.

(** [try: x = m  except Exception: pass], with [x] bound to [dflt] before. *)
Definition try_or {A : Type} (dflt : A) (m : result A) : A :=
  match m with
  | Ok a => a
  | Err _ => dflt
  end.

(** ** Values produced by json.loads *)

#[warnings="-register-all"]
Inductive JValue : Type :=
| JNull
| JBool (b : bool)
| JInt (n : Z)
| JFloat (f : spec_float)
| JStr (s : str)
| JList (l : list JValue)
| JDict (d : list (str * JValue)).

Definition dict := list (str * JValue).

(** [d.get(k)]: [None] when the key is absent. *)
Fixpoint dict_get (k : str) (d : dict) : option JValue :=
  match d with
  | [] => None
  | (k', v) :: d' => if str_eqb k' k then Some v else dict_get k d'
  end.

(** [d.get(k, dflt)] *)
Definition dict_get_default (k : str) (dflt : JValue) (d : dict) : JValue :=
  match dict_get k d with
  | Some v => v
  | None => dflt
  end.

(** [d[k] = v]: an existing key keeps its place, a new key goes last. *)
Fixpoint dict_set (k : str) (v : JValue) (d : dict) : dict :=
  match d with
  | [] => [(k, v)]
  | (k', v') :: d' => if str_eqb k' k then (k, v) :: d'
                      else (k', v') :: dict_set k v d'
  end.

(** The dictionary without the keys [ks]. *)
Definition dict_without (ks : list str) (d : dict) : dict :=
  filter (fun kv => negb (existsb (str_eqb (fst kv)) ks)) d.

(** [bool(v)]: the truth value of a Python object. *)
Definition truthy (v : JValue) : bool :=
  match v with
  | JNull => false
  | JBool b => b
  | JInt n => negb (Z.eqb n 0)
  | JFloat (S754_zero _) => false
  | JFloat _ => true
  | JStr s => negb (str_eqb s [])
  | JList l => match l with [] => false | _ => true end
  | JDict d => match d with [] => false | _ => true end
  end.

(** Whether [hash(v)] succeeds: lists and dicts are unhashable. *)
Definition hashable (v : JValue) : bool :=
  match v with
  | JList _ | JDict _ => false
  | _ => true
  end.

(** ** The interpreter's tables and floating-point routines *)

Class Runtime : Type := {
  (** [str.isspace] on a code point >= 128 (also [\s] of [re]). *)
  uni_isspace : N -> bool;
  (** [\w] of [re] on a code point >= 128. *)
  uni_isword : N -> bool;
  (** The value of a Unicode decimal digit, for a code point >= 128. *)
  uni_decimal : N -> option N;
  (** [repr(x)] for a float. *)
  repr_float : spec_float -> str;
  (** [repr(s)] for a str (quotes and escapes). *)
  repr_str : str -> str;
  (** [x // n] for a float [x] and a non-zero int [n]. *)
  float_floordiv : spec_float -> Z -> spec_float;
  (** [x / n] for a float [x] and a non-zero int [n]. *)
  float_truediv : spec_float -> Z -> spec_float;
  (** [a / n] for ints: a float, or OverflowError. *)
  int_truediv : Z -> Z -> result spec_float
}.

(** ** Builtins on JSON values *)

Section Builtins.
Context {rt : Runtime}.

(** [str.isspace()] of a one-character string, also [\s] of [re]. *)
Definition isspace (c : char) : bool :=
  if N.ltb c 128
  then (N.leb 9 c && N.leb c 13) || (N.leb 28 c && N.leb c 32)
  else uni_isspace c.

(** [\w] of [re] on a str pattern: letters, digits and the underscore. *)
Definition isword (c : char) : bool :=
  if N.ltb c 128
  then (N.leb 48 c && N.leb c 57) || (N.leb 65 c && N.leb c 90)
       || N.eqb c 95 || (N.leb 97 c && N.leb c 122)
  else uni_isword c.

(** [s.lstrip()], [s.rstrip()] and [s.strip()] *)
Definition lstrip (s : str) : str := dropwhile isspace s.

Definition rstrip (s : str) : str := rev (dropwhile isspace (rev s)).

Definition strip (s : str) : str := rstrip (lstrip s).

(** What [int(s)] does to a character before it parses: a Unicode decimal
    digit becomes its ASCII digit, other Unicode white space a blank, any
    other character outside ASCII a question mark. *)
Definition int_ascii (c : char) : char :=
  if N.ltb c 128 then c
  else match uni_decimal c with
       | Some d => (48 + d)%N
       | None => if uni_isspace c then 32%N else 63%N
       end.

(** The white space [int(s)] skips at both ends, after [int_ascii]. *)
Definition int_isspace (c : char) : bool :=
  (N.leb 9 c && N.leb c 13) || N.eqb c 32.

(** Digits with single underscores between them, most significant first. *)
Fixpoint int_digits (acc : Z) (after_digit : bool) (s : str) : option Z :=
  match s with
  | [] => if after_digit then Some acc else None
  | c :: s' =>
      if N.eqb c 95 then
        if after_digit then int_digits acc false s' else None
      else if N.leb 48 c && N.leb c 57 then
        int_digits (10 * acc + Z.of_N (c - 48)) true s'
      else None
  end.

(** [int(s)] for a str, base 10.  The limit of the interpreter on the
    number of digits (4300 unless configured otherwise; above it [int]
    raises ValueError) is left out: properties that convert a text of
    digits are stated within that limit. *)
Definition int_of_str (s : str) : result Z :=
  let t := map int_ascii s in
  let t := rev (dropwhile int_isspace (rev (dropwhile int_isspace t))) in
  let parsed :=
    match t with
    | 43%N :: t' => int_digits 0 false t'
    | 45%N :: t' => option_map Z.opp (int_digits 0 false t')
    | _ => int_digits 0 false t
    end in
  match parsed with
  | Some n => Ok n
  | None => Err ValueError
  end.

(** [int(x)] for a float: truncation towards zero. *)
Definition int_of_float (f : spec_float) : result Z :=
  match f with
  | S754_zero _ => Ok 0%Z
  | S754_infinity _ => Err OverflowError
  | S754_nan => Err ValueError
  | S754_finite s m e =>
      let a := match e with
               | Zneg p => Z.shiftr (Zpos m) (Zpos p)
               | _ => Z.shiftl (Zpos m) e
               end in
      Ok (if s then Z.opp a else a)
  end.

(** [int(v)] *)
Definition py_int (v : JValue) : result Z :=
  match v with
  | JInt n => Ok n
  | JBool b => Ok (if b then 1 else 0)%Z
  | JFloat f => int_of_float f
  | JStr s => int_of_str s
  | JNull | JList _ | JDict _ => Err TypeError
  end.

(** [", ".join(l)] *)
Fixpoint join (sep : str) (l : list str) : str :=
  match l with
  | [] => []
  | [x] => x
  | x :: l' => x ++ sep ++ join sep l'
  end.

(** [repr(v)] *)
Fixpoint py_repr (v : JValue) : str :=
  match v with
  | JNull => u "None"
  | JBool b => if b then u "True" else u "False"
  | JInt n => str_of_Z n
  | JFloat f => repr_float f
  | JStr s => repr_str s
  | JList l => u "[" ++ join (u ", ") (map py_repr l) ++ u "]"
  | JDict d =>
      u "{" ++ join (u ", ")
                 (map (fun kv => repr_str (fst kv) ++ u ": " ++ py_repr (snd kv)) d)
        ++ u "}"
  end.

(** [str(v)], the text an f-string puts for [{v}]. *)
Definition py_str (v : JValue) : str :=
  match v with
  | JStr s => s
  | _ => py_repr v
  end.

(** Whether a float is exactly the integer [n]. *)
Definition float_eq_Z (f : spec_float) (n : Z) : bool :=
  match f with
  | S754_zero _ => Z.eqb n 0
  | S754_finite s m e =>
      let a := if s then Zneg m else Zpos m in
      match e with
      | Zneg p => Z.eqb a (Z.shiftl n (Zpos p))
      | _ => Z.eqb (Z.shiftl a e) n
      end
  | _ => false
  end.

(** [v == n] for an int constant [n]. *)
Definition eq_int (v : JValue) (n : Z) : bool :=
  match v with
  | JInt k => Z.eqb k n
  | JBool b => Z.eqb (if b then 1 else 0) n
  | JFloat f => float_eq_Z f n
  | _ => false
  end.

(** [v == s] for a str constant [s]. *)
Definition eq_str (v : JValue) (s : str) : bool :=
  match v with
  | JStr t => str_eqb t s
  | _ => false
  end.

(** [v.get(k, dflt)]: only a dict has the method. *)
Definition py_get (v : JValue) (k : str) (dflt : JValue) : result JValue :=
  match v with
  | JDict d => Ok (dict_get_default k dflt d)
  | _ => Err AttributeError
  end.

(** The items [for x in v] goes through: the elements of a list, the keys
    of a dict, the characters of a str. *)
Definition py_iter (v : JValue) : result (list JValue) :=
  match v with
  | JList l => Ok l
  | JDict d => Ok (map (fun kv => JStr (fst kv)) d)
  | JStr s => Ok (map (fun c => JStr [c]) s)
  | JNull | JBool _ | JInt _ | JFloat _ => Err TypeError
  end.

(** [v // n] for a positive int constant [n]. *)
Definition py_floordiv (v : JValue) (n : Z) : result JValue :=
  match v with
  | JInt k => Ok (JInt (k / n))
  | JBool b => Ok (JInt ((if b then 1 else 0) / n))
  | JFloat f => Ok (JFloat (float_floordiv f n))
  | JNull | JStr _ | JList _ | JDict _ => Err TypeError
  end.

(** [v / n] for a positive int constant [n]. *)
Definition py_truediv (v : JValue) (n : Z) : result JValue :=
  match v with
  | JInt k => f <- int_truediv k n ;; Ok (JFloat f)
  | JBool b => f <- int_truediv (if b then 1 else 0) n ;; Ok (JFloat f)
  | JFloat f => Ok (JFloat (float_truediv f n))
  | JNull | JStr _ | JList _ | JDict _ => Err TypeError
  end.

End Builtins.

(** ** Formatting *)

(** The items of [sep.join(l)]: every item must be a str. *)
Fixpoint str_items (l : list JValue) : result (list str) :=
  match l with
  | [] => Ok []
  | JStr s :: rest => ss <- str_items rest ;; Ok (s :: ss)
  | _ :: _ => Err TypeError
  end.

(** [' ' * n]: empty when [n <= 0]. *)
Definition spaces (n : Z) : str := repeat 32%N (Z.to_nat n).

(** The format specification [<w] on a str: at least [w] characters, the
    text first. *)
Definition ljust (w : nat) (s : str) : str :=
  s ++ repeat 32%N (w - List.length s).

(** [format(v, "<w")], as an f-string does for a field with the
    specification [<w]: a bool is formatted as the int it is, None, a
    list and a dict accept no specification. *)
Definition format_left {rt : Runtime} (w : nat) (v : JValue) : result str :=
  match v with
  | JStr s => Ok (ljust w s)
  | JInt n => Ok (ljust w (str_of_Z n))
  | JBool b => Ok (ljust w (if b then u "1" else u "0"))
  | JFloat f => Ok (ljust w (repr_float f))
  | JNull | JList _ | JDict _ => Err TypeError
  end.

(** ** models.py *)

Module models.

(** [class NodeSpec]: hardware of one VM node. *)
Record NodeSpec : Type := {
  cores : Z;
  memory_mb : Z;
  disk_size : str
}.

(** [NodeSpec(cores=c, memory_mb=m)], the disk size at its default. *)
Definition NodeSpec_new (c m : Z) : NodeSpec :=
  {| cores := c; memory_mb := m; disk_size := u "20G" |}.

(** [class ClusterSpec].  The fields the intent parser fills with whatever
    the backend sent ([name], [cni_plugin], [k8s_version_minor], the items
    of [addons]) hold JSON values; the fields it passes through [int] are
    integers. *)
Record ClusterSpec : Type := {
  name : JValue;
  vm_name_prefix : str;
  control_plane_count : Z;
  worker_count : Z;
  control_plane_spec : NodeSpec;
  worker_spec : NodeSpec;
  k8s_version_minor : JValue;
  k8s_version_full : str;
  pod_network_cidr : str;
  cni_plugin : JValue;
  ip_start : Z;
  ip_prefix : str;
  ip_gateway : str;
  dns_server : str;
  network_bridge : str;
  target_node : str;
  template_id : Z;
  storage : str;
  addons : list JValue;
  ssh_user : str;
  ssh_password : str
}.

(** [ClusterSpec()]: every field at the default of the dataclass. *)
Definition ClusterSpec_new : ClusterSpec := {|
  name := JStr (u "k8s-cluster");
  vm_name_prefix := u "k8s-node";
  control_plane_count := 1;
  worker_count := 2;
  control_plane_spec := NodeSpec_new 2 4096;
  worker_spec := NodeSpec_new 2 2048;
  k8s_version_minor := JStr (u "1.31");
  k8s_version_full := u "1.31.4-1.1";
  pod_network_cidr := u "10.244.0.0/16";
  cni_plugin := JStr (u "flannel");
  ip_start := 201;
  ip_prefix := u "10.40.19.";
  ip_gateway := u "10.40.19.254";
  dns_server := u "10.40.2.1";
  network_bridge := u "vmbr0";
  target_node := u "pve1";
  template_id := 990;
  storage := u "local-lvm";
  addons := [];
  ssh_user := u "ubuntu";
  ssh_password := u "ubuntu"
|}.

(** Attribute assignments [spec.f = v], one per assigned field. *)
Definition set_cores (v : Z) (n : NodeSpec) : NodeSpec :=
  {| cores := v; memory_mb := memory_mb n; disk_size := disk_size n |}.

Definition set_memory_mb (v : Z) (n : NodeSpec) : NodeSpec :=
  {| cores := cores n; memory_mb := v; disk_size := disk_size n |}.

Definition set_name (v : JValue) (s : ClusterSpec) : ClusterSpec :=
  {| name := v; vm_name_prefix := vm_name_prefix s;
     control_plane_count := control_plane_count s;
     worker_count := worker_count s;
     control_plane_spec := control_plane_spec s;
     worker_spec := worker_spec s;
     k8s_version_minor := k8s_version_minor s;
     k8s_version_full := k8s_version_full s;
     pod_network_cidr := pod_network_cidr s; cni_plugin := cni_plugin s;
     ip_start := ip_start s; ip_prefix := ip_prefix s;
     ip_gateway := ip_gateway s; dns_server := dns_server s;
     network_bridge := network_bridge s; target_node := target_node s;
     template_id := template_id s; storage := storage s;
     addons := addons s; ssh_user := ssh_user s;
     ssh_password := ssh_password s |}.

Definition set_vm_name_prefix (v : str) (s : ClusterSpec) : ClusterSpec :=
  {| name := name s; vm_name_prefix := v;
     control_plane_count := control_plane_count s;
     worker_count := worker_count s;
     control_plane_spec := control_plane_spec s;
     worker_spec := worker_spec s;
     k8s_version_minor := k8s_version_minor s;
     k8s_version_full := k8s_version_full s;
     pod_network_cidr := pod_network_cidr s; cni_plugin := cni_plugin s;
     ip_start := ip_start s; ip_prefix := ip_prefix s;
     ip_gateway := ip_gateway s; dns_server := dns_server s;
     network_bridge := network_bridge s; target_node := target_node s;
     template_id := template_id s; storage := storage s;
     addons := addons s; ssh_user := ssh_user s;
     ssh_password := ssh_password s |}.

Definition set_control_plane_count (v : Z) (s : ClusterSpec) : ClusterSpec :=
  {| name := name s; vm_name_prefix := vm_name_prefix s;
     control_plane_count := v;
     worker_count := worker_count s;
     control_plane_spec := control_plane_spec s;
     worker_spec := worker_spec s;
     k8s_version_minor := k8s_version_minor s;
     k8s_version_full := k8s_version_full s;
     pod_network_cidr := pod_network_cidr s; cni_plugin := cni_plugin s;
     ip_start := ip_start s; ip_prefix := ip_prefix s;
     ip_gateway := ip_gateway s; dns_server := dns_server s;
     network_bridge := network_bridge s; target_node := target_node s;
     template_id := template_id s; storage := storage s;
     addons := addons s; ssh_user := ssh_user s;
     ssh_password := ssh_password s |}.

Definition set_worker_count (v : Z) (s : ClusterSpec) : ClusterSpec :=
  {| name := name s; vm_name_prefix := vm_name_prefix s;
     control_plane_count := control_plane_count s;
     worker_count := v;
     control_plane_spec := control_plane_spec s;
     worker_spec := worker_spec s;
     k8s_version_minor := k8s_version_minor s;
     k8s_version_full := k8s_version_full s;
     pod_network_cidr := pod_network_cidr s; cni_plugin := cni_plugin s;
     ip_start := ip_start s; ip_prefix := ip_prefix s;
     ip_gateway := ip_gateway s; dns_server := dns_server s;
     network_bridge := network_bridge s; target_node := target_node s;
     template_id := template_id s; storage := storage s;
     addons := addons s; ssh_user := ssh_user s;
     ssh_password := ssh_password s |}.

Definition set_control_plane_spec (v : NodeSpec) (s : ClusterSpec) : ClusterSpec :=
  {| name := name s; vm_name_prefix := vm_name_prefix s;
     control_plane_count := control_plane_count s;
     worker_count := worker_count s;
     control_plane_spec := v;
     worker_spec := worker_spec s;
     k8s_version_minor := k8s_version_minor s;
     k8s_version_full := k8s_version_full s;
     pod_network_cidr := pod_network_cidr s; cni_plugin := cni_plugin s;
     ip_start := ip_start s; ip_prefix := ip_prefix s;
     ip_gateway := ip_gateway s; dns_server := dns_server s;
     network_bridge := network_bridge s; target_node := target_node s;
     template_id := template_id s; storage := storage s;
     addons := addons s; ssh_user := ssh_user s;
     ssh_password := ssh_password s |}.

Definition set_worker_spec (v : NodeSpec) (s : ClusterSpec) : ClusterSpec :=
  {| name := name s; vm_name_prefix := vm_name_prefix s;
     control_plane_count := control_plane_count s;
     worker_count := worker_count s;
     control_plane_spec := control_plane_spec s;
     worker_spec := v;
     k8s_version_minor := k8s_version_minor s;
     k8s_version_full := k8s_version_full s;
     pod_network_cidr := pod_network_cidr s; cni_plugin := cni_plugin s;
     ip_start := ip_start s; ip_prefix := ip_prefix s;
     ip_gateway := ip_gateway s; dns_server := dns_server s;
     network_bridge := network_bridge s; target_node := target_node s;
     template_id := template_id s; storage := storage s;
     addons := addons s; ssh_user := ssh_user s;
     ssh_password := ssh_password s |}.

Definition set_k8s_version_minor (v : JValue) (s : ClusterSpec) : ClusterSpec :=
  {| name := name s; vm_name_prefix := vm_name_prefix s;
     control_plane_count := control_plane_count s;
     worker_count := worker_count s;
     control_plane_spec := control_plane_spec s;
     worker_spec := worker_spec s;
     k8s_version_minor := v;
     k8s_version_full := k8s_version_full s;
     pod_network_cidr := pod_network_cidr s; cni_plugin := cni_plugin s;
     ip_start := ip_start s; ip_prefix := ip_prefix s;
     ip_gateway := ip_gateway s; dns_server := dns_server s;
     network_bridge := network_bridge s; target_node := target_node s;
     template_id := template_id s; storage := storage s;
     addons := addons s; ssh_user := ssh_user s;
     ssh_password := ssh_password s |}.

Definition set_k8s_version_full (v : str) (s : ClusterSpec) : ClusterSpec :=
  {| name := name s; vm_name_prefix := vm_name_prefix s;
     control_plane_count := control_plane_count s;
     worker_count := worker_count s;
     control_plane_spec := control_plane_spec s;
     worker_spec := worker_spec s;
     k8s_version_minor := k8s_version_minor s;
     k8s_version_full := v;
     pod_network_cidr := pod_network_cidr s; cni_plugin := cni_plugin s;
     ip_start := ip_start s; ip_prefix := ip_prefix s;
     ip_gateway := ip_gateway s; dns_server := dns_server s;
     network_bridge := network_bridge s; target_node := target_node s;
     template_id := template_id s; storage := storage s;
     addons := addons s; ssh_user := ssh_user s;
     ssh_password := ssh_password s |}.

Definition set_pod_network_cidr (v : str) (s : ClusterSpec) : ClusterSpec :=
  {| name := name s; vm_name_prefix := vm_name_prefix s;
     control_plane_count := control_plane_count s;
     worker_count := worker_count s;
     control_plane_spec := control_plane_spec s;
     worker_spec := worker_spec s;
     k8s_version_minor := k8s_version_minor s;
     k8s_version_full := k8s_version_full s;
     pod_network_cidr := v; cni_plugin := cni_plugin s;
     ip_start := ip_start s; ip_prefix := ip_prefix s;
     ip_gateway := ip_gateway s; dns_server := dns_server s;
     network_bridge := network_bridge s; target_node := target_node s;
     template_id := template_id s; storage := storage s;
     addons := addons s; ssh_user := ssh_user s;
     ssh_password := ssh_password s |}.

Definition set_cni_plugin (v : JValue) (s : ClusterSpec) : ClusterSpec :=
  {| name := name s; vm_name_prefix := vm_name_prefix s;
     control_plane_count := control_plane_count s;
     worker_count := worker_count s;
     control_plane_spec := control_plane_spec s;
     worker_spec := worker_spec s;
     k8s_version_minor := k8s_version_minor s;
     k8s_version_full := k8s_version_full s;
     pod_network_cidr := pod_network_cidr s; cni_plugin := v;
     ip_start := ip_start s; ip_prefix := ip_prefix s;
     ip_gateway := ip_gateway s; dns_server := dns_server s;
     network_bridge := network_bridge s; target_node := target_node s;
     template_id := template_id s; storage := storage s;
     addons := addons s; ssh_user := ssh_user s;
     ssh_password := ssh_password s |}.

Definition set_ip_start (v : Z) (s : ClusterSpec) : ClusterSpec :=
  {| name := name s; vm_name_prefix := vm_name_prefix s;
     control_plane_count := control_plane_count s;
     worker_count := worker_count s;
     control_plane_spec := control_plane_spec s;
     worker_spec := worker_spec s;
     k8s_version_minor := k8s_version_minor s;
     k8s_version_full := k8s_version_full s;
     pod_network_cidr := pod_network_cidr s; cni_plugin := cni_plugin s;
     ip_start := v; ip_prefix := ip_prefix s;
     ip_gateway := ip_gateway s; dns_server := dns_server s;
     network_bridge := network_bridge s; target_node := target_node s;
     template_id := template_id s; storage := storage s;
     addons := addons s; ssh_user := ssh_user s;
     ssh_password := ssh_password s |}.

Definition set_addons (v : list JValue) (s : ClusterSpec) : ClusterSpec :=
  {| name := name s; vm_name_prefix := vm_name_prefix s;
     control_plane_count := control_plane_count s;
     worker_count := worker_count s;
     control_plane_spec := control_plane_spec s;
     worker_spec := worker_spec s;
     k8s_version_minor := k8s_version_minor s;
     k8s_version_full := k8s_version_full s;
     pod_network_cidr := pod_network_cidr s; cni_plugin := cni_plugin s;
     ip_start := ip_start s; ip_prefix := ip_prefix s;
     ip_gateway := ip_gateway s; dns_server := dns_server s;
     network_bridge := network_bridge s; target_node := target_node s;
     template_id := template_id s; storage := storage s;
     addons := v; ssh_user := ssh_user s;
     ssh_password := ssh_password s |}.

(** [range(n)]: empty when [n <= 0]. *)
Definition range (n : Z) : list Z :=
  map Z.of_nat (seq 0 (Z.to_nat n)).

(** [ClusterSpec.total_nodes] *)
Definition total_nodes (s : ClusterSpec) : Z :=
  control_plane_count s + worker_count s.

(** [ClusterSpec.control_plane_ips] *)
Definition control_plane_ips (s : ClusterSpec) : list str :=
  map (fun i => ip_prefix s ++ str_of_Z (ip_start s + i))
      (range (control_plane_count s)).

(** [ClusterSpec.worker_ips] *)
Definition worker_ips (s : ClusterSpec) : list str :=
  let offset := control_plane_count s in
  map (fun i => ip_prefix s ++ str_of_Z (ip_start s + offset + i))
      (range (worker_count s)).

(** [ClusterSpec.all_ips] *)
Definition all_ips (s : ClusterSpec) : list str :=
  control_plane_ips s ++ worker_ips s.

Section Summary.
Context {rt : Runtime}.

(** A line of the frame: a corner, fifty double horizontal strokes
    (U+2550) and a corner. *)
Definition frame (left right : char) : str :=
  left :: repeat 9552%N 50 ++ [right].

(** A row: the double vertical stroke (U+2551), the label, the value and
    the stroke again. *)
Definition row (label : string) (value : str) : str :=
  9553%N :: u label ++ value ++ [9553%N].

(** The cores and the memory of a node as [summary] prints them, with
    the padding it computes from the two lengths. *)
Definition resources_text (n : NodeSpec) : str :=
  str_of_Z (cores n) ++ u " cores / " ++ str_of_Z (memory_mb n) ++ u "MB"
  ++ spaces (19 - Z.of_nat (List.length (str_of_Z (cores n)))
                - Z.of_nat (List.length (str_of_Z (memory_mb n)))).

(** The list [lines] of [ClusterSpec.summary] before it is joined. *)
Definition summary_lines (s : ClusterSpec) : result (list str) :=
  name_text <- format_left 39 (name s) ;;
  let lines :=
    [ frame 9556%N 9559%N;
      row "  Cluster: " name_text;
      frame 9568%N 9571%N;
      row "  Control Planes : " (ljust 31 (str_of_Z (control_plane_count s)));
      row "    CPU/Memory   : " (resources_text (control_plane_spec s));
      row "    IPs          : "
          (ljust 31 (join (u ", ") (control_plane_ips s)));
      row "  Workers        : " (ljust 31 (str_of_Z (worker_count s)));
      row "    CPU/Memory   : " (resources_text (worker_spec s));
      row "    IPs          : "
          (ljust 31 (join (u ", ") (firstn 3 (worker_ips s)))) ] in
  let lines :=
    if Nat.ltb 3 (List.length (worker_ips s))
    then lines
         ++ [row "                  ... +"
                 (str_of_Z (Z.of_nat (List.length (worker_ips s)) - 3)
                  ++ u " more" ++ spaces 22)]
    else lines in
  k8s_text <- format_left 30 (k8s_version_minor s) ;;
  cni_text <- format_left 31 (cni_plugin s) ;;
  addons_text <- match addons s with
                 | _ :: _ =>
                     items <- str_items (addons s) ;;
                     Ok (join (u ", ") items)
                 | [] => Ok (u "none")
                 end ;;
  Ok (lines
      ++ [ row "  Kubernetes     : v" k8s_text;
           row "  CNI            : " cni_text;
           row "  Add-ons        : " (ljust 31 addons_text);
           row "  Proxmox Node   : " (ljust 31 (target_node s));
           frame 9562%N 9565%N ]).


End Summary.

End models.

(** ** json.loads

    The decoder of the standard library (the scanner of [_json], strict
    mode), which the agent calls on the reply of the backend and on the
    bodies of the HTTP answers.  Every failure of this decoder is a
    [JSONDecodeError].  The functions that call each other through nested
    values recurse on a fuel of twice the length of the text; running out
    of it would be reported as [RecursionError], and lemma [scan_fuel]
    shows that it does not happen.  Two limits of the interpreter are left
    out: the depth of nesting it accepts (beyond it the interpreter raises
    [RecursionError]) and the number of digits it accepts in an integer
    (beyond 4300 it raises a plain [ValueError]).  Neither is a
    [JSONDecodeError], so the properties of the agent are stated for
    whatever exception [loads] raises, not for [JSONDecodeError] alone. *)

Module json.

Definition is_ws (c : char) : bool :=
  N.eqb c 32 || N.eqb c 9 || N.eqb c 10 || N.eqb c 13.

Definition skip_ws (s : str) : str := dropwhile is_ws s.

Definition is_digit (c : char) : bool := N.leb 48 c && N.leb c 57.

Definition hex_val (c : char) : option N :=
  if N.leb 48 c && N.leb c 57 then Some (c - 48)%N
  else if N.leb 65 c && N.leb c 70 then Some (c - 55)%N
  else if N.leb 97 c && N.leb c 102 then Some (c - 87)%N
  else None.

(** The code unit of four hexadecimal digits. *)
Definition hex4 (a b c d : char) : option N :=
  match hex_val a, hex_val b, hex_val c, hex_val d with
  | Some x, Some y, Some z, Some w => Some (4096 * x + 256 * y + 16 * z + w)%N
  | _, _, _, _ => None
  end.

Definition is_high_surrogate (c : N) : bool := N.leb 55296 c && N.leb c 56319.

Definition is_low_surrogate (c : N) : bool := N.leb 56320 c && N.leb c 57343.

Definition join_surrogates (hi lo : N) : N :=
  (65536 + ((hi - 55296) * 1024 + (lo - 56320)))%N.

(** The escape after a backslash that stands for one character. *)
Definition simple_escape (c : char) : option char :=
  if N.eqb c 34 then Some 34%N          (* quote *)
  else if N.eqb c 92 then Some 92%N     (* backslash *)
  else if N.eqb c 47 then Some 47%N     (* slash *)
  else if N.eqb c 98 then Some 8%N      (* b *)
  else if N.eqb c 102 then Some 12%N    (* f *)
  else if N.eqb c 110 then Some 10%N    (* n *)
  else if N.eqb c 114 then Some 13%N    (* r *)
  else if N.eqb c 116 then Some 9%N     (* t *)
  else None.

(** [scanstring]: the text after an opening quote, up to the closing one.
    [acc] holds the characters read so far, last first. *)
Fixpoint scanstring (acc : str) (s : str) : result (str * str) :=
  match s with
  | [] => Err JSONDecodeError                       (* unterminated *)
  | c :: s1 =>
      if N.eqb c 34 then Ok (rev acc, s1)
      else if N.eqb c 92 then
        match s1 with
        | [] => Err JSONDecodeError                 (* unterminated *)
        | e :: s2 =>
            if N.eqb e 117 then                     (* \uXXXX *)
              match s2 with
              | a :: b :: c1 :: d :: s3 =>
                  match hex4 a b c1 d with
                  | None => Err JSONDecodeError
                  | Some hi =>
                      match s3 with
                      | bs :: lu :: a' :: b' :: c' :: d' :: s4 =>
                          if is_high_surrogate hi && N.eqb bs 92
                             && N.eqb lu 117 then
                            match hex4 a' b' c' d' with
                            | None => Err JSONDecodeError
                            | Some lo =>
                                if is_low_surrogate lo
                                then scanstring (join_surrogates hi lo :: acc) s4
                                else scanstring (hi :: acc) s3
                            end
                          else scanstring (hi :: acc) s3
                      | _ => scanstring (hi :: acc) s3
                      end
                  end
              | _ => Err JSONDecodeError
              end
            else
              match simple_escape e with
              | Some x => scanstring (x :: acc) s2
              | None => Err JSONDecodeError         (* invalid escape *)
              end
        end
      else if N.leb c 31 then Err JSONDecodeError   (* control character *)
      else scanstring (c :: acc) s1
  end.

Fixpoint span_digits (s : str) : str * str :=
  match s with
  | c :: s' => if is_digit c
               then let (ds, r) := span_digits s' in (c :: ds, r)
               else ([], s)
  | [] => ([], [])
  end.

Definition digits_val (ds : str) : Z :=
  fold_left (fun a c => (10 * a + Z.of_N (c - 48))%Z) ds 0%Z.

(** [float(text)] for the literal with sign [neg], decimal digits of value
    [mant] and decimal exponent [e10]: the nearest binary64 number. *)
Definition float_of_decimal (neg : bool) (mant : Z) (e10 : Z) : spec_float :=
  match mant with
  | Zpos m =>
      match e10 with
      | Zneg p =>
          SFdiv 53 1024 (S754_finite neg m 0)
                (S754_finite false (Pos.pow 10 p) 0)
      | _ =>
          binary_normalize 53 1024
            (if neg then Z.opp (mant * 10 ^ e10) else (mant * 10 ^ e10))%Z
            0 false
      end
  | _ => S754_zero neg
  end.

(** The integer part of a number: a zero, or a non-zero digit and digits. *)
Definition int_part (s : str) : option (str * str) :=
  match s with
  | c :: t =>
      if N.eqb c 48 then Some ([c], t)
      else if N.leb 49 c && N.leb c 57
           then let (ds, r) := span_digits t in Some (c :: ds, r)
           else None
  | [] => None
  end.

(** The fraction: a point and at least one digit. *)
Definition frac_part (s : str) : str * str :=
  match s with
  | p :: d :: t =>
      if N.eqb p 46 && is_digit d
      then let (ds, r) := span_digits t in (d :: ds, r)
      else ([], s)
  | _ => ([], s)
  end.

(** The exponent: e or E, an optional sign and at least one digit. *)
Definition exp_part (s : str) : option Z * str :=
  match s with
  | e :: t =>
      if N.eqb e 101 || N.eqb e 69 then
        let '(neg, t1) :=
          match t with
          | sg :: (_ :: _) as t' =>
              if N.eqb sg 45 then (true, t')
              else if N.eqb sg 43 then (false, t')
              else (false, t)
          | _ => (false, t)
          end in
        match span_digits t1 with
        | ([], _) => (None, s)
        | (ds, r) => (Some (if neg then Z.opp (digits_val ds) else digits_val ds), r)
        end
      else (None, s)
  | [] => (None, s)
  end.

(** A number at the head of [s]: an int when it has neither fraction nor
    exponent, a float otherwise. *)
Definition match_number (s : str) : option (JValue * str) :=
  let '(neg, s1) :=
    match s with
    | c :: t => if N.eqb c 45 then (true, t) else (false, s)
    | [] => (false, s)
    end in
  match int_part s1 with
  | None => None
  | Some (ip, r0) =>
      let '(fp, r1) := frac_part r0 in
      let '(ex, r2) := exp_part r1 in
      match fp, ex with
      | [], None =>
          Some (JInt (if neg then Z.opp (digits_val ip) else digits_val ip), r2)
      | _, _ =>
          let e10 := match ex with Some e => e | None => 0%Z end in
          Some (JFloat (float_of_decimal neg (digits_val (ip ++ fp))
                                         (e10 - Z.of_nat (List.length fp))), r2)
      end
  end.

(** A named constant at the head of [s]. *)
Definition match_constant (s : str) : option (JValue * str) :=
  if startswith (u "null") s then Some (JNull, skipn 4 s)
  else if startswith (u "true") s then Some (JBool true, skipn 4 s)
  else if startswith (u "false") s then Some (JBool false, skipn 5 s)
  else if startswith (u "NaN") s then Some (JFloat S754_nan, skipn 3 s)
  else if startswith (u "Infinity") s
       then Some (JFloat (S754_infinity false), skipn 8 s)
  else if startswith (u "-Infinity") s
       then Some (JFloat (S754_infinity true), skipn 9 s)
  else None.

(** [scan_once] with the loops of [JSONObject] and [JSONArray]; each
    returns the value and the text that follows it. *)
Fixpoint scan_once (fuel : nat) (s : str) : result (JValue * str) :=
  match fuel with
  | O => Err RecursionError
  | S fuel' =>
      match s with
      | [] => Err JSONDecodeError                   (* expecting value *)
      | c :: s1 =>
          if N.eqb c 34 then
            r <- scanstring [] s1 ;; Ok (JStr (fst r), snd r)
          else if N.eqb c 123 then
            match skip_ws s1 with
            | [] => Err JSONDecodeError             (* expecting a key *)
            | c2 :: rest =>
                if N.eqb c2 125 then Ok (JDict [], rest)
                else
                  r <- object_loop fuel' [] (c2 :: rest) ;;
                  Ok (JDict (fst r), snd r)
            end
          else if N.eqb c 91 then
            match skip_ws s1 with
            | [] => Err JSONDecodeError             (* expecting value *)
            | c2 :: rest =>
                if N.eqb c2 93 then Ok (JList [], rest)
                else
                  r <- array_loop fuel' [] (c2 :: rest) ;;
                  Ok (JList (fst r), snd r)
            end
          else
            match match_constant s with
            | Some r => Ok r
            | None =>
                match match_number s with
                | Some r => Ok r
                | None => Err JSONDecodeError       (* expecting value *)
                end
            end
      end
  end

with object_loop (fuel : nat) (acc : dict) (s : str) : result (dict * str) :=
  match fuel with
  | O => Err RecursionError
  | S fuel' =>
      match s with
      | [] => Err JSONDecodeError                   (* expecting a key *)
      | q :: s1 =>
          if N.eqb q 34 then
            k <- scanstring [] s1 ;;
            match skip_ws (snd k) with
            | [] => Err JSONDecodeError             (* expecting : *)
            | colon :: s2 =>
                if N.eqb colon 58 then
                  v <- scan_once fuel' (skip_ws s2) ;;
                  let acc' := dict_set (fst k) (fst v) acc in
                  match skip_ws (snd v) with
                  | [] => Err JSONDecodeError       (* expecting , *)
                  | d :: s3 =>
                      if N.eqb d 125 then Ok (acc', s3)
                      else if N.eqb d 44
                           then object_loop fuel' acc' (skip_ws s3)
                           else Err JSONDecodeError (* expecting , *)
                  end
                else Err JSONDecodeError            (* expecting : *)
            end
          else Err JSONDecodeError                  (* expecting a key *)
      end
  end

with array_loop (fuel : nat) (acc : list JValue) (s : str)
  : result (list JValue * str) :=
  match fuel with
  | O => Err RecursionError
  | S fuel' =>
      v <- scan_once fuel' s ;;
      let acc' := acc ++ [fst v] in
      match skip_ws (snd v) with
      | [] => Err JSONDecodeError                   (* expecting , *)
      | d :: s1 =>
          if N.eqb d 93 then Ok (acc', s1)
          else if N.eqb d 44 then array_loop fuel' acc' (skip_ws s1)
          else Err JSONDecodeError                  (* expecting , *)
      end
  end.

(** [json.loads(s)] for a str. *)
Definition loads (s : str) : result JValue :=
  if startswith [65279%N] s then Err JSONDecodeError   (* byte order mark *)
  else
    r <- scan_once (2 * List.length s + 2) (skip_ws s) ;;
    match skip_ws (snd r) with
    | [] => Ok (fst r)
    | _ => Err JSONDecodeError                          (* extra data *)
    end.

End json.

(** ** The HTTP layer (urllib)

    What [urllib.request.urlopen(req)] followed by
    [resp.read().decode("utf-8")] comes to: the text of the body, one of
    the two errors of urllib the clients catch, or another exception that
    escapes them (a timeout while reading, undecodable bytes). *)

Inductive http_reply : Type :=
| HTTPError                 (* the server answered with an error status *)
| URLError                  (* the server could not be reached *)
| Body (text : str)
| Raised (e : exn).

(** [v[k]] for a str key: only a dict can be subscripted by it. *)
Definition py_getitem (v : JValue) (k : str) : result JValue :=
  match v with
  | JDict d => match dict_get k d with
               | Some x => Ok x
               | None => Err KeyError
               end
  | _ => Err TypeError
  end.

(** ** llm.py *)

Module llm.

Inductive role : Type := system | user.

(** The server behind [config.base_url]: its reply to GET /api/tags and to
    POST /api/chat with the given messages (role and content). *)
Record Ollama : Type := {
  get_tags : http_reply;
  post_chat : list (role * str) -> http_reply
}.

(** [OllamaClient._post]: HTTPError is a subclass of URLError. *)
Definition _post (r : http_reply) : result JValue :=
  match r with
  | HTTPError | URLError => Err (OllamaError CannotReach)
  | Body text =>
      match json.loads text with
      | Err JSONDecodeError => Err (OllamaError InvalidJson)
      | other => other
      end
  | Raised e => Err e
  end.

(** [OllamaClient._get] *)
Definition _get (r : http_reply) : result JValue :=
  match r with
  | HTTPError | URLError => Err (OllamaError CannotReach)
  | Body text => json.loads text
  | Raised e => Err e
  end.

(** [OllamaClient.chat] *)
Definition chat (o : Ollama) (messages : list (role * str))
                (system_prompt : option str) : result JValue :=
  let messages :=
    match system_prompt with
    | Some ((_ :: _) as p) => (system, p) :: messages
    | _ => messages
    end in
  r <- _post (post_chat o messages) ;;
  m <- py_getitem r (u "message") ;;
  py_getitem m (u "content").

(** [OllamaClient.is_available] *)
Definition is_available (o : Ollama) : bool :=
  match _get (get_tags o) with
  | Ok _ => true
  | Err _ => false
  end.

(** The comprehension of [list_models]: [m["name"]] for each entry. *)
Fixpoint model_names (ms : list JValue) : result (list JValue) :=
  match ms with
  | [] => Ok []
  | m :: rest =>
      n <- py_getitem m (u "name") ;;
      l <- model_names rest ;;
      Ok (n :: l)
  end.

(** [OllamaClient.list_models]: any exception gives the empty list. *)
Definition list_models (o : Ollama) : list JValue :=
  try_or []
    (data <- _get (get_tags o) ;;
     ms <- py_get data (u "models") (JList []) ;;
     l <- py_iter ms ;;
     model_names l).

End llm.

(** ** proxmox_client.py *)

Module proxmox_client.

Record ProxmoxConfig : Type := {
  api_url : str;
  token_id : str;
  token_secret : str;
  target_node : str;
  verify_ssl : bool
}.

(** [class VMInfo]: the fields hold what the API sent. *)
Record VMInfo : Type := {
  vmid : JValue;
  name : JValue;
  status : JValue;
  cores : JValue;
  memory_mb : JValue;
  ips : list str
}.

Record NodeResources : Type := {
  cpu_total : JValue;
  cpu_used : JValue;
  memory_total_mb : JValue;
  memory_used_mb : JValue;
  storage_total_gb : JValue;
  storage_used_gb : JValue
}.

(** [NodeResources()]: every field zero. *)
Definition NodeResources_new : NodeResources := {|
  cpu_total := JInt 0;
  cpu_used := JFloat (S754_zero false);
  memory_total_mb := JInt 0;
  memory_used_mb := JInt 0;
  storage_total_gb := JFloat (S754_zero false);
  storage_used_gb := JFloat (S754_zero false)
|}.

Record ProxmoxContext : Type := {
  node_name : str;
  resources : NodeResources;
  existing_vms : list VMInfo;
  used_ips : list str
}.

(** [vm.ips = l] *)
Definition set_ips (l : list str) (vm : VMInfo) : VMInfo :=
  {| vmid := vmid vm; name := name vm; status := status vm;
     cores := cores vm; memory_mb := memory_mb vm; ips := l |}.

Section Client.
Context {rt : Runtime}.

(** The Proxmox server: its reply to an authenticated GET of a path. *)
Variable server : str -> http_reply.
Variable config : ProxmoxConfig.

(** [ProxmoxClient._get] *)
Definition _get (path : str) : result JValue :=
  match server path with
  | HTTPError => Err RuntimeError
  | URLError => Err RuntimeError
  | Body text => json.loads text
  | Raised e => Err e
  end.

(** [ProxmoxClient.is_available] *)
Definition is_available : bool :=
  match _get (u "/version") with
  | Ok _ => true
  | Err _ => false
  end.

(** [ProxmoxClient._get_node_resources] *)
Definition _get_node_resources : result NodeResources :=
  data <- _get (u "/nodes/" ++ target_node config ++ u "/status") ;;
  status <- py_get data (u "data") (JDict []) ;;
  cpu_info <- py_get status (u "cpuinfo") (JDict []) ;;
  memory <- py_get status (u "memory") (JDict []) ;;
  rootfs <- py_get status (u "rootfs") (JDict []) ;;
  cpus <- py_get cpu_info (u "cpus") (JInt 0) ;;
  cpu <- py_get status (u "cpu") (JFloat (S754_zero false)) ;;
  mt <- py_get memory (u "total") (JInt 0) ;;
  mt <- py_floordiv mt (1024 * 1024) ;;
  mu <- py_get memory (u "used") (JInt 0) ;;
  mu <- py_floordiv mu (1024 * 1024) ;;
  st <- py_get rootfs (u "total") (JInt 0) ;;
  st <- py_truediv st (1024 ^ 3) ;;
  su <- py_get rootfs (u "used") (JInt 0) ;;
  su <- py_truediv su (1024 ^ 3) ;;
  Ok {| cpu_total := cpus; cpu_used := cpu;
        memory_total_mb := mt; memory_used_mb := mu;
        storage_total_gb := st; storage_used_gb := su |}.

(** The inner loop of [_get_vm_ips] over the addresses of one interface. *)
Fixpoint _get_vm_ips_addrs (addrs : list JValue) (ips : list str)
  : result (list str) :=
  match addrs with
  | [] => Ok ips
  | addr :: rest =>
      t <- py_get addr (u "ip-address-type") JNull ;;
      if eq_str t (u "ipv4") then
        ip <- py_get addr (u "ip-address") (JStr []) ;;
        if truthy ip then
          match ip with
          | JStr s =>
              if negb (startswith (u "127.") s)
              then _get_vm_ips_addrs rest (ips ++ [s])
              else _get_vm_ips_addrs rest ips
          | _ => Err AttributeError          (* no startswith *)
          end
        else _get_vm_ips_addrs rest ips
      else _get_vm_ips_addrs rest ips
  end.

(** The outer loop of [_get_vm_ips] over the interfaces. *)
Fixpoint _get_vm_ips_ifaces (ifaces : list JValue) (ips : list str)
  : result (list str) :=
  match ifaces with
  | [] => Ok ips
  | iface :: rest =>
      n <- py_get iface (u "name") JNull ;;
      if eq_str n (u "lo") then _get_vm_ips_ifaces rest ips
      else
        a <- py_get iface (u "ip-addresses") (JList []) ;;
        addrs <- py_iter a ;;
        ips <- _get_vm_ips_addrs addrs ips ;;
        _get_vm_ips_ifaces rest ips
  end.

(** [ProxmoxClient._get_vm_ips] *)
Definition _get_vm_ips (vmid : JValue) : result (list str) :=
  data <- _get (u "/nodes/" ++ target_node config ++ u "/qemu/"
                  ++ py_str vmid ++ u "/agent/network-get-interfaces") ;;
  d <- py_get data (u "data") (JDict []) ;;
  r <- py_get d (u "result") (JList []) ;;
  ifaces <- py_iter r ;;
  _get_vm_ips_ifaces ifaces [].

(** The guest record built from one entry of the guest list, before its
    addresses are looked up. *)
Definition vm_of_entry (entry : JValue) : result VMInfo :=
  vmid <- py_get entry (u "vmid") (JInt 0) ;;
  name <- py_get entry (u "name") (JStr (u "vm-" ++ py_str vmid)) ;;
  status <- py_get entry (u "status") (JStr (u "unknown")) ;;
  cores <- py_get entry (u "cpus") (JInt 0) ;;
  maxmem <- py_get entry (u "maxmem") (JInt 0) ;;
  mem <- py_floordiv maxmem (1024 * 1024) ;;
  Ok {| vmid := vmid; name := name; status := status; cores := cores;
        memory_mb := mem; ips := [] |}.

(** The addresses of a guest: asked only of a running guest; a failing
    query leaves the empty list. *)
Definition discover_ips (vm : VMInfo) : VMInfo :=
  if eq_str (status vm) (u "running")
  then set_ips (try_or (ips vm) (_get_vm_ips (vmid vm))) vm
  else vm.

(** The loop of [_get_vms] over the entries. *)
Fixpoint _get_vms_loop (entries : list JValue) (vms : list VMInfo)
  : result (list VMInfo) :=
  match entries with
  | [] => Ok vms
  | entry :: rest =>
      t <- py_get entry (u "template") (JInt 0) ;;
      if eq_int t 1 then _get_vms_loop rest vms
      else
        vm <- vm_of_entry entry ;;
        _get_vms_loop rest (vms ++ [discover_ips vm])
  end.

(** [ProxmoxClient._get_vms] *)
Definition _get_vms : result (list VMInfo) :=
  data <- _get (u "/nodes/" ++ target_node config ++ u "/qemu") ;;
  l <- py_get data (u "data") (JList []) ;;
  entries <- py_iter l ;;
  _get_vms_loop entries [].

(** [ProxmoxClient.discover] *)
Definition discover : result ProxmoxContext :=
  let resources := try_or NodeResources_new _get_node_resources in
  let existing_vms := try_or [] _get_vms in
  let used_ips := fold_left (fun acc vm => acc ++ ips vm) existing_vms [] in
  Ok {| node_name := target_node config;
        resources := resources;
        existing_vms := existing_vms;
        used_ips := used_ips |}.

End Client.

(** [ProxmoxClient.__init__]: the base URL of the API, whether or not the
    configured URL already ends with /api2/json. *)
Definition _base (config : ProxmoxConfig) : str :=
  let base := rstrip_chars (u "/") (api_url config) in
  let base :=
    if endswith (u "/api2/json") base
    then firstn (List.length base - List.length (u "/api2/json")) base
    else base in
  base ++ u "/api2/json".

(** The network: the reply to a GET of a URL sent with the given
    [Authorization] header, certificates verified or not. *)
Definition network : Type := str -> str -> bool -> http_reply.

(** The request [ProxmoxClient._get] sends for a path: the server a
    client built from [config] talks to. *)
Definition server_of (net : network) (config : ProxmoxConfig)
  : str -> http_reply :=
  fun path =>
    net (_base config ++ path)
        (u "PVEAPIToken=" ++ token_id config ++ u "=" ++ token_secret config)
        (verify_ssl config).

End proxmox_client.

(** ** intent_parser_llm.py *)

Module intent_parser_llm.

Import models.

(** The instruction document sent as the system message, abridged to its
    first sentence: only its being non-empty plays a role. *)
Definition SYSTEM_PROMPT : str :=
  u "You are an infrastructure planning assistant.".

(** What [parse_intent] returns: the spec with the two attributes it
    attaches to it. *)
Record Resolved : Type := {
  spec : ClusterSpec;
  _llm_reasoning : JValue;
  _llm_raw : JValue
}.

(** The table of [_json_to_spec]. *)
Definition version_map : list (str * str) :=
  [ (u "1.31", u "1.31.4-1.1");
    (u "1.30", u "1.30.8-1.1");
    (u "1.29", u "1.29.12-1.1");
    (u "1.28", u "1.28.15-1.1") ].

Fixpoint table_get (k : str) (t : list (str * str)) : option str :=
  match t with
  | [] => None
  | (k', v) :: t' => if str_eqb k' k then Some v else table_get k t'
  end.

(** [version_map.get(key, dflt)]: the keys are strs, so only a str can be
    found; a list or a dict cannot be hashed. *)
Definition version_map_get (key : JValue) (dflt : str) : result str :=
  if hashable key then
    match key with
    | JStr s => match table_get s version_map with
                | Some v => Ok v
                | None => Ok dflt
                end
    | _ => Ok dflt
    end
  else Err TypeError.

Section Parser.
Context {rt : Runtime}.

(** [re.sub(r'^```\w*\s*\n?', '', text)]: the pattern is anchored at the
    start, and its greedy parts never give back. *)
Definition sub_opening_fence (text : str) : str :=
  if startswith (u "```") text then
    let t := dropwhile isspace (dropwhile isword (skipn 3 text)) in
    match t with
    | 10%N :: t' => t'
    | _ => t
    end
  else text.

(** Whether [\n?```\s*$] matches at the head of [s]: then it matches to
    the end of the text. *)
Definition closing_fence_here (s : str) : bool :=
  let s' := match s with
            | 10%N :: t => t
            | _ => s
            end in
  startswith (u "```") s' && forallb isspace (skipn 3 s').

(** [re.sub(r'\n?```\s*$', '', text)]: the leftmost match is removed. *)
Fixpoint sub_closing_fence (text : str) : str :=
  if closing_fence_here text then []
  else match text with
       | [] => []
       | c :: t => c :: sub_closing_fence t
       end.

(** [_extract_json_from_response] *)
Definition _extract_json_from_response (text : str) : result JValue :=
  let text := strip text in
  let text :=
    if startswith (u "```") text
    then strip (sub_closing_fence (sub_opening_fence text))
    else text in
  match find 123%N text, rfind 125%N text with
  | Some start, Some end_ => json.loads (slice start (end_ + 1) text)
  | _, _ => Err ValueError
  end.

(** [_json_to_spec] *)
Definition _json_to_spec (data : dict) : result ClusterSpec :=
  let spec := ClusterSpec_new in
  (* 1. Name *)
  spec <- (if truthy (dict_get_default (u "name") JNull data) then
             v <- py_getitem (JDict data) (u "name") ;;
             let spec := set_name v spec in
             Ok (set_vm_name_prefix (py_str (name spec) ++ u "-node") spec)
           else Ok spec) ;;
  (* 2. Topology *)
  n <- py_int (dict_get_default (u "worker_count") (JInt 2) data) ;;
  let spec := set_worker_count n spec in
  n <- py_int (dict_get_default (u "control_plane_count") (JInt 1) data) ;;
  let spec := set_control_plane_count n spec in
  (* 3. Worker resources *)
  n <- py_int (dict_get_default (u "worker_cores") (JInt 2) data) ;;
  let spec := set_worker_spec (set_cores n (worker_spec spec)) spec in
  n <- py_int (dict_get_default (u "worker_memory_mb") (JInt 2048) data) ;;
  let spec := set_worker_spec (set_memory_mb n (worker_spec spec)) spec in
  (* 4. Control plane resources (enforce minimums) *)
  n <- py_int (dict_get_default (u "cp_cores") (JInt 2) data) ;;
  let spec :=
    set_control_plane_spec (set_cores (Z.max n 2) (control_plane_spec spec))
                           spec in
  n <- py_int (dict_get_default (u "cp_memory_mb") (JInt 2048) data) ;;
  let spec :=
    set_control_plane_spec
      (set_memory_mb (Z.max n 2048) (control_plane_spec spec)) spec in
  (* 5. IP start *)
  n <- py_int (dict_get_default (u "ip_start") (JInt 201) data) ;;
  let spec := set_ip_start n spec in
  (* 5. CNI *)
  spec <- (if truthy (dict_get_default (u "cni_plugin") JNull data) then
             v <- py_getitem (JDict data) (u "cni_plugin") ;;
             let spec := set_cni_plugin v spec in
             if eq_str (cni_plugin spec) (u "calico")
             then Ok (set_pod_network_cidr (u "192.168.0.0/16") spec)
             else Ok spec
           else Ok spec) ;;
  (* 6. K8s version *)
  spec <- (if truthy (dict_get_default (u "k8s_version") JNull data) then
             v <- py_getitem (JDict data) (u "k8s_version") ;;
             let spec := set_k8s_version_minor v spec in
             full <- version_map_get
                       (k8s_version_minor spec)
                       (py_str (k8s_version_minor spec) ++ u ".0-1.1") ;;
             Ok (set_k8s_version_full full spec)
           else Ok spec) ;;
  (* 7. Add-ons *)
  spec <- (if truthy (dict_get_default (u "addons") JNull data) then
             v <- py_getitem (JDict data) (u "addons") ;;
             l <- py_iter v ;;
             Ok (set_addons l spec)
           else Ok spec) ;;
  Ok spec.

(** The user message of [parse_intent].  The rendering of the Proxmox
    context ([ProxmoxContext.to_prompt_text], which formats floats) is the
    parameter [prompt_text]: a text, or the exception it raises. *)
Definition user_message
    (prompt_text : proxmox_client.ProxmoxContext -> result str)
    (text : str) (ctx : option proxmox_client.ProxmoxContext) : result str :=
  match ctx with
  | Some c =>
      t <- prompt_text c ;;
      Ok (u "Current Proxmox environment:" ++ [10%N] ++ t
          ++ [10%N; 10%N] ++ u "User request: " ++ text)
  | None => Ok text
  end.

(** [parse_intent]: [backend] is the server behind the Ollama config. *)
Definition parse_intent
    (prompt_text : proxmox_client.ProxmoxContext -> result str)
    (backend : llm.Ollama) (text : str)
    (proxmox_context : option proxmox_client.ProxmoxContext)
  : result Resolved :=
  if negb (llm.is_available backend) then Err (OllamaError NotRunning)
  else
    user_message <- user_message prompt_text text proxmox_context ;;
    response <- llm.chat backend [(llm.user, user_message)]
                  (Some SYSTEM_PROMPT) ;;
    data <- match response with
            | JStr t => _extract_json_from_response t
            | _ => Err AttributeError            (* no strip *)
            end ;;
    spec <- match data with
            | JDict d => _json_to_spec d
            | _ => Err AttributeError            (* no get *)
            end ;;
    reasoning <- py_get data (u "reasoning") (JStr []) ;;
    Ok {| spec := spec; _llm_reasoning := reasoning; _llm_raw := data |}.


End Parser.

End intent_parser_llm.

(** ** orchestrator.py *)

Module orchestrator.

Inductive Stage : Type := PACKER | TERRAFORM | ANSIBLE | ADDONS.

(** A duration in milliseconds, as measured with [time.time()]. *)
Definition duration := N.

(** The messages of a [StageResult], by the place that builds them. *)
Inductive message : Type :=
| DryRunWouldExecute (cmd : list str) (cwd : str)
| CompletedIn (elapsed : duration)
| FailedExitCode (returncode : Z)
| CommandNotFound (cmd0 : option str)
| ExceptionText (text : str)
| NoAddonsPlaybook
| DryRunWouldWait.

Record StageResult : Type := {
  stage : Stage;
  success : bool;
  duration_s : duration;
  msg : message
}.

(** How [subprocess.run(cmd, cwd=...)] ends. *)
Inductive proc_outcome : Type :=
| Exited (returncode : Z)
| FileNotFoundError
| OtherException (text : str).

(** What the pipeline does to the outside world. *)
Inductive event : Type :=
| Exec (cmd : list str) (cwd : str)
| Sleep (seconds : Z).

(** The outside world: how a command ends and how long it takes, given
    what was done before it, and whether ansible/addons.yml exists. *)
Record World : Type := {
  run_proc : list event -> list str -> str -> proc_outcome * duration;
  addons_file_exists : list event -> bool
}.

Section Pipeline.

Variable w : World.

(** [_run]: [h] is the history of events so far; the stage name is one of
    the four values of the enumeration at every call. *)
Definition _run (cmd : list str) (cwd : str) (stage_name : Stage)
    (dry_run : bool) (h : list event) : StageResult * list event :=
  if dry_run then
    ({| stage := stage_name; success := true; duration_s := 0%N;
        msg := DryRunWouldExecute cmd cwd |}, h)
  else
    let '(outcome, elapsed) := run_proc w h cmd cwd in
    let h' := h ++ [Exec cmd cwd] in
    match outcome with
    | Exited returncode =>
        if Z.eqb returncode 0
        then ({| stage := stage_name; success := true;
                 duration_s := elapsed; msg := CompletedIn elapsed |}, h')
        else ({| stage := stage_name; success := false;
                 duration_s := elapsed;
                 msg := FailedExitCode returncode |}, h')
    | FileNotFoundError =>
        ({| stage := stage_name; success := false; duration_s := elapsed;
            msg := CommandNotFound (hd_error cmd) |}, h')
    | OtherException text =>
        ({| stage := stage_name; success := false; duration_s := elapsed;
            msg := ExceptionText text |}, h')
    end.

(** [run_packer] *)
Definition run_packer (dry_run : bool) (h : list event)
  : StageResult * list event :=
  _run [u "packer"; u "build"; u "-force"; u "."] (u "packer")
       PACKER dry_run h.

(** [run_terraform] *)
Definition run_terraform (dry_run auto_approve : bool) (h : list event)
  : StageResult * list event :=
  let tf_dir := u "terraform" in
  let '(init_result, h) :=
    _run [u "terraform"; u "init"] tf_dir TERRAFORM dry_run h in
  if negb (success init_result) && negb dry_run then (init_result, h)
  else
    let '(plan_result, h) :=
      _run [u "terraform"; u "plan"; u "-out=tfplan"] tf_dir TERRAFORM
           dry_run h in
    if negb (success plan_result) && negb dry_run then (plan_result, h)
    else
      let apply_cmd := [u "terraform"; u "apply"] in
      let apply_cmd :=
        if auto_approve then apply_cmd ++ [u "-auto-approve"]
        else apply_cmd in
      let apply_cmd := apply_cmd ++ [u "tfplan"] in
      _run apply_cmd tf_dir TERRAFORM dry_run h.

(** [run_ansible] *)
Definition run_ansible (spec : models.ClusterSpec) (dry_run : bool)
    (h : list event) : StageResult * list event :=
  _run [u "ansible-playbook"; u "-i"; u "inventory.ini"; u "site.yml"]
       (u "ansible") ANSIBLE dry_run h.

(** [run_addons] *)
Definition run_addons (spec : models.ClusterSpec) (dry_run : bool)
    (h : list event) : StageResult * list event :=
  if negb (addons_file_exists w h) then
    ({| stage := ADDONS; success := true; duration_s := 0%N;
        msg := NoAddonsPlaybook |}, h)
  else
    _run [u "ansible-playbook"; u "-i"; u "inventory.ini"; u "addons.yml"]
         (u "ansible") ADDONS dry_run h.

(** [run_pipeline], from the history [h]; it returns the results and the
    history at the end.  The early return of the packer branch is the
    flag [stop]. *)
Definition run_pipeline (spec : models.ClusterSpec)
    (skip_packer auto_approve dry_run : bool) (h : list event)
  : list StageResult * list event :=
  let results : list StageResult := [] in
  (* Packer *)
  let '(results, h, stop) :=
    if negb skip_packer then
      let '(result, h) := run_packer dry_run h in
      let results := results ++ [result] in
      (results, h, negb (success result) && negb dry_run)
    else (results, h, false) in
  if stop then (results, h)
  else
    (* Terraform *)
    let '(result, h) := run_terraform dry_run auto_approve h in
    let results := results ++ [result] in
    if negb (success result) && negb dry_run then (results, h)
    else
      (* Wait for VMs to boot *)
      let '(results, h) :=
        if negb dry_run then (results, h ++ [Sleep 60])
        else (results ++ [{| stage := TERRAFORM; success := true;
                             duration_s := 0%N; msg := DryRunWouldWait |}],
              h) in
      (* Ansible *)
      let '(result, h) := run_ansible spec dry_run h in
      let results := results ++ [result] in
      if negb (success result) && negb dry_run then (results, h)
      else
        (* Add-ons *)
        match models.addons spec with
        | _ :: _ =>
            let '(result, h) := run_addons spec dry_run h in
            (results ++ [result], h)
        | [] => (results, h)
        end.

End Pipeline.

(** The stages a run goes through when none fails. *)
Definition planned_stages (spec : models.ClusterSpec) (skip_packer : bool)
  : list Stage :=
  (if skip_packer then [] else [PACKER]) ++ [TERRAFORM; ANSIBLE]
  ++ match models.addons spec with
     | _ :: _ => [ADDONS]
     | [] => []
     end.




End orchestrator.

(** ** cli.py *)

Module cli.

Import models.

(** The attributes of the parsed command line that the helpers read with
    [getattr(args, name, None)]: [None] when the option was not given. *)
Record Args : Type := {
  proxmox_url : option str;
  proxmox_token_id : option str;
  proxmox_token_secret : option str;
  target_node : option str
}.

(** The credentials dict of [_resolve_proxmox_creds], with its three
    keys. *)
Record Creds : Type := {
  api_url : str;
  token_id : str;
  token_secret : str
}.

(** [a or b] for two values that are [None] or a str. *)
Definition py_or (a b : option str) : option str :=
  match a with
  | Some (_ :: _) => a
  | _ => b
  end.

(** The answers typed at the eleven prompts of [_interactive_edit], in the
    order of the prompts, as [input()] returns them. *)
Record Answers : Type := {
  ans_name : str;
  ans_workers : str;
  ans_control_planes : str;
  ans_worker_cores : str;
  ans_worker_memory : str;
  ans_cp_cores : str;
  ans_cp_memory : str;
  ans_cni : str;
  ans_k8s_version : str;
  ans_ip_start : str;
  ans_addons : str
}.

Section Cli.
Context {rt : Runtime}.

(** A match at the head of [s] of the pattern of [_resolve_proxmox_creds]:
    the variable, white space, an equal sign, white space, and a text
    between double quotes that holds none.  The result is that text. *)
Definition match_assignment (var s : str) : option str :=
  if startswith var s then
    match dropwhile isspace (skipn (List.length var) s) with
    | e :: s1 =>
        if N.eqb e 61 then
          match dropwhile isspace s1 with
          | q :: s2 =>
              if N.eqb q 34 then
                match find 34%N s2 with
                | Some i => Some (firstn i s2)
                | None => None
                end
              else None
          | [] => None
          end
        else None
    | [] => None
    end
  else None.

(** [re.search] of that pattern anchored with [^] under [re.MULTILINE]:
    the group of the leftmost match; the anchor matches at the start of
    the text and after every newline. *)
Fixpoint search_from (var : str) (line_start : bool) (s : str)
  : option str :=
  match (if line_start then match_assignment var s else None) with
  | Some g => Some g
  | None =>
      match s with
      | [] => None
      | c :: s' => search_from var (N.eqb c 10) s'
      end
  end.

Definition search_assignment (var content : str) : option str :=
  search_from var true content.

(** [_resolve_proxmox_creds].  [environ] is [os.environ.get]; [tfvars] is
    the file terraform/terraform.tfvars: [None] when it does not exist,
    otherwise what [read_text] gives. *)
Definition _resolve_proxmox_creds (args : Args)
    (environ : str -> option str) (tfvars : option (result str))
  : result (option Creds) :=
  let api_url := py_or (proxmox_url args) (environ (u "PROXMOX_API_URL")) in
  let token_id :=
    py_or (proxmox_token_id args) (environ (u "PROXMOX_API_TOKEN_ID")) in
  let token_secret :=
    py_or (proxmox_token_secret args)
          (environ (u "PROXMOX_API_TOKEN_SECRET")) in
  match api_url, token_id, token_secret with
  | Some ((_ :: _) as a), Some ((_ :: _) as t), Some ((_ :: _) as s) =>
      Ok (Some {| api_url := a; token_id := t; token_secret := s |})
  | _, _, _ =>
      match tfvars with
      | Some file =>
          content <- file ;;
          match search_assignment (u "proxmox_api_url") content,
                search_assignment (u "proxmox_api_token_id") content,
                search_assignment (u "proxmox_api_token_secret") content
          with
          | Some a, Some t, Some s =>
              Ok (Some {| api_url := a; token_id := t; token_secret := s |})
          | _, _, _ => Ok None
          end
      | None => Ok None
      end
  end.

(** [_discover_proxmox] *)
Definition _discover_proxmox (net : proxmox_client.network) (args : Args)
    (environ : str -> option str) (tfvars : option (result str))
  : result (option proxmox_client.ProxmoxContext) :=
  creds <- _resolve_proxmox_creds args environ tfvars ;;
  match creds with
  | None => Ok None
  | Some creds =>
      let config := {|
        proxmox_client.api_url := api_url creds;
        proxmox_client.token_id := token_id creds;
        proxmox_client.token_secret := token_secret creds;
        proxmox_client.target_node :=
          match target_node args with
          | Some ((_ :: _) as node) => node
          | _ => u "pve1"
          end;
        proxmox_client.verify_ssl := false
      |} in
      let server := proxmox_client.server_of net config in
      if negb (proxmox_client.is_available server) then Ok None
      else
        ctx <- proxmox_client.discover server config ;;
        Ok (Some ctx)
  end.

(** [_interactive_edit]: an empty answer keeps the current value. *)
Definition _interactive_edit (spec : ClusterSpec) (a : Answers)
  : result ClusterSpec :=
  let val := strip (ans_name a) in
  let spec :=
    match val with
    | _ :: _ => set_vm_name_prefix (val ++ u "-node") (set_name (JStr val) spec)
    | [] => spec
    end in
  let val := strip (ans_workers a) in
  spec <- match val with
          | _ :: _ => n <- int_of_str val ;; Ok (set_worker_count n spec)
          | [] => Ok spec
          end ;;
  let val := strip (ans_control_planes a) in
  spec <- match val with
          | _ :: _ =>
              n <- int_of_str val ;; Ok (set_control_plane_count n spec)
          | [] => Ok spec
          end ;;
  let val := strip (ans_worker_cores a) in
  spec <- match val with
          | _ :: _ =>
              n <- int_of_str val ;;
              Ok (set_worker_spec (set_cores n (worker_spec spec)) spec)
          | [] => Ok spec
          end ;;
  let val := strip (ans_worker_memory a) in
  spec <- match val with
          | _ :: _ =>
              n <- int_of_str val ;;
              Ok (set_worker_spec (set_memory_mb n (worker_spec spec)) spec)
          | [] => Ok spec
          end ;;
  let val := strip (ans_cp_cores a) in
  spec <- match val with
          | _ :: _ =>
              n <- int_of_str val ;;
              Ok (set_control_plane_spec
                    (set_cores n (control_plane_spec spec)) spec)
          | [] => Ok spec
          end ;;
  let val := strip (ans_cp_memory a) in
  spec <- match val with
          | _ :: _ =>
              n <- int_of_str val ;;
              Ok (set_control_plane_spec
                    (set_memory_mb n (control_plane_spec spec)) spec)
          | [] => Ok spec
          end ;;
  let val := strip (ans_cni a) in
  let spec :=
    match val with
    | _ :: _ => set_cni_plugin (JStr val) spec
    | [] => spec
    end in
  let val := strip (ans_k8s_version a) in
  let spec :=
    match val with
    | _ :: _ => set_k8s_version_minor (JStr val) spec
    | [] => spec
    end in
  let val := strip (ans_ip_start a) in
  spec <- match val with
          | _ :: _ => n <- int_of_str val ;; Ok (set_ip_start n spec)
          | [] => Ok spec
          end ;;
  (* the prompt of the last question joins the current add-ons *)
  _ <- str_items (addons spec) ;;
  let val := strip (ans_addons a) in
  let spec :=
    match val with
    | _ :: _ =>
        set_addons (map (fun a => JStr (strip a)) (split_on 44%N val)) spec
    | [] => spec
    end in
  Ok spec.

End Cli.

End cli.

(** ** An instance of the interpreter

    The instance used to run the definitions on concrete inputs.  It is
    exact on ASCII text and on integers; white space is the full Unicode
    table.  No character outside ASCII counts as a letter or a digit, a
    float is printed as a placeholder and a str is quoted without
    escapes: the concrete runs below stay within ASCII and print no
    float. *)

Definition float_of_Z (n : Z) : spec_float :=
  binary_normalize 53 1024 n 0 false.

Definition floor_quotient (f : spec_float) (n : Z) : spec_float :=
  match f with
  | S754_finite s m e =>
      let a := if s then Zneg m else Zpos m in
      let q := match e with
               | Zneg p => (a / (2 ^ Zpos p * n))%Z
               | _ => (a * 2 ^ e / n)%Z
               end in
      binary_normalize 53 1024 q 0 s
  | S754_infinity _ => S754_nan
  | _ => f
  end.

Definition runtime_ascii : Runtime := {|
  uni_isspace := fun c =>
    existsb (N.eqb c)
      [133; 160; 5760; 8192; 8193; 8194; 8195; 8196; 8197; 8198; 8199;
       8200; 8201; 8202; 8232; 8233; 8239; 8287; 12288]%N;
  uni_isword := fun _ => false;
  uni_decimal := fun _ => None;
  repr_float := fun _ => u "float";
  repr_str := fun s => u "'" ++ s ++ u "'";
  float_floordiv := floor_quotient;
  float_truediv := fun f n => SFdiv 53 1024 f (float_of_Z n);
  int_truediv := fun a n =>
    match SFdiv 53 1024 (float_of_Z a) (float_of_Z n) with
    | S754_infinity _ => Err OverflowError
    | f => Ok f
    end
|}.

(** ** Vocabulary of the statements *)

(** The seven numeric fields of a backend response, with the key and the
    default [_json_to_spec] uses for each, the floor it applies, and the
    attribute of the spec it assigns. *)
Inductive numeric_field : Type :=
| F_worker_count
| F_control_plane_count
| F_worker_cores
| F_worker_memory_mb
| F_cp_cores
| F_cp_memory_mb
| F_ip_start.

Definition numeric_fields : list numeric_field :=
  [F_worker_count; F_control_plane_count; F_worker_cores;
   F_worker_memory_mb; F_cp_cores; F_cp_memory_mb; F_ip_start].

Definition field_key (f : numeric_field) : str :=
  match f with
  | F_worker_count => u "worker_count"
  | F_control_plane_count => u "control_plane_count"
  | F_worker_cores => u "worker_cores"
  | F_worker_memory_mb => u "worker_memory_mb"
  | F_cp_cores => u "cp_cores"
  | F_cp_memory_mb => u "cp_memory_mb"
  | F_ip_start => u "ip_start"
  end.

Definition field_default (f : numeric_field) : Z :=
  match f with
  | F_worker_count => 2
  | F_control_plane_count => 1
  | F_worker_cores => 2
  | F_worker_memory_mb => 2048
  | F_cp_cores => 2
  | F_cp_memory_mb => 2048
  | F_ip_start => 201
  end.

Definition field_floor (f : numeric_field) (n : Z) : Z :=
  match f with
  | F_cp_cores => Z.max n 2
  | F_cp_memory_mb => Z.max n 2048
  | _ => n
  end.

Definition field_value (f : numeric_field) (s : models.ClusterSpec) : Z :=
  match f with
  | F_worker_count => models.worker_count s
  | F_control_plane_count => models.control_plane_count s
  | F_worker_cores => models.cores (models.worker_spec s)
  | F_worker_memory_mb => models.memory_mb (models.worker_spec s)
  | F_cp_cores => models.cores (models.control_plane_spec s)
  | F_cp_memory_mb => models.memory_mb (models.control_plane_spec s)
  | F_ip_start => models.ip_start s
  end.

(** [int(data.get(key, default))] for a numeric field. *)
Definition field_parsed {rt : Runtime} (f : numeric_field) (data : dict)
  : result Z :=
  py_int (dict_get_default (field_key f) (JInt (field_default f)) data).

(** [data.get(k)] *)
Definition opt (data : dict) (k : string) : JValue :=
  dict_get_default (u k) JNull data.

(** The normal form of [_json_to_spec]: the seven integers it parses, the
    package version and the add-on list it computes, and the spec it
    builds from them, written without the intermediate assignments. *)
Definition resolved_k8s_full {rt : Runtime} (data : dict) : result str :=
  let v := opt data "k8s_version" in
  if truthy v then
    intent_parser_llm.version_map_get v (py_str v ++ u ".0-1.1")
  else Ok (u "1.31.4-1.1").

Definition resolved_addons {rt : Runtime} (data : dict)
  : result (list JValue) :=
  let v := opt data "addons" in
  if truthy v then py_iter v else Ok [].

Definition resolved_spec {rt : Runtime} (data : dict)
    (wc cpc wcores wmem cpcores cpmem ips : Z)
    (full : str) (ads : list JValue) : models.ClusterSpec :=
  let vn := opt data "name" in
  let vc := opt data "cni_plugin" in
  let vk := opt data "k8s_version" in
  {| models.name := if truthy vn then vn else JStr (u "k8s-cluster");
     models.vm_name_prefix :=
       if truthy vn then py_str vn ++ u "-node" else u "k8s-node";
     models.control_plane_count := cpc;
     models.worker_count := wc;
     models.control_plane_spec :=
       {| models.cores := Z.max cpcores 2;
          models.memory_mb := Z.max cpmem 2048;
          models.disk_size := u "20G" |};
     models.worker_spec :=
       {| models.cores := wcores; models.memory_mb := wmem;
          models.disk_size := u "20G" |};
     models.k8s_version_minor := if truthy vk then vk else JStr (u "1.31");
     models.k8s_version_full := full;
     models.pod_network_cidr :=
       if truthy vc && eq_str vc (u "calico")
       then u "192.168.0.0/16" else u "10.244.0.0/16";
     models.cni_plugin := if truthy vc then vc else JStr (u "flannel");
     models.ip_start := ips;
     models.ip_prefix := u "10.40.19.";
     models.ip_gateway := u "10.40.19.254";
     models.dns_server := u "10.40.2.1";
     models.network_bridge := u "vmbr0";
     models.target_node := u "pve1";
     models.template_id := 990;
     models.storage := u "local-lvm";
     models.addons := ads;
     models.ssh_user := u "ubuntu";
     models.ssh_password := u "ubuntu" |}.

Definition resolve {rt : Runtime} (data : dict) : result models.ClusterSpec :=
  wc <- field_parsed F_worker_count data ;;
  cpc <- field_parsed F_control_plane_count data ;;
  wcores <- field_parsed F_worker_cores data ;;
  wmem <- field_parsed F_worker_memory_mb data ;;
  cpcores <- field_parsed F_cp_cores data ;;
  cpmem <- field_parsed F_cp_memory_mb data ;;
  ips <- field_parsed F_ip_start data ;;
  full <- resolved_k8s_full data ;;
  ads <- resolved_addons data ;;
  Ok (resolved_spec data wc cpc wcores wmem cpcores cpmem ips full ads).

(** The text from the first opening brace to the last closing brace. *)
Definition brace_span (s : str) : option str :=
  match find 123%N s, rfind 125%N s with
  | Some a, Some b => Some (slice a (b + 1) s)
  | _, _ => None
  end.

Definition is_brace (c : char) : bool := N.eqb c 123 || N.eqb c 125.

(** A text without braces. *)
Definition brace_free (s : str) : bool := forallb (fun c => negb (is_brace c)) s.

(** A text between markdown fences: the opening fence, bare or tagged
    json, on a line of its own, and optionally the closing fence on a
    line of its own. *)
Definition fenced (tagged closing : bool) (t : str) : str :=
  u "```" ++ (if tagged then u "json" else []) ++ [10%N] ++ t
  ++ (if closing then [10%N] ++ u "```" else []).

(** An operation that only trims brace-free text from the two ends. *)
Definition trims (s s' : str) : Prop :=
  exists p q, s = p ++ s' ++ q /\ brace_free p = true /\ brace_free q = true.




(** The default spec with one add-on. *)
Definition spec_with_addon : models.ClusterSpec :=
  models.set_addons [JStr (u "metrics-server")] models.ClusterSpec_new.

(** The guests of a guest list as [_get_vms] records them before it asks
    for their addresses: templates are skipped. *)
Fixpoint guests_of {rt : Runtime} (entries : list JValue)
  : result (list proxmox_client.VMInfo) :=
  match entries with
  | [] => Ok []
  | entry :: rest =>
      t <- py_get entry (u "template") (JInt 0) ;;
      if eq_int t 1 then guests_of rest
      else
        vm <- proxmox_client.vm_of_entry entry ;;
        vms <- guests_of rest ;;
        Ok (vm :: vms)
  end.

(** A Proxmox server for a concrete run: the node status cannot be
    fetched; the guest list holds a running guest whose agent does not
    answer, a running guest with a loopback and a LAN address, a template
    and a stopped guest. *)
Definition server_degraded (path : str) : http_reply :=
  if str_eqb path (u "/nodes/pve1/status") then URLError
  else if str_eqb path (u "/nodes/pve1/qemu") then
    Body (js "{'data': [
      {'vmid': 100, 'name': 'web', 'status': 'running', 'cpus': 2, 'maxmem': 2147483648},
      {'vmid': 101, 'name': 'db', 'status': 'running', 'cpus': 4, 'maxmem': 4294967296},
      {'vmid': 990, 'name': 'ubuntu-tpl', 'status': 'stopped', 'template': 1},
      {'vmid': 102, 'status': 'stopped'}]}")
  else if str_eqb path
            (u "/nodes/pve1/qemu/100/agent/network-get-interfaces")
  then HTTPError
  else if str_eqb path
            (u "/nodes/pve1/qemu/101/agent/network-get-interfaces")
  then
    Body (js "{'data': {'result': [
      {'name': 'lo', 'ip-addresses': [
         {'ip-address-type': 'ipv4', 'ip-address': '127.0.0.1'}]},
      {'name': 'eth0', 'ip-addresses': [
         {'ip-address-type': 'ipv4', 'ip-address': '10.40.19.201'},
         {'ip-address-type': 'ipv6', 'ip-address': 'fe80::1'}]}]}}")
  else HTTPError.

Definition config_pve1 : proxmox_client.ProxmoxConfig := {|
  proxmox_client.api_url := u "https://10.40.19.230:8006/api2/json";
  proxmox_client.token_id := u "packer@pam!setup";
  proxmox_client.token_secret := u "secret";
  proxmox_client.target_node := u "pve1";
  proxmox_client.verify_ssl := false
|}.




(** ** Vocabulary of the further properties *)

(** The keys [_json_to_spec] reads from the backend object. *)
Definition known_keys : list str :=
  [u "name"; u "worker_count"; u "control_plane_count"; u "worker_cores";
   u "worker_memory_mb"; u "cp_cores"; u "cp_memory_mb"; u "ip_start";
   u "cni_plugin"; u "k8s_version"; u "addons"].


(** The number of digits [int] accepts in a text and [str] writes for an
    int (the default of [sys.get_int_max_str_digits()]), and the number of
    digits of an integer. *)
Definition int_max_str_digits : nat := 4300.

Definition decimal_digits (n : Z) : nat := List.length (str_of_Z (Z.abs n)).

(** A server that lists two models, and one whose second entry has no
    name. *)
Definition backend_two_models : llm.Ollama := {|
  llm.get_tags :=
    Body (js "{'models': [{'name': 'llama3:latest', 'size': 4661224676}, {'name': 'mistral:7b'}]}");
  llm.post_chat := fun _ => URLError
|}.

Definition backend_nameless_model : llm.Ollama := {|
  llm.get_tags :=
    Body (js "{'models': [{'name': 'llama3:latest'}, {'model': 'mistral:7b'}]}");
  llm.post_chat := fun _ => URLError
|}.


(** An address [_get_vm_ips] reports: not empty and not in 127.0.0.0/8. *)
Definition reported_address (ip : str) : bool :=
  negb (str_eqb ip []) && negb (startswith (u "127.") ip).

Definition reported (l : list str) : Prop :=
  Forall (fun ip => reported_address ip = true) l.

(** [config] with another API URL. *)
Definition set_api_url (url : str) (config : proxmox_client.ProxmoxConfig)
  : proxmox_client.ProxmoxConfig := {|
  proxmox_client.api_url := url;
  proxmox_client.token_id := proxmox_client.token_id config;
  proxmox_client.token_secret := proxmox_client.token_secret config;
  proxmox_client.target_node := proxmox_client.target_node config;
  proxmox_client.verify_ssl := proxmox_client.verify_ssl config
|}.

(** The commands of the pipeline, as events. *)
Definition packer_command : orchestrator.event :=
  orchestrator.Exec [u "packer"; u "build"; u "-force"; u "."] (u "packer").

Definition terraform_apply (auto_approve : bool) : orchestrator.event :=
  orchestrator.Exec
    ([u "terraform"; u "apply"]
     ++ (if auto_approve then [u "-auto-approve"] else [])
     ++ [u "tfplan"])
    (u "terraform").

Definition terraform_commands (auto_approve : bool)
  : list orchestrator.event :=
  [ orchestrator.Exec [u "terraform"; u "init"] (u "terraform");
    orchestrator.Exec [u "terraform"; u "plan"; u "-out=tfplan"]
                      (u "terraform");
    terraform_apply auto_approve ].

Definition ansible_command : orchestrator.event :=
  orchestrator.Exec
    [u "ansible-playbook"; u "-i"; u "inventory.ini"; u "site.yml"]
    (u "ansible").

Definition addons_command : orchestrator.event :=
  orchestrator.Exec
    [u "ansible-playbook"; u "-i"; u "inventory.ini"; u "addons.yml"]
    (u "ansible").

(** The command and the directory of an [Exec] event. *)
Definition event_cmd (e : orchestrator.event) : list str :=
  match e with
  | orchestrator.Exec cmd _ => cmd
  | orchestrator.Sleep _ => []
  end.

Definition event_cwd (e : orchestrator.event) : str :=
  match e with
  | orchestrator.Exec _ cwd => cwd
  | orchestrator.Sleep _ => []
  end.

(** How the [j]-th command of [cmds] ends when the commands before it
    have been run from the history [h]. *)
Definition command_outcome (w : orchestrator.World)
    (h : list orchestrator.event) (cmds : list orchestrator.event) (j : nat)
  : option orchestrator.proc_outcome :=
  match nth_error cmds j with
  | Some (orchestrator.Exec cmd cwd) =>
      Some (fst (orchestrator.run_proc w (h ++ firstn j cmds) cmd cwd))
  | _ => None
  end.

(** A world in which every command exits with status 0 after two
    seconds and the add-on playbook exists; and one in which terraform
    plan exits with status 1. *)
Definition world_all_succeed : orchestrator.World := {|
  orchestrator.run_proc := fun _ _ _ => (orchestrator.Exited 0, 2000%N);
  orchestrator.addons_file_exists := fun _ => true
|}.

Definition world_plan_fails : orchestrator.World := {|
  orchestrator.run_proc := fun _ cmd _ =>
    if existsb (str_eqb (u "plan")) cmd
    then (orchestrator.Exited 1, 500%N)
    else (orchestrator.Exited 0, 2000%N);
  orchestrator.addons_file_exists := fun _ => true
|}.

(** The eleven answers of [_interactive_edit], in the order of the
    prompts. *)
Definition answers_list (a : cli.Answers) : list str :=
  [cli.ans_name a; cli.ans_workers a; cli.ans_control_planes a;
   cli.ans_worker_cores a; cli.ans_worker_memory a; cli.ans_cp_cores a;
   cli.ans_cp_memory a; cli.ans_cni a; cli.ans_k8s_version a;
   cli.ans_ip_start a; cli.ans_addons a].

(** Enter pressed at every prompt but the given ones. *)
Definition no_answers : cli.Answers := {|
  cli.ans_name := []; cli.ans_workers := []; cli.ans_control_planes := [];
  cli.ans_worker_cores := []; cli.ans_worker_memory := [];
  cli.ans_cp_cores := []; cli.ans_cp_memory := []; cli.ans_cni := [];
  cli.ans_k8s_version := []; cli.ans_ip_start := []; cli.ans_addons := []
|}.

(** The fields of a spec that [_interactive_edit] has no prompt for. *)
Definition unprompted_fields (s : models.ClusterSpec)
  : list str * Z * list str :=
  ([models.k8s_version_full s; models.pod_network_cidr s;
    models.ip_prefix s; models.ip_gateway s; models.dns_server s;
    models.network_bridge s; models.target_node s; models.storage s],
   models.template_id s,
   [models.ssh_user s; models.ssh_password s;
    models.disk_size (models.control_plane_spec s);
    models.disk_size (models.worker_spec s)]).

(** The answers of a user who switches to calico, to Kubernetes 1.30 and
    to a single core per control plane. *)
Definition answers_calico : cli.Answers := {|
  cli.ans_name := []; cli.ans_workers := []; cli.ans_control_planes := [];
  cli.ans_worker_cores := []; cli.ans_worker_memory := [];
  cli.ans_cp_cores := u " 1"; cli.ans_cp_memory := [];
  cli.ans_cni := u "calico "; cli.ans_k8s_version := u "1.30";
  cli.ans_ip_start := []; cli.ans_addons := u "metallb, ,argocd"
|}.

(** Two specs that differ at most in the fields the first five prompts
    of [_interactive_edit] and its prompts for the first octet and the
    add-ons can change. *)
Definition same_frame (s t : models.ClusterSpec) : Prop :=
  unprompted_fields s = unprompted_fields t /\
  models.cni_plugin s = models.cni_plugin t /\
  models.k8s_version_minor s = models.k8s_version_minor t /\
  models.control_plane_spec s = models.control_plane_spec t.

(** Whether a value that is [None] or a str is truthy. *)
Definition given (x : option str) : bool :=
  match x with
  | Some (_ :: _) => true
  | _ => false
  end.

(** What [_resolve_proxmox_creds] takes from the command line and the
    environment for its three values. *)
Definition arg_api_url (args : cli.Args) (environ : str -> option str)
  : option str :=
  cli.py_or (cli.proxmox_url args) (environ (u "PROXMOX_API_URL")).

Definition arg_token_id (args : cli.Args) (environ : str -> option str)
  : option str :=
  cli.py_or (cli.proxmox_token_id args) (environ (u "PROXMOX_API_TOKEN_ID")).

Definition arg_token_secret (args : cli.Args) (environ : str -> option str)
  : option str :=
  cli.py_or (cli.proxmox_token_secret args)
            (environ (u "PROXMOX_API_TOKEN_SECRET")).

(** The three values of a terraform.tfvars text. *)
Definition tfvars_creds {rt : Runtime} (content : str) : option cli.Creds :=
  match cli.search_assignment (u "proxmox_api_url") content,
        cli.search_assignment (u "proxmox_api_token_id") content,
        cli.search_assignment (u "proxmox_api_token_secret") content
  with
  | Some a, Some t, Some s =>
      Some {| cli.api_url := a; cli.token_id := t; cli.token_secret := s |}
  | _, _, _ => None
  end.

(** The configuration [_discover_proxmox] builds from the credentials. *)
Definition config_of_creds (args : cli.Args) (c : cli.Creds)
  : proxmox_client.ProxmoxConfig := {|
  proxmox_client.api_url := cli.api_url c;
  proxmox_client.token_id := cli.token_id c;
  proxmox_client.token_secret := cli.token_secret c;
  proxmox_client.target_node :=
    match cli.target_node args with
    | Some ((_ :: _) as node) => node
    | _ => u "pve1"
    end;
  proxmox_client.verify_ssl := false
|}.

(** A command line that gives the URL and the token id but no secret, an
    empty environment, and a terraform.tfvars with three values. *)
Definition args_without_secret : cli.Args := {|
  cli.proxmox_url := Some (u "https://cli.example:8006");
  cli.proxmox_token_id := Some (u "cli@pam!token");
  cli.proxmox_token_secret := None;
  cli.target_node := None
|}.

Definition no_environ : str -> option str := fun _ => None.

Definition tfvars_three : str :=
  js "# generated
proxmox_api_url          = 'https://10.40.19.230:8006/api2/json'
proxmox_api_token_id     = 'packer@pam!setup'
proxmox_api_token_secret = 's3cr3t'
target_node = 'pve1'
".

(** A line of terraform.tfvars that assigns the quoted [value] to [var],
    with the paddings [p] and [q] around the equal sign. *)
Definition assignment (var p q value : str) : str :=
  var ++ p ++ [61%N] ++ q ++ [34%N] ++ value ++ [34%N].

(** Spaces and tabs. *)
Definition blanks (p : str) : bool :=
  forallb (fun c => N.eqb c 32 || N.eqb c 9) p.

(** A text without the character [c]. *)
Definition without_char (c : char) (s : str) : bool :=
  forallb (fun x => negb (N.eqb x c)) s.

(** A network on which only the host of the concrete configuration
    answers, as the degraded server does; and one that answers nothing. *)
Definition network_degraded : proxmox_client.network :=
  fun url _ _ =>
    if startswith (u "https://10.40.19.230:8006/api2/json") url
    then
      let path := skipn 35 url in
      if str_eqb path (u "/version")
      then Body (js "{'data': {'version': '8.2.4'}}")
      else server_degraded path
    else URLError.

Definition network_down : proxmox_client.network := fun _ _ _ => URLError.



(** The width of the frame of [summary]. *)
Definition frame_width : nat := 52.

(** The digits [summary] counts to pad a CPU/Memory row. *)
Definition resource_digits (n : models.NodeSpec) : nat :=
  List.length (str_of_Z (models.cores n))
  + List.length (str_of_Z (models.memory_mb n)).

(** A backend that answers the chat request with a fenced object. *)
Definition backend_fenced : llm.Ollama := {|
  llm.get_tags := Body (js "{'models': [{'name': 'llama3:latest'}]}");
  llm.post_chat := fun _ =>
    Body (js "{'model': 'llama3', 'message': {'role': 'assistant', 'content': '```json\n{\'name\': \'dev\', \'worker_count\': 3, \'cni_plugin\': \'calico\', \'reasoning\': \'a small cluster\'}\n```'}, 'done': true}")
|}.

(** A guest list whose second entry is not an object. *)
Definition server_bad_entry (path : str) : http_reply :=
  if str_eqb path (u "/nodes/pve1/qemu") then
    Body (js "{'data': [{'vmid': 100, 'name': 'web', 'status': 'stopped'}, 'vm-101']}")
  else HTTPError.

(** A backend that answers the probe with a list of no models. *)
Definition backend_no_model : llm.Ollama := {|
  llm.get_tags := Body (js "{'models': []}");
  llm.post_chat := fun _ => HTTPError
|}.

(* ===================================================================== *)
(** * Properties *)
(* ===================================================================== *)

Unset Implicit Arguments.

(** ** Strings and integers *)

Lemma str_eqb_eq (a b : str) : str_eqb a b = true <-> a = b.
Proof.
  revert b; induction a as [|x a IH]; intros [|y b]; simpl;
    try (split; [discriminate | congruence]); try tauto.
  rewrite andb_true_iff, N.eqb_eq, IH. split.
  - intros [-> ->]; reflexivity.
  - intros [= -> ->]; auto.
Qed.

Lemma str_eqb_refl (a : str) : str_eqb a a = true.
Proof. apply str_eqb_eq; reflexivity. Qed.

Lemma str_eqb_neq (a b : str) : str_eqb a b = false <-> a <> b.
Proof.
  rewrite <- str_eqb_eq. destruct (str_eqb a b); split; congruence.
Qed.

Lemma u_inj (a b : string) : u a = u b -> a = b.
Proof.
  unfold u. revert b; induction a as [|x a IH]; intros [|y b]; simpl;
    try discriminate; auto.
  intros [= Hxy Hab]. f_equal; auto.
  rewrite <- (ascii_N_embedding x), <- (ascii_N_embedding y), Hxy.
  reflexivity.
Qed.

Lemma to_int_not_nil (n : Z) :
  Z.to_int n <> Decimal.Pos Decimal.Nil /\ Z.to_int n <> Decimal.Neg Decimal.Nil.
Proof.
  destruct n; simpl; split; try discriminate;
    intros [= H]; now apply (DecimalPos.Unsigned.to_uint_nonnil p).
Qed.

Lemma str_of_Z_inj (a b : Z) : str_of_Z a = str_of_Z b -> a = b.
Proof.
  unfold str_of_Z. intros H. apply u_inj in H.
  apply DecimalZ.to_int_inj.
  destruct (to_int_not_nil a) as [Ha1 Ha2], (to_int_not_nil b) as [Hb1 Hb2].
  pose proof (NilZero.isi _ Ha1 Ha2) as Ea.
  pose proof (NilZero.isi _ Hb1 Hb2) as Eb.
  rewrite H in Ea. congruence.
Qed.

(** ** json.loads: the fuel is enough *)

Section Decoder.
Import json.

Lemma dropwhile_length (f : char -> bool) (s : str) :
  (List.length (dropwhile f s) <= List.length s)%nat.
Proof.
  induction s as [|c s IH]; simpl; [lia|].
  destruct (f c); simpl; lia.
Qed.

Lemma skip_ws_length (s : str) :
  (List.length (skip_ws s) <= List.length s)%nat.
Proof. apply dropwhile_length. Qed.

(** [scanstring] consumes at least the closing quote, and fails only with
    JSONDecodeError. *)
Lemma scanstring_spec (n : nat) :
  forall (s acc : str), (List.length s <= n)%nat ->
    match scanstring acc s with
    | Ok (k, r) => (List.length r < List.length s)%nat
    | Err e => e = JSONDecodeError
    end.
Proof.
  induction n as [|n IH]; intros s acc Hn.
  - destruct s; [reflexivity | simpl in Hn; lia].
  - assert (Hrec : forall t acc' m,
              (List.length t < List.length s)%nat ->
              (List.length s <= m + List.length t)%nat ->
              match scanstring acc' t with
              | Ok (k, r) => (List.length r < List.length s)%nat
              | Err e => e = JSONDecodeError
              end).
    { intros t acc' m Hlt _.
      specialize (IH t acc' ltac:(lia)).
      destruct (scanstring acc' t) as [[k r]|e]; [lia | assumption]. }
    destruct s as [|c s1]; [reflexivity|]. cbn [scanstring].
    destruct (N.eqb c 34); [simpl; lia|].
    destruct (N.eqb c 92).
    + destruct s1 as [|e s2]; [reflexivity|].
      destruct (N.eqb e 117).
      * destruct s2 as [|a [|b [|c1 [|d s3]]]]; try reflexivity.
        destruct (hex4 a b c1 d) as [hi|]; [|reflexivity].
        destruct s3 as [|bs [|lu [|a' [|b' [|c' [|d' s4]]]]]];
          try (apply (Hrec _ _ 6%nat); simpl; lia).
        destruct (is_high_surrogate hi && N.eqb bs 92 && N.eqb lu 117);
          [|apply (Hrec _ _ 6%nat); simpl; lia].
        destruct (hex4 a' b' c' d') as [lo|]; [|reflexivity].
        destruct (is_low_surrogate lo);
          apply (Hrec _ _ 12%nat); simpl; lia.
      * destruct (simple_escape e); [|reflexivity].
        apply (Hrec _ _ 2%nat); simpl; lia.
    + destruct (N.leb c 31); [reflexivity|].
      apply (Hrec _ _ 1%nat); simpl; lia.
Qed.

Lemma span_digits_length (s ds r : str) :
  span_digits s = (ds, r) -> (List.length r <= List.length s)%nat.
Proof.
  revert ds r; induction s as [|c s IH]; intros ds r; simpl.
  - intros [= <- <-]. simpl. lia.
  - destruct (is_digit c).
    + destruct (span_digits s) as [ds' r'] eqn:E. intros [= <- <-].
      specialize (IH _ _ eq_refl). lia.
    + intros [= <- <-]. simpl. lia.
Qed.

Lemma int_part_length (s ip r : str) :
  int_part s = Some (ip, r) -> (List.length r < List.length s)%nat.
Proof.
  unfold int_part. destruct s as [|c t]; [discriminate|].
  destruct (N.eqb c 48); [intros [= <- <-]; simpl; lia|].
  destruct (N.leb 49 c && N.leb c 57); [|discriminate].
  destruct (span_digits t) as [ds r'] eqn:E. intros [= <- <-].
  apply span_digits_length in E. simpl. lia.
Qed.

Lemma frac_part_length (s fp r : str) :
  frac_part s = (fp, r) -> (List.length r <= List.length s)%nat.
Proof.
  unfold frac_part. destruct s as [|p [|d t]];
    try (intros [= <- <-]; simpl; lia).
  destruct (N.eqb p 46 && is_digit d); [|intros [= <- <-]; simpl; lia].
  destruct (span_digits t) as [ds r'] eqn:E. intros [= <- <-].
  apply span_digits_length in E. simpl. lia.
Qed.

Lemma exp_part_length (s r : str) (ex : option Z) :
  exp_part s = (ex, r) -> (List.length r <= List.length s)%nat.
Proof.
  unfold exp_part. destruct s as [|e t]; [intros [= <- <-]; simpl; lia|].
  destruct (N.eqb e 101 || N.eqb e 69); [|intros [= <- <-]; simpl; lia].
  match goal with
  | |- (let '(neg, t1) := ?x in _) = _ -> _ =>
      assert (Ht : (List.length (snd x) <= List.length t)%nat);
        [|destruct x as [neg t1]]
  end.
  { destruct t as [|sg [|y t']]; simpl; try lia.
    destruct (N.eqb sg 45); [simpl; lia|].
    destruct (N.eqb sg 43); simpl; lia. }
  cbn [snd] in Ht.
  destruct (span_digits t1) as [ds r'] eqn:E.
  apply span_digits_length in E.
  destruct ds; intros [= <- <-]; simpl; lia.
Qed.

Lemma match_number_length (s r : str) (v : JValue) :
  match_number s = Some (v, r) -> (List.length r < List.length s)%nat.
Proof.
  unfold match_number.
  match goal with
  | |- (let '(neg, s1) := ?x in _) = _ -> _ =>
      assert (Hs : (List.length (snd x) <= List.length s)%nat);
        [|destruct x as [neg s1]]
  end.
  { destruct s as [|c t]; simpl; [lia|].
    destruct (N.eqb c 45); simpl; lia. }
  cbn [snd] in Hs.
  destruct (int_part s1) as [[ip r0]|] eqn:E0; [|discriminate].
  apply int_part_length in E0.
  destruct (frac_part r0) as [fp r1] eqn:E1. apply frac_part_length in E1.
  destruct (exp_part r1) as [ex r2] eqn:E2. apply exp_part_length in E2.
  destruct fp, ex; intros [= <- <-]; lia.
Qed.

Lemma startswith_length (p s : str) :
  startswith p s = true -> (List.length p <= List.length s)%nat.
Proof.
  revert s; induction p as [|x p IH]; intros [|y s]; simpl;
    try discriminate; try lia.
  intros H. apply andb_true_iff in H. destruct H as [_ H].
  specialize (IH s H). lia.
Qed.

Lemma skipn_shorter (k : nat) (p s : str) :
  startswith p s = true -> List.length p = k -> (0 < k)%nat ->
  (List.length (skipn k s) < List.length s)%nat.
Proof.
  intros H Hk Hpos. apply startswith_length in H.
  rewrite length_skipn. lia.
Qed.

Lemma match_constant_length (s r : str) (v : JValue) :
  match_constant s = Some (v, r) -> (List.length r < List.length s)%nat.
Proof.
  unfold match_constant.
  destruct (startswith (u "null") s) eqn:E1;
    [intros [= <- <-]; apply (skipn_shorter 4 _ _ E1); [reflexivity|lia]|].
  destruct (startswith (u "true") s) eqn:E2;
    [intros [= <- <-]; apply (skipn_shorter 4 _ _ E2); [reflexivity|lia]|].
  destruct (startswith (u "false") s) eqn:E3;
    [intros [= <- <-]; apply (skipn_shorter 5 _ _ E3); [reflexivity|lia]|].
  destruct (startswith (u "NaN") s) eqn:E4;
    [intros [= <- <-]; apply (skipn_shorter 3 _ _ E4); [reflexivity|lia]|].
  destruct (startswith (u "Infinity") s) eqn:E5;
    [intros [= <- <-]; apply (skipn_shorter 8 _ _ E5); [reflexivity|lia]|].
  destruct (startswith (u "-Infinity") s) eqn:E6;
    [intros [= <- <-]; apply (skipn_shorter 9 _ _ E6); [reflexivity|lia]|].
  discriminate.
Qed.

Ltac by_length H :=
  match goal with
  | |- match ?x with Ok _ => _ | Err _ => _ end =>
      let k := fresh "k" in let r := fresh "r" in let e := fresh "e" in
      destruct x as [[k r]|e]; cbn [fst snd bind] in *;
      [ | assumption]
  end.

(** With more fuel than twice the length of the text, a value is decoded
    without running out of it: the text that follows is shorter, and a
    failure is a JSONDecodeError. *)
Lemma scan_fuel (fuel : nat) :
  (forall s, (2 * List.length s < fuel)%nat ->
     match scan_once fuel s with
     | Ok (v, r) => (List.length r < List.length s)%nat
     | Err e => e = JSONDecodeError
     end) /\
  (forall acc s, (2 * List.length s < fuel)%nat ->
     match object_loop fuel acc s with
     | Ok (d, r) => (List.length r < List.length s)%nat
     | Err e => e = JSONDecodeError
     end) /\
  (forall acc s, (2 * List.length s + 1 < fuel)%nat ->
     match array_loop fuel acc s with
     | Ok (l, r) => (List.length r < List.length s)%nat
     | Err e => e = JSONDecodeError
     end).
Proof.
  induction fuel as [|f (IHs & IHo & IHa)].
  - repeat split; intros; lia.
  - split; [|split].
    + intros s Hf. destruct s as [|c s1]; [reflexivity|].
      cbn [scan_once]. cbn [List.length] in Hf.
      destruct (N.eqb c 34).
      { pose proof (scanstring_spec (List.length s1) s1 [] (le_n _)) as Hs.
        destruct (scanstring [] s1) as [[k r]|e]; cbn [bind fst snd];
          [cbn [List.length]; lia | assumption]. }
      destruct (N.eqb c 123).
      { pose proof (skip_ws_length s1) as Hw.
        destruct (skip_ws s1) as [|c2 rest]; [reflexivity|].
        cbn [List.length] in Hw.
        destruct (N.eqb c2 125); [cbn [List.length]; lia|].
        specialize (IHo [] (c2 :: rest)
                        ltac:(cbn [List.length]; lia)).
        destruct (object_loop f [] (c2 :: rest)) as [[d r]|e];
          cbn [bind fst snd List.length] in *; [lia | assumption]. }
      destruct (N.eqb c 91).
      { pose proof (skip_ws_length s1) as Hw.
        destruct (skip_ws s1) as [|c2 rest]; [reflexivity|].
        cbn [List.length] in Hw.
        destruct (N.eqb c2 93); [cbn [List.length]; lia|].
        specialize (IHa [] (c2 :: rest)
                        ltac:(cbn [List.length]; lia)).
        destruct (array_loop f [] (c2 :: rest)) as [[l r]|e];
          cbn [bind fst snd List.length] in *; [lia | assumption]. }
      destruct (match_constant (c :: s1)) as [[v r]|] eqn:Ec.
      { apply match_constant_length in Ec. exact Ec. }
      destruct (match_number (c :: s1)) as [[v r]|] eqn:En;
        [|reflexivity].
      apply match_number_length in En. exact En.
    + intros acc s Hf. destruct s as [|q s1]; [reflexivity|].
      cbn [object_loop]. cbn [List.length] in Hf.
      destruct (N.eqb q 34); [|reflexivity].
      pose proof (scanstring_spec (List.length s1) s1 [] (le_n _)) as Hs.
      destruct (scanstring [] s1) as [[k r1]|e]; cbn [bind fst snd];
        [|assumption].
      pose proof (skip_ws_length r1) as Hw1.
      destruct (skip_ws r1) as [|colon s2]; [reflexivity|].
      cbn [List.length] in Hw1.
      destruct (N.eqb colon 58); [|reflexivity].
      pose proof (skip_ws_length s2) as Hw2.
      specialize (IHs (skip_ws s2) ltac:(lia)).
      destruct (scan_once f (skip_ws s2)) as [[v r2]|e];
        cbn [bind fst snd]; [|assumption].
      pose proof (skip_ws_length r2) as Hw3.
      destruct (skip_ws r2) as [|d s3]; [reflexivity|].
      cbn [List.length] in Hw3.
      destruct (N.eqb d 125); [cbn [List.length]; lia|].
      destruct (N.eqb d 44); [|reflexivity].
      pose proof (skip_ws_length s3) as Hw4.
      specialize (IHo (dict_set k v acc) (skip_ws s3) ltac:(lia)).
      destruct (object_loop f (dict_set k v acc) (skip_ws s3))
        as [[d' r]|e]; cbn [List.length]; [lia | assumption].
    + intros acc s Hf. cbn [array_loop].
      specialize (IHs s ltac:(lia)).
      destruct (scan_once f s) as [[v r1]|e]; cbn [bind fst snd];
        [|assumption].
      pose proof (skip_ws_length r1) as Hw1.
      destruct (skip_ws r1) as [|d s1]; [reflexivity|].
      cbn [List.length] in Hw1.
      destruct (N.eqb d 93); [lia|].
      destruct (N.eqb d 44); [|reflexivity].
      pose proof (skip_ws_length s1) as Hw2.
      specialize (IHa (acc ++ [v]) (skip_ws s1) ltac:(lia)).
      destruct (array_loop f (acc ++ [v]) (skip_ws s1)) as [[l r]|e];
        [lia | assumption].
Qed.

(** The decoder as defined above fails only with JSONDecodeError: its
    fuel never runs out.  This is a fact of the definition, which leaves
    out the two limits of the interpreter; no property of the agent is
    derived from it. *)
Lemma loads_error (s : str) (e : exn) :
  loads s = Err e -> e = JSONDecodeError.
Proof.
  unfold loads.
  destruct (startswith [65279%N] s); [congruence|].
  pose proof (skip_ws_length s) as Hw.
  pose proof (proj1 (scan_fuel (2 * List.length s + 2)) (skip_ws s)
                ltac:(lia)) as H.
  destruct (scan_once (2 * List.length s + 2) (skip_ws s)) as [[v r]|e'];
    cbn [bind fst snd].
  - destruct (skip_ws r); congruence.
  - congruence.
Qed.

(** A text that starts with an opening brace decodes to a dict. *)
Lemma loads_brace_dict (s : str) (v : JValue) :
  loads (123%N :: s) = Ok v -> exists d, v = JDict d.
Proof.
  unfold loads.
  destruct (startswith [65279%N] (123%N :: s)); [discriminate|].
  change (skip_ws (123%N :: s)) with (123%N :: s).
  match goal with
  | |- context [scan_once ?n _] => remember n as fuel eqn:Hf
  end.
  destruct fuel as [|f]; [lia|].
  cbn [scan_once]. change (N.eqb 123 34) with false.
  change (N.eqb 123 123) with true. cbn iota.
  destruct (skip_ws s) as [|c2 rest]; cbn [bind]; [discriminate|].
  destruct (N.eqb c2 125).
  - cbn [bind fst snd]. destruct (skip_ws rest); [|discriminate].
    intros [= <-]. eauto.
  - destruct (object_loop _ [] (c2 :: rest)) as [[d r]|e];
      cbn [bind fst snd]; [|discriminate].
    destruct (skip_ws r); [|discriminate]. intros [= <-]. eauto.
Qed.

End Decoder.

(** ** models.py: the address blocks *)

Section ClusterIps.
Import models.

Lemma range_length (n : Z) : List.length (range n) = Z.to_nat n.
Proof. unfold range. now rewrite length_map, length_seq. Qed.

Lemma range_nth (n : Z) (i : nat) :
  (i < Z.to_nat n)%nat -> nth_error (range n) i = Some (Z.of_nat i).
Proof.
  intros H. unfold range.
  rewrite nth_error_map, nth_error_seq.
  destruct (Nat.ltb_spec i (Z.to_nat n)); [reflexivity | lia].
Qed.

Lemma NoDup_map_inj (A B : Type) (f : A -> B) (l : list A) :
  (forall x y, f x = f y -> x = y) -> NoDup l -> NoDup (map f l).
Proof.
  intros Hinj. induction 1 as [|x l Hx Hl IH]; simpl; constructor; auto.
  rewrite in_map_iff. intros (y & E & Hy). apply Hinj in E. now subst.
Qed.

Lemma range_NoDup (n : Z) : NoDup (range n).
Proof.
  unfold range. apply NoDup_map_inj.
  - intros a b. apply Nat2Z.inj.
  - apply seq_NoDup.
Qed.

Lemma seq_offset (a s n : nat) :
  map (fun x => (a + x)%nat) (seq s n) = seq (a + s) n.
Proof.
  revert s; induction n as [|n IH]; intros s; simpl; [reflexivity|].
  f_equal. rewrite IH. f_equal. lia.
Qed.

Lemma range_add (a b : Z) :
  (0 <= a)%Z -> (0 <= b)%Z ->
  range (a + b) = range a ++ map (fun i => (a + i)%Z) (range b).
Proof.
  intros Ha Hb. unfold range.
  rewrite Z2Nat.inj_add by assumption.
  rewrite seq_app, map_app. f_equal.
  assert (E : seq (0 + Z.to_nat a) (Z.to_nat b)
              = map (fun x => (Z.to_nat a + x)%nat) (seq 0 (Z.to_nat b))).
  { rewrite seq_offset. f_equal. lia. }
  rewrite E, !map_map. apply map_ext. intros x. lia.
Qed.

Lemma all_ips_block (s : ClusterSpec) :
  (0 <= control_plane_count s)%Z -> (0 <= worker_count s)%Z ->
  all_ips s =
  map (fun i => ip_prefix s ++ str_of_Z (ip_start s + i)) (range (total_nodes s)).
Proof.
  intros Hc Hw. unfold all_ips, control_plane_ips, worker_ips, total_nodes.
  rewrite range_add by assumption.
  rewrite map_app, map_map. f_equal.
  apply map_ext. intros i. now rewrite Z.add_assoc.
Qed.

(** C3. For every cluster spec whose two counts are not negative, the
    control-plane addresses are [control_plane_count] addresses whose last
    octet starts at [ip_start], the worker addresses are [worker_count]
    addresses whose last octet starts at [ip_start + control_plane_count],
    the two blocks together are one run of consecutive last octets, no
    address occurs twice (so the blocks do not overlap), and
    [total_nodes = control_plane_count + worker_count] is the length of
    the two blocks together. *)
Theorem cluster_ip_blocks (s : ClusterSpec) :
  (0 <= control_plane_count s)%Z -> (0 <= worker_count s)%Z ->
  List.length (control_plane_ips s) = Z.to_nat (control_plane_count s) /\
  List.length (worker_ips s) = Z.to_nat (worker_count s) /\
  (forall i, (i < Z.to_nat (control_plane_count s))%nat ->
     nth_error (control_plane_ips s) i
     = Some (ip_prefix s ++ str_of_Z (ip_start s + Z.of_nat i))) /\
  (forall j, (j < Z.to_nat (worker_count s))%nat ->
     nth_error (worker_ips s) j
     = Some (ip_prefix s
             ++ str_of_Z (ip_start s + control_plane_count s + Z.of_nat j))) /\
  (forall k, (k < Z.to_nat (total_nodes s))%nat ->
     nth_error (all_ips s) k
     = Some (ip_prefix s ++ str_of_Z (ip_start s + Z.of_nat k))) /\
  NoDup (all_ips s) /\
  (forall ip, In ip (control_plane_ips s) -> ~ In ip (worker_ips s)) /\
  total_nodes s = (control_plane_count s + worker_count s)%Z /\
  Z.of_nat (List.length (all_ips s)) = total_nodes s.
Proof.
  intros Hc Hw.
  assert (Hnd : NoDup (all_ips s)).
  { rewrite all_ips_block by assumption. apply NoDup_map_inj.
    - intros x y E. apply app_inv_head in E. apply str_of_Z_inj in E. lia.
    - apply range_NoDup. }
  repeat split.
  - unfold control_plane_ips. now rewrite length_map, range_length.
  - unfold worker_ips. now rewrite length_map, range_length.
  - intros i Hi. unfold control_plane_ips.
    now rewrite nth_error_map, range_nth.
  - intros j Hj. unfold worker_ips.
    now rewrite nth_error_map, range_nth.
  - intros k Hk. rewrite all_ips_block by assumption.
    now rewrite nth_error_map, range_nth.
  - exact Hnd.
  - intros ip H1 H2. unfold all_ips in Hnd.
    apply in_split in H2. destruct H2 as (l1 & l2 & E).
    rewrite E, app_assoc in Hnd. apply NoDup_remove_2 in Hnd.
    apply Hnd. rewrite <- app_assoc. apply in_or_app. now left.
  - rewrite all_ips_block by assumption.
    rewrite length_map, range_length. unfold total_nodes. lia.
Qed.

(** A two-plus-three cluster at the default prefix: the blocks are
    .201-.202 and .203-.205. *)
Lemma cluster_ip_blocks_witness :
  let s := set_worker_count 3 (set_control_plane_count 2 ClusterSpec_new) in
  control_plane_ips s = [u "10.40.19.201"; u "10.40.19.202"] /\
  worker_ips s = [u "10.40.19.203"; u "10.40.19.204"; u "10.40.19.205"] /\
  NoDup (all_ips s) /\
  Z.of_nat (List.length (all_ips s)) = total_nodes s.
Proof.
  intros s.
  assert (Hc : (0 <= control_plane_count s)%Z) by (vm_compute; discriminate).
  assert (Hw : (0 <= worker_count s)%Z) by (vm_compute; discriminate).
  destruct (cluster_ip_blocks s Hc Hw)
    as (_ & _ & _ & _ & _ & Hnd & _ & _ & Hlen).
  split; [reflexivity | split; [reflexivity | split; [exact Hnd | exact Hlen]]].
Defined.

End ClusterIps.

(** ** intent_parser_llm.py: from the parsed object to the spec *)

Section JsonToSpec.
Context {rt : Runtime}.
Import models intent_parser_llm.

Lemma truthy_present (k : str) (data : dict) :
  truthy (dict_get_default k JNull data) = true ->
  py_getitem (JDict data) k = Ok (dict_get_default k JNull data).
Proof.
  unfold dict_get_default, py_getitem.
  destruct (dict_get k data); [reflexivity | discriminate].
Qed.

(** [_json_to_spec] computes its normal form. *)
Lemma _json_to_spec_resolve (data : dict) :
  _json_to_spec data = resolve data.
Proof.
  unfold _json_to_spec, resolve, field_parsed, resolved_k8s_full,
    resolved_addons, resolved_spec, opt; simpl field_key; simpl field_default.
  destruct (truthy (dict_get_default (u "name") JNull data)) eqn:Hn;
    [rewrite (truthy_present _ _ Hn) | ]; cbn [bind].
  all: do 7 (match goal with
             | |- bind ?m _ = bind ?m _ =>
                 destruct m; cbn [bind]; [|reflexivity]
             end).
  all: destruct (truthy (dict_get_default (u "cni_plugin") JNull data)) eqn:Hc;
    [rewrite (truthy_present _ _ Hc) | ].
  all: destruct (truthy (dict_get_default (u "k8s_version") JNull data)) eqn:Hk;
    [rewrite (truthy_present _ _ Hk) | ].
  all: destruct (truthy (dict_get_default (u "addons") JNull data)) eqn:Ha;
    [rewrite (truthy_present _ _ Ha) | ].
  all: simpl.
  all: try destruct (eq_str (dict_get_default (u "cni_plugin") JNull data)
                            (u "calico")); simpl.
  all: try match goal with
           | |- context [version_map_get ?a ?b] =>
               destruct (version_map_get a b); simpl; [|reflexivity]
           end.
  all: try match goal with
           | |- context [py_iter ?a] =>
               destruct (py_iter a); simpl; [|reflexivity]
           end.
  all: reflexivity.
Qed.

Lemma bind_Ok (A B : Type) (m : result A) (k : A -> result B) (b : B) :
  bind m k = Ok b -> exists a, m = Ok a /\ k a = Ok b.
Proof. destruct m as [a|e]; simpl; [eauto | discriminate]. Qed.

(** What a successful conversion has computed. *)
Lemma resolve_inv (data : dict) (s : ClusterSpec) :
  _json_to_spec data = Ok s ->
  exists wc cpc wcores wmem cpcores cpmem ips full ads,
    field_parsed F_worker_count data = Ok wc /\
    field_parsed F_control_plane_count data = Ok cpc /\
    field_parsed F_worker_cores data = Ok wcores /\
    field_parsed F_worker_memory_mb data = Ok wmem /\
    field_parsed F_cp_cores data = Ok cpcores /\
    field_parsed F_cp_memory_mb data = Ok cpmem /\
    field_parsed F_ip_start data = Ok ips /\
    resolved_k8s_full data = Ok full /\
    resolved_addons data = Ok ads /\
    s = resolved_spec data wc cpc wcores wmem cpcores cpmem ips full ads.
Proof.
  rewrite _json_to_spec_resolve. unfold resolve. intros H.
  repeat (apply bind_Ok in H; destruct H as (? & ? & H)).
  injection H as <-. repeat eexists; eassumption.
Qed.

(** When every step of the conversion succeeds, so does the conversion. *)
Lemma resolve_ok (data : dict) :
  (forall f, exists n, field_parsed f data = Ok n) ->
  (exists full, resolved_k8s_full data = Ok full) ->
  (exists ads, resolved_addons data = Ok ads) ->
  exists s, _json_to_spec data = Ok s.
Proof.
  intros Hf [full Hk] [ads Ha].
  rewrite _json_to_spec_resolve. unfold resolve.
  destruct (Hf F_worker_count) as [n1 ->].
  destruct (Hf F_control_plane_count) as [n2 ->].
  destruct (Hf F_worker_cores) as [n3 ->].
  destruct (Hf F_worker_memory_mb) as [n4 ->].
  destruct (Hf F_cp_cores) as [n5 ->].
  destruct (Hf F_cp_memory_mb) as [n6 ->].
  destruct (Hf F_ip_start) as [n7 ->].
  rewrite Hk, Ha. simpl. eauto.
Qed.

(** Every numeric attribute of a resolved spec is the integer parsed for
    its field, raised to the floor of the field. *)
Lemma resolve_numeric (data : dict) (s : ClusterSpec) :
  _json_to_spec data = Ok s ->
  forall f, exists n,
    field_parsed f data = Ok n /\ field_value f s = field_floor f n.
Proof.
  intros H f. apply resolve_inv in H.
  destruct H as (wc & cpc & wcores & wmem & cpcores & cpmem & ips & full
                 & ads & H1 & H2 & H3 & H4 & H5 & H6 & H7 & _ & _ & ->).
  destruct f; eexists; (split; [eassumption | reflexivity]).
Qed.

(** A numeric field that cannot be parsed makes the conversion fail, with
    the error of some numeric field. *)
Lemma resolve_numeric_error (data : dict) (f : numeric_field) (e : exn) :
  field_parsed f data = Err e ->
  exists f' e', field_parsed f' data = Err e' /\ _json_to_spec data = Err e'.
Proof.
  intros Hf. rewrite _json_to_spec_resolve. unfold resolve.
  destruct (field_parsed F_worker_count data) eqn:E1; [|now eauto].
  destruct (field_parsed F_control_plane_count data) eqn:E2; [|now eauto].
  destruct (field_parsed F_worker_cores data) eqn:E3; [|now eauto].
  destruct (field_parsed F_worker_memory_mb data) eqn:E4; [|now eauto].
  destruct (field_parsed F_cp_cores data) eqn:E5; [|now eauto].
  destruct (field_parsed F_cp_memory_mb data) eqn:E6; [|now eauto].
  destruct (field_parsed F_ip_start data) eqn:E7; [|now eauto].
  destruct f; congruence.
Qed.

(** The exceptions of [int(v)], by the kind of value. *)
Lemma py_int_error (v : JValue) (e : exn) :
  py_int v = Err e ->
  match v with
  | JNull | JList _ | JDict _ => e = TypeError
  | JStr _ => e = ValueError
  | JFloat f =>
      match f with
      | S754_infinity _ => e = OverflowError
      | S754_nan => e = ValueError
      | _ => False
      end
  | JBool _ | JInt _ => False
  end.
Proof.
  destruct v as [| b | n | f | t | l | d]; simpl; try congruence.
  - destruct f; simpl; congruence.
  - unfold int_of_str.
    match goal with |- match ?x with _ => _ end = _ -> _ => destruct x end;
      congruence.
Qed.

(** C2. Whatever the backend object holds, the control-plane cores of the
    resolved spec are the integer parsed for [cp_cores] (2 when the field
    is absent), raised to 2, and its control-plane memory is the integer
    parsed for [cp_memory_mb] (2048 when absent), raised to 2048: the
    cores are never below 2 and the memory never below 2048.  Reading
    "parsed or 2" with the [or] of Python, which also replaces a parsed
    zero, gives the same numbers. *)
Theorem control_plane_floor (data : dict) (s : ClusterSpec) :
  _json_to_spec data = Ok s ->
  exists c m,
    py_int (dict_get_default (u "cp_cores") (JInt 2) data) = Ok c /\
    py_int (dict_get_default (u "cp_memory_mb") (JInt 2048) data) = Ok m /\
    cores (control_plane_spec s) = Z.max c 2 /\
    memory_mb (control_plane_spec s) = Z.max m 2048 /\
    (2 <= cores (control_plane_spec s))%Z /\
    (2048 <= memory_mb (control_plane_spec s))%Z /\
    cores (control_plane_spec s)
    = Z.max (if Z.eqb c 0 then 2 else c) 2 /\
    memory_mb (control_plane_spec s)
    = Z.max (if Z.eqb m 0 then 2048 else m) 2048 /\
    (dict_get (u "cp_cores") data = None ->
     cores (control_plane_spec s) = 2%Z) /\
    (dict_get (u "cp_memory_mb") data = None ->
     memory_mb (control_plane_spec s) = 2048%Z).
Proof.
  intros H.
  destruct (resolve_numeric _ _ H F_cp_cores) as (c & Hc & Vc).
  destruct (resolve_numeric _ _ H F_cp_memory_mb) as (m & Hm & Vm).
  simpl in Vc, Vm. unfold field_parsed in Hc, Hm. simpl in Hc, Hm.
  exists c, m. repeat split; try assumption; try lia.
  - rewrite Vc. destruct (Z.eqb_spec c 0); lia.
  - rewrite Vm. destruct (Z.eqb_spec m 0); lia.
  - intros Habs. unfold dict_get_default in Hc. rewrite Habs in Hc.
    injection Hc as <-. rewrite Vc. reflexivity.
  - intros Habs. unfold dict_get_default in Hm. rewrite Habs in Hm.
    injection Hm as <-. rewrite Vm. reflexivity.
Qed.

End JsonToSpec.

(** A backend that asks for one core and 512 MB for the control plane gets
    two cores and 2048 MB. *)
Lemma control_plane_floor_witness :
  exists s,
    intent_parser_llm._json_to_spec (rt := runtime_ascii)
      [(u "cp_cores", JInt 1); (u "cp_memory_mb", JInt 512)] = Ok s /\
    models.cores (models.control_plane_spec s) = 2%Z /\
    models.memory_mb (models.control_plane_spec s) = 2048%Z.
Proof.
  eexists. split; [reflexivity|].
  destruct (@control_plane_floor runtime_ascii
              [(u "cp_cores", JInt 1); (u "cp_memory_mb", JInt 512)] _
              eq_refl)
    as (c & m & Hc & Hm & Vc & Vm & _).
  injection Hc as <-. injection Hm as <-.
  split; [exact Vc | exact Vm].
Defined.

Section JsonToSpecFields.
Context {rt : Runtime}.
Import models intent_parser_llm.

Lemma field_parsed_present (f : numeric_field) (data : dict) (v : JValue) :
  dict_get (field_key f) data = Some v -> field_parsed f data = py_int v.
Proof. intros H. unfold field_parsed, dict_get_default. now rewrite H. Qed.

Lemma field_parsed_absent (f : numeric_field) (data : dict) :
  dict_get (field_key f) data = None ->
  field_parsed f data = Ok (field_default f).
Proof. intros H. unfold field_parsed, dict_get_default. now rewrite H. Qed.

Lemma field_floor_default (f : numeric_field) :
  field_floor f (field_default f) = field_default f.
Proof. destruct f; reflexivity. Qed.

(** C10, as amended. A numeric field that is present with a value [int]
    rejects makes the conversion raise instead of falling back to the
    default of the field: the exception is the one [int] raised for the
    first such field, a TypeError (null, list, object), a ValueError
    (a string that is not a number, NaN) or an OverflowError (an infinite
    float). *)
Theorem numeric_field_not_coercible
    (data : dict) (f : numeric_field) (v : JValue) (e : exn) :
  dict_get (field_key f) data = Some v ->
  py_int v = Err e ->
  exists f' v' e',
    dict_get (field_key f') data = Some v' /\
    py_int v' = Err e' /\
    _json_to_spec data = Err e' /\
    (e' = ValueError \/ e' = TypeError \/ e' = OverflowError).
Proof.
  intros Hget Hint.
  assert (Hf : field_parsed f data = Err e)
    by now rewrite (field_parsed_present _ _ _ Hget).
  destruct (resolve_numeric_error _ _ _ Hf) as (f' & e' & Hf' & Hres).
  destruct (dict_get (field_key f') data) as [v'|] eqn:Hget'.
  - rewrite (field_parsed_present _ _ _ Hget') in Hf'.
    exists f', v', e'. repeat split; try assumption.
    apply py_int_error in Hf'.
    destruct v' as [| b | n | x | t | l | d]; try contradiction; auto.
    destruct x; try contradiction; auto.
  - rewrite (field_parsed_absent _ _ Hget') in Hf'. discriminate.
Qed.

Lemma eq_str_true (v : JValue) (t : str) : eq_str v t = true <-> v = JStr t.
Proof.
  destruct v; simpl; try (split; [discriminate | congruence]).
  rewrite str_eqb_eq. split; congruence.
Qed.

(** C4, as amended. A [cni_plugin] value that is true in the sense of
    Python (a non-empty string, in particular) is stored in the spec as it
    is, whether or not it is one of flannel, calico and cilium; the pod
    network is "192.168.0.0/16" when the value is "calico" and stays
    "10.244.0.0/16" for every other value.  An absent or empty value
    leaves both the plugin "flannel" and the pod network "10.244.0.0/16"
    of the model. *)
Theorem cni_plugin_resolution (data : dict) (s : ClusterSpec) :
  _json_to_spec data = Ok s ->
  let v := opt data "cni_plugin" in
  (v = JStr (u "calico") ->
     cni_plugin s = JStr (u "calico") /\
     pod_network_cidr s = u "192.168.0.0/16") /\
  (truthy v = true -> v <> JStr (u "calico") ->
     cni_plugin s = v /\ pod_network_cidr s = u "10.244.0.0/16") /\
  (truthy v = false ->
     cni_plugin s = JStr (u "flannel") /\
     pod_network_cidr s = u "10.244.0.0/16") /\
  (dict_get (u "cni_plugin") data = None ->
     cni_plugin s = JStr (u "flannel") /\
     pod_network_cidr s = u "10.244.0.0/16").
Proof.
  intros H v. apply resolve_inv in H.
  destruct H as (wc & cpc & wcores & wmem & cpcores & cpmem & ips & full
                 & ads & _ & _ & _ & _ & _ & _ & _ & _ & _ & ->).
  unfold resolved_spec; simpl. fold v.
  assert (Hfalse : truthy v = false ->
            (if truthy v then v else JStr (u "flannel")) = JStr (u "flannel")
            /\ (if truthy v && eq_str v (u "calico")
                then u "192.168.0.0/16" else u "10.244.0.0/16")
               = u "10.244.0.0/16").
  { intros ->. split; reflexivity. }
  repeat split.
  - rewrite H. reflexivity.
  - rewrite H. reflexivity.
  - rewrite H. reflexivity.
  - rewrite H. destruct (eq_str v (u "calico")) eqn:E; [|reflexivity].
    apply eq_str_true in E. contradiction.
  - now apply Hfalse.
  - now apply Hfalse.
  - apply Hfalse. subst v. unfold opt, dict_get_default. now rewrite H.
  - apply Hfalse. subst v. unfold opt, dict_get_default. now rewrite H.
Qed.

(** C5, as amended. For a [k8s_version] value that is true in the sense
    of Python and can be hashed (a non-empty string, a number), the
    package version of the resolved spec is the entry of the table
    1.31 -> 1.31.4-1.1, 1.30 -> 1.30.8-1.1, 1.29 -> 1.29.12-1.1,
    1.28 -> 1.28.15-1.1 when the value is one of its keys, and the value
    followed by ".0-1.1" otherwise.  An absent or empty value leaves the
    minor "1.31" and the package version "1.31.4-1.1" of the model; a
    list or an object makes the conversion raise TypeError. *)
Theorem k8s_version_resolution (data : dict) (s : ClusterSpec) :
  _json_to_spec data = Ok s ->
  let v := opt data "k8s_version" in
  version_map = [ (u "1.31", u "1.31.4-1.1"); (u "1.30", u "1.30.8-1.1");
                  (u "1.29", u "1.29.12-1.1"); (u "1.28", u "1.28.15-1.1") ] /\
  (truthy v = true ->
     hashable v = true /\
     k8s_version_minor s = v /\
     (forall m full, v = JStr m -> table_get m version_map = Some full ->
        k8s_version_full s = full) /\
     ((forall m, v = JStr m -> table_get m version_map = None) ->
        k8s_version_full s = py_str v ++ u ".0-1.1")) /\
  (truthy v = false ->
     k8s_version_minor s = JStr (u "1.31") /\
     k8s_version_full s = u "1.31.4-1.1").
Proof.
  intros H v. apply resolve_inv in H.
  destruct H as (wc & cpc & wcores & wmem & cpcores & cpmem & ips & full
                 & ads & _ & _ & _ & _ & _ & _ & _ & Hk & _ & ->).
  unfold resolved_spec; cbn [k8s_version_minor k8s_version_full].
  unfold resolved_k8s_full in Hk. fold v in Hk |- *.
  split; [reflexivity|]. split.
  - intros Ht. rewrite Ht in Hk |- *. unfold version_map_get in Hk.
    destruct (hashable v) eqn:Hh; [|discriminate].
    repeat split.
    + intros m full' -> Hm. rewrite Hm in Hk. congruence.
    + intros Hnone. destruct v as [| b | n | x | t | l | d];
        try congruence.
      rewrite (Hnone t eq_refl) in Hk. congruence.
  - intros Ht. rewrite Ht in Hk |- *. split; congruence.
Qed.

Lemma existsb_str_In (k : str) (ks : list str) :
  existsb (str_eqb k) ks = true <-> In k ks.
Proof.
  rewrite existsb_exists. split.
  - intros (x & Hx & E). apply str_eqb_eq in E. now subst.
  - intros H. exists k. split; [assumption | apply str_eqb_refl].
Qed.

Lemma dict_get_without (k : str) (ks : list str) (d : dict) :
  dict_get k (dict_without ks d)
  = if existsb (str_eqb k) ks then None else dict_get k d.
Proof.
  unfold dict_without. induction d as [|[k' v] d IH]; simpl.
  - now destruct (existsb (str_eqb k) ks).
  - destruct (existsb (str_eqb k') ks) eqn:E'; simpl.
    + rewrite IH. destruct (str_eqb k' k) eqn:Ek; [|reflexivity].
      apply str_eqb_eq in Ek. subst k'. now rewrite E'.
    + rewrite IH. destruct (str_eqb k' k) eqn:Ek; [|reflexivity].
      apply str_eqb_eq in Ek. subst k'. now rewrite E'.
Qed.

Lemma opt_without (k : string) (ks : list str) (d : dict) :
  opt (dict_without ks d) k
  = if existsb (str_eqb (u k)) ks then JNull else opt d k.
Proof.
  unfold opt, dict_get_default. rewrite dict_get_without.
  now destruct (existsb (str_eqb (u k)) ks).
Qed.

Lemma field_parsed_without (f : numeric_field) (ks : list str) (d : dict) :
  field_parsed f (dict_without ks d)
  = if existsb (str_eqb (field_key f)) ks then Ok (field_default f)
    else field_parsed f d.
Proof.
  unfold field_parsed, dict_get_default. rewrite dict_get_without.
  now destruct (existsb (str_eqb (field_key f)) ks).
Qed.

(** Taking keys away from an object that resolves leaves one that
    resolves. *)
Lemma resolve_without (data : dict) (s : ClusterSpec) (ks : list str) :
  _json_to_spec data = Ok s ->
  exists s', _json_to_spec (dict_without ks data) = Ok s'.
Proof.
  intros H. apply resolve_inv in H.
  destruct H as (wc & cpc & wcores & wmem & cpcores & cpmem & ips & full
                 & ads & H1 & H2 & H3 & H4 & H5 & H6 & H7 & Hk & Ha & _).
  apply resolve_ok.
  - intros f. rewrite field_parsed_without.
    destruct (existsb (str_eqb (field_key f)) ks); [eauto|].
    destruct f; eauto.
  - unfold resolved_k8s_full in *. rewrite opt_without.
    destruct (existsb (str_eqb (u "k8s_version")) ks); simpl; eauto.
  - unfold resolved_addons in *. rewrite opt_without.
    destruct (existsb (str_eqb (u "addons")) ks); simpl; eauto.
Qed.

(** C1. Take any backend object that resolves and remove any set of keys
    from it, numeric fields among them: the object still resolves, every
    numeric field that was removed is at its default in the resolved spec
    (worker_count 2, control_plane_count 1, worker cores 2, worker memory
    2048, control-plane cores 2, control-plane memory 2048, ip_start 201)
    and every numeric field that was kept has the value it had.  In any
    resolved spec a numeric field that is absent from the object is at its
    default, and the empty object resolves to the seven defaults. *)
Theorem missing_numeric_fields_default :
  (forall (data : dict) (s : ClusterSpec) (ks : list str),
     _json_to_spec data = Ok s ->
     exists s',
       _json_to_spec (dict_without ks data) = Ok s' /\
       forall f,
         (In (field_key f) ks -> field_value f s' = field_default f) /\
         (~ In (field_key f) ks -> field_value f s' = field_value f s)) /\
  (forall (data : dict) (s : ClusterSpec) (f : numeric_field),
     _json_to_spec data = Ok s ->
     dict_get (field_key f) data = None ->
     field_value f s = field_default f) /\
  (exists s0,
     _json_to_spec [] = Ok s0 /\
     worker_count s0 = 2%Z /\
     control_plane_count s0 = 1%Z /\
     cores (worker_spec s0) = 2%Z /\
     memory_mb (worker_spec s0) = 2048%Z /\
     cores (control_plane_spec s0) = 2%Z /\
     memory_mb (control_plane_spec s0) = 2048%Z /\
     ip_start s0 = 201%Z).
Proof.
  split; [|split].
  - intros data s ks H.
    destruct (resolve_without data s ks H) as [s' H'].
    exists s'. split; [assumption|]. intros f.
    destruct (resolve_numeric _ _ H f) as (n & Hn & Vn).
    destruct (resolve_numeric _ _ H' f) as (n' & Hn' & Vn').
    rewrite field_parsed_without in Hn'.
    split; intros Hin.
    + apply existsb_str_In in Hin. rewrite Hin in Hn'.
      injection Hn' as <-. rewrite Vn'. apply field_floor_default.
    + destruct (existsb (str_eqb (field_key f)) ks) eqn:E.
      * apply existsb_str_In in E. contradiction.
      * congruence.
  - intros data s f H Habs.
    destruct (resolve_numeric _ _ H f) as (n & Hn & Vn).
    rewrite (field_parsed_absent _ _ Habs) in Hn.
    injection Hn as <-. rewrite Vn. apply field_floor_default.
  - eexists. split; [reflexivity|]. repeat split.
Qed.

End JsonToSpecFields.

(** *** Concrete runs of the conversion *)

(** An object that sets the workers and the control-plane cores, with the
    worker count taken away: the count is back at 2, the cores stay 4. *)
Lemma missing_numeric_fields_default_witness :
  exists s',
    intent_parser_llm._json_to_spec (rt := runtime_ascii)
      (dict_without [u "worker_count"]
         [(u "worker_count", JInt 5); (u "cp_cores", JInt 4)]) = Ok s' /\
    models.worker_count s' = 2%Z /\
    models.cores (models.control_plane_spec s') = 4%Z.
Proof.
  destruct (proj1 (@missing_numeric_fields_default runtime_ascii)
              [(u "worker_count", JInt 5); (u "cp_cores", JInt 4)] _
              [u "worker_count"] eq_refl)
    as (s' & Hs' & Hf).
  exists s'. split; [exact Hs'|]. split.
  - apply (proj1 (Hf F_worker_count)). left. reflexivity.
  - apply (proj2 (Hf F_cp_cores)). simpl. intros [E|[]].
    vm_compute in E. discriminate E.
Defined.

(** The reply [{"worker_count": null}] raises TypeError. *)
Lemma numeric_field_not_coercible_witness :
  intent_parser_llm._json_to_spec (rt := runtime_ascii)
    [(u "worker_count", JNull)] = Err TypeError.
Proof.
  destruct (@numeric_field_not_coercible runtime_ascii
              [(u "worker_count", JNull)] F_worker_count JNull TypeError
              eq_refl eq_refl)
    as (f' & v' & e' & _ & _ & H & _).
  vm_compute in H. injection H as <-. reflexivity.
Defined.

(** C10 as stated fails: the reply [{"worker_count": 1e999}] parses to an
    infinite float, which [int] rejects with OverflowError, neither a
    ValueError nor a TypeError. *)
Lemma numeric_field_overflow_counterexample :
  json.loads (js "{'worker_count': 1e999}")
  = Ok (JDict [(u "worker_count", JFloat (S754_infinity false))]) /\
  py_int (rt := runtime_ascii) (JFloat (S754_infinity false))
  = Err OverflowError /\
  intent_parser_llm._json_to_spec (rt := runtime_ascii)
    [(u "worker_count", JFloat (S754_infinity false))] = Err OverflowError /\
  is_ValueError OverflowError = false /\
  OverflowError <> TypeError.
Proof.
  repeat split; try reflexivity. discriminate.
Qed.

(** The reply [{"cni_plugin": "calico"}] resolves to the calico network. *)
Lemma cni_plugin_resolution_witness :
  exists s,
    intent_parser_llm._json_to_spec (rt := runtime_ascii)
      [(u "cni_plugin", JStr (u "calico"))] = Ok s /\
    models.cni_plugin s = JStr (u "calico") /\
    models.pod_network_cidr s = u "192.168.0.0/16".
Proof.
  eexists. split; [reflexivity|].
  exact (proj1 (@cni_plugin_resolution runtime_ascii
                  [(u "cni_plugin", JStr (u "calico"))] _ eq_refl)
               eq_refl).
Defined.

(** C4 as stated fails: the unrecognized plugin of the reply
    [{"cni_plugin": "weave"}] replaces the default "flannel" of the
    model. *)
Lemma cni_plugin_unrecognized_counterexample :
  json.loads (js "{'cni_plugin': 'weave'}")
  = Ok (JDict [(u "cni_plugin", JStr (u "weave"))]) /\
  exists s,
    intent_parser_llm._json_to_spec (rt := runtime_ascii)
      [(u "cni_plugin", JStr (u "weave"))] = Ok s /\
    models.cni_plugin s = JStr (u "weave") /\
    models.cni_plugin s <> models.cni_plugin models.ClusterSpec_new.
Proof.
  split; [reflexivity|]. eexists. split; [reflexivity|].
  split; [reflexivity|]. vm_compute. discriminate.
Qed.

(** The replies [{"k8s_version": "1.30"}] and [{"k8s_version": "1.99"}]
    resolve to "1.30.8-1.1" and "1.99.0-1.1". *)
Lemma k8s_version_resolution_witness :
  (exists s,
     intent_parser_llm._json_to_spec (rt := runtime_ascii)
       [(u "k8s_version", JStr (u "1.30"))] = Ok s /\
     models.k8s_version_full s = u "1.30.8-1.1") /\
  (exists s,
     intent_parser_llm._json_to_spec (rt := runtime_ascii)
       [(u "k8s_version", JStr (u "1.99"))] = Ok s /\
     models.k8s_version_full s = u "1.99.0-1.1").
Proof.
  split; (eexists; split; [reflexivity|]).
  - destruct (proj1 (proj2 (@k8s_version_resolution runtime_ascii
                              [(u "k8s_version", JStr (u "1.30"))] _ eq_refl))
                    eq_refl)
      as (_ & _ & Htab & _).
    exact (Htab (u "1.30") (u "1.30.8-1.1") eq_refl eq_refl).
  - destruct (proj1 (proj2 (@k8s_version_resolution runtime_ascii
                              [(u "k8s_version", JStr (u "1.99"))] _ eq_refl))
                    eq_refl)
      as (_ & _ & _ & Hsyn).
    apply Hsyn. intros m [= <-]. reflexivity.
Defined.

(** C5 as stated fails: the reply whose k8s_version is the empty string
    contains a k8s_version value that is not in the table, and the
    package version stays "1.31.4-1.1" instead of becoming ".0-1.1". *)
Lemma k8s_version_empty_counterexample :
  json.loads (js "{'k8s_version': ''}")
  = Ok (JDict [(u "k8s_version", JStr [])]) /\
  intent_parser_llm.table_get [] intent_parser_llm.version_map = None /\
  exists s,
    intent_parser_llm._json_to_spec (rt := runtime_ascii)
      [(u "k8s_version", JStr [])] = Ok s /\
    models.k8s_version_full s = u "1.31.4-1.1" /\
    models.k8s_version_full s <> [] ++ u ".0-1.1".
Proof.
  split; [reflexivity|]. split; [reflexivity|].
  eexists. split; [reflexivity|]. split; [reflexivity|].
  vm_compute. discriminate.
Qed.

(** ** intent_parser_llm.py: from the reply to the parsed object *)

Section Extraction.
Context {rt : Runtime}.
Import intent_parser_llm.

Lemma brace_span_cons (c : char) (s : str) :
  is_brace c = false -> brace_span (c :: s) = brace_span s.
Proof.
  unfold is_brace, brace_span. intros H.
  apply orb_false_iff in H. destruct H as [H1 H2].
  simpl. rewrite H1, H2.
  destruct (find 123%N s) as [a|]; [|reflexivity].
  destruct (rfind 125%N s) as [b|]; reflexivity.
Qed.

Lemma brace_span_prefix (p s : str) :
  brace_free p = true -> brace_span (p ++ s) = brace_span s.
Proof.
  induction p as [|c p IH]; simpl; [reflexivity|].
  intros H. apply andb_true_iff in H. destruct H as [Hc Hp].
  rewrite brace_span_cons by now apply negb_true_iff.
  now apply IH.
Qed.

Lemma find_app_absent (c : char) (s q : str) :
  find c q = None ->
  find c (s ++ q) = find c s.
Proof.
  intros Hq. induction s as [|x s IH]; simpl; [assumption|].
  destruct (N.eqb x c); [reflexivity|]. now rewrite IH.
Qed.

Lemma rfind_app_absent (c : char) (s q : str) :
  rfind c q = None ->
  rfind c (s ++ q) = rfind c s.
Proof.
  intros Hq. induction s as [|x s IH]; simpl; [assumption|].
  now rewrite IH.
Qed.

Lemma find_absent (c : char) (q : str) :
  forallb (fun x => negb (N.eqb x c)) q = true -> find c q = None.
Proof.
  induction q as [|x q IH]; simpl; [reflexivity|].
  intros H. apply andb_true_iff in H. destruct H as [Hx Hq].
  apply negb_true_iff in Hx. rewrite Hx. now rewrite IH.
Qed.

Lemma rfind_absent (c : char) (q : str) :
  forallb (fun x => negb (N.eqb x c)) q = true -> rfind c q = None.
Proof.
  induction q as [|x q IH]; simpl; [reflexivity|].
  intros H. apply andb_true_iff in H. destruct H as [Hx Hq].
  apply negb_true_iff in Hx. rewrite Hx. now rewrite IH.
Qed.

Lemma rfind_lt (c : char) (s : str) (i : nat) :
  rfind c s = Some i -> (i < List.length s)%nat.
Proof.
  revert i; induction s as [|x s IH]; simpl; [discriminate|].
  intros i. destruct (rfind c s) as [j|].
  - intros [= <-]. specialize (IH j eq_refl). lia.
  - destruct (N.eqb x c); [intros [= <-]; lia | discriminate].
Qed.

Lemma slice_app (a b : nat) (s q : str) :
  (b <= List.length s)%nat -> slice a b (s ++ q) = slice a b s.
Proof.
  intros H. unfold slice.
  destruct (Nat.le_gt_cases a (List.length s)) as [Ha|Ha].
  - rewrite skipn_app.
    replace (a - List.length s)%nat with O by lia. simpl.
    rewrite firstn_app, length_skipn.
    replace (b - a - (List.length s - a))%nat with O by lia.
    simpl. now rewrite app_nil_r.
  - replace (b - a)%nat with O by lia. reflexivity.
Qed.

Lemma brace_free_split (q : str) :
  brace_free q = true ->
  forallb (fun x => negb (N.eqb x 123)) q = true /\
  forallb (fun x => negb (N.eqb x 125)) q = true.
Proof.
  unfold brace_free, is_brace. induction q as [|x q IH]; simpl; [auto|].
  intros H. apply andb_true_iff in H. destruct H as [Hx Hq].
  apply negb_true_iff, orb_false_iff in Hx. destruct Hx as [H1 H2].
  destruct (IH Hq) as [IH1 IH2]. rewrite H1, H2, IH1, IH2. auto.
Qed.

Lemma brace_span_suffix (s q : str) :
  brace_free q = true -> brace_span (s ++ q) = brace_span s.
Proof.
  intros H. apply brace_free_split in H. destruct H as [H1 H2].
  unfold brace_span.
  rewrite (find_app_absent _ s q (find_absent _ _ H1)).
  rewrite (rfind_app_absent _ s q (rfind_absent _ _ H2)).
  destruct (find 123%N s) as [a|]; [|reflexivity].
  destruct (rfind 125%N s) as [b|] eqn:Hb; [|reflexivity].
  apply rfind_lt in Hb. rewrite slice_app by lia. reflexivity.
Qed.

Lemma trims_span (s s' : str) : trims s s' -> brace_span s' = brace_span s.
Proof.
  intros (p & q & -> & Hp & Hq).
  now rewrite brace_span_prefix, brace_span_suffix.
Qed.

Lemma trims_refl (s : str) : trims s s.
Proof. exists [], []. now rewrite app_nil_r. Qed.

Lemma brace_free_app (a b : str) :
  brace_free (a ++ b) = brace_free a && brace_free b.
Proof. apply forallb_app. Qed.

Lemma trims_trans (a b c : str) : trims a b -> trims b c -> trims a c.
Proof.
  intros (p & q & -> & Hp & Hq) (p' & q' & -> & Hp' & Hq').
  exists (p ++ p'), (q' ++ q). repeat split.
  - now rewrite <- !app_assoc.
  - now rewrite brace_free_app, Hp, Hp'.
  - now rewrite brace_free_app, Hq, Hq'.
Qed.

Lemma isspace_not_brace (c : char) : isspace c = true -> is_brace c = false.
Proof.
  unfold is_brace. intros H.
  destruct (N.eqb_spec c 123) as [->|_]; [discriminate H|].
  destruct (N.eqb_spec c 125) as [->|_]; [discriminate H|].
  reflexivity.
Qed.

Lemma isword_not_brace (c : char) : isword c = true -> is_brace c = false.
Proof.
  unfold is_brace. intros H.
  destruct (N.eqb_spec c 123) as [->|_]; [discriminate H|].
  destruct (N.eqb_spec c 125) as [->|_]; [discriminate H|].
  reflexivity.
Qed.

Lemma dropwhile_split (f : char -> bool) (s : str) :
  exists p, s = p ++ dropwhile f s /\ forallb f p = true.
Proof.
  induction s as [|c s (p & E & Hp)]; simpl.
  - now exists [].
  - destruct (f c) eqn:Hc.
    + exists (c :: p). simpl. rewrite Hc, Hp. now rewrite <- E.
    + now exists [].
Qed.

Lemma forallb_brace_free (f : char -> bool) (p : str) :
  (forall c, f c = true -> is_brace c = false) ->
  forallb f p = true -> brace_free p = true.
Proof.
  intros Hf. unfold brace_free. induction p as [|c p IH]; simpl; [auto|].
  intros H. apply andb_true_iff in H. destruct H as [Hc Hp].
  now rewrite (Hf c Hc), IH.
Qed.

Lemma trims_dropwhile (f : char -> bool) (s : str) :
  (forall c, f c = true -> is_brace c = false) -> trims s (dropwhile f s).
Proof.
  intros Hf. destruct (dropwhile_split f s) as (p & E & Hp).
  exists p, []. rewrite app_nil_r. repeat split; [assumption|].
  now apply (forallb_brace_free f).
Qed.

Lemma trims_lstrip (s : str) : trims s (lstrip s).
Proof. apply trims_dropwhile, isspace_not_brace. Qed.

Lemma trims_rstrip (s : str) : trims s (rstrip s).
Proof.
  unfold rstrip. destruct (dropwhile_split isspace (rev s)) as (p & E & Hp).
  exists [], (rev p). simpl. repeat split.
  - rewrite <- rev_app_distr, <- E. now rewrite rev_involutive.
  - apply (forallb_brace_free isspace); [apply isspace_not_brace|].
    rewrite forallb_forall in Hp |- *. intros x Hx. apply Hp.
    now apply in_rev.
Qed.

Lemma trims_strip (s : str) : trims s (strip s).
Proof.
  unfold strip. eapply trims_trans; [apply trims_lstrip | apply trims_rstrip].
Qed.

Lemma startswith_split (p s : str) :
  startswith p s = true -> s = p ++ skipn (List.length p) s.
Proof.
  revert s; induction p as [|x p IH]; intros [|y s]; simpl;
    try discriminate; auto.
  intros H. apply andb_true_iff in H. destruct H as [Hxy Hp].
  apply N.eqb_eq in Hxy. subst y. f_equal. now apply IH.
Qed.

(** The optional newline of the two patterns: either the text starts
    with one, which is dropped, or the text is kept. *)
Lemma newline_head_cases (s : str) :
  (exists t, s = 10%N :: t /\
             match s with 10%N :: t' => t' | _ => s end = t) \/
  match s with 10%N :: t' => t' | _ => s end = s.
Proof.
  destruct s as [|c t]; [now right|].
  destruct (N.eqb_spec c 10) as [->|Hc]; [left; eauto|right].
  destruct c as [|c]; [reflexivity|].
  do 4 (destruct c as [c|c|]; try reflexivity).
  contradiction.
Qed.

Lemma trims_opening (s : str) : trims s (sub_opening_fence s).
Proof.
  unfold sub_opening_fence.
  destruct (startswith (u "```") s) eqn:Hs; [|apply trims_refl].
  apply startswith_split in Hs.
  change (List.length (u "```")) with 3%nat in Hs.
  eapply trims_trans.
  { exists (u "```"), []. rewrite app_nil_r.
    split; [exact Hs | split; reflexivity]. }
  eapply trims_trans; [apply trims_dropwhile, isword_not_brace|].
  eapply trims_trans; [apply trims_dropwhile, isspace_not_brace|].
  destruct (newline_head_cases
              (dropwhile isspace (dropwhile isword (skipn 3 s))))
    as [(t & E & ->)| ->]; [|apply trims_refl].
  rewrite E. exists [10%N], []. now rewrite app_nil_r.
Qed.

Lemma closing_fence_brace_free (s : str) :
  closing_fence_here s = true -> brace_free s = true.
Proof.
  unfold closing_fence_here. intros H.
  apply andb_true_iff in H. destruct H as [Hf Hsp].
  apply startswith_split in Hf.
  change (List.length (u "```")) with 3%nat in Hf.
  apply (forallb_brace_free isspace _ isspace_not_brace) in Hsp.
  destruct (newline_head_cases s) as [(t & E & Em)| Em];
    rewrite Em in Hf, Hsp.
  - rewrite E. change (brace_free (10%N :: t)) with (brace_free t).
    now rewrite Hf, brace_free_app, Hsp.
  - now rewrite Hf, brace_free_app, Hsp.
Qed.

Lemma closing_split (s : str) :
  exists q, s = sub_closing_fence s ++ q /\ brace_free q = true.
Proof.
  induction s as [|c s (q & E & Hq)].
  - now exists [].
  - cbn [sub_closing_fence].
    destruct (closing_fence_here (c :: s)) eqn:H.
    + exists (c :: s). split; [reflexivity|].
      now apply closing_fence_brace_free.
    + exists q. split; [|assumption].
      rewrite <- app_comm_cons. now rewrite <- E.
Qed.

Lemma trims_closing (s : str) : trims s (sub_closing_fence s).
Proof.
  destruct (closing_split s) as (q & E & Hq).
  exists [], q. now repeat split.
Qed.

(** The fences play no role in what is parsed: the extraction decodes the
    text from the first opening brace to the last closing brace of the
    reply, and raises ValueError when one of the two is missing. *)
Lemma extract_brace_span (text : str) :
  _extract_json_from_response text
  = match brace_span text with
    | Some j => json.loads j
    | None => Err ValueError
    end.
Proof.
  unfold _extract_json_from_response.
  set (t := if startswith (u "```") (strip text)
            then strip (sub_closing_fence (sub_opening_fence (strip text)))
            else strip text).
  assert (Ht : trims text t).
  { subst t. destruct (startswith (u "```") (strip text)).
    - eapply trims_trans; [apply trims_strip|].
      eapply trims_trans; [apply trims_opening|].
      eapply trims_trans; [apply trims_closing | apply trims_strip].
    - apply trims_strip. }
  rewrite <- (trims_span _ _ Ht). unfold brace_span.
  destruct (find 123%N t); [|reflexivity].
  destruct (rfind 125%N t); reflexivity.
Qed.

Lemma fenced_trims (tagged closing : bool) (t : str) :
  trims (fenced tagged closing t) t.
Proof.
  unfold fenced.
  exists (u "```" ++ (if tagged then u "json" else []) ++ [10%N]),
         (if closing then [10%N] ++ u "```" else []).
  repeat split.
  - now rewrite <- !app_assoc.
  - now destruct tagged.
  - now destruct closing.
Qed.

(** C6. A text wrapped in markdown fences (the opening fence bare or
    tagged json, the closing fence present or not) is extracted to the
    same result as the text itself: the same parsed object when the text
    holds one, the same error otherwise.  The same holds for any wrapping
    that adds no brace. *)
Theorem fenced_extraction :
  (forall (tagged closing : bool) (t : str),
     _extract_json_from_response (fenced tagged closing t)
     = _extract_json_from_response t) /\
  (forall (p q t : str),
     brace_free p = true -> brace_free q = true ->
     _extract_json_from_response (p ++ t ++ q)
     = _extract_json_from_response t).
Proof.
  split.
  - intros tagged closing t. rewrite !extract_brace_span.
    now rewrite <- (trims_span _ _ (fenced_trims tagged closing t)).
  - intros p q t Hp Hq. rewrite !extract_brace_span.
    now rewrite brace_span_prefix, brace_span_suffix.
Qed.

End Extraction.

(** A fenced reply with a sentence before the fence-free object: both
    parse to the same object. *)
Lemma fenced_extraction_witness :
  intent_parser_llm._extract_json_from_response (rt := runtime_ascii)
    ((u "Sure: ```json" ++ [10%N]) ++ js "{'worker_count': 3}"
       ++ ([10%N] ++ u "```"))
  = Ok (JDict [(u "worker_count", JInt 3)]) /\
  intent_parser_llm._extract_json_from_response (rt := runtime_ascii)
    (fenced true true (js "{'worker_count': 3}"))
  = intent_parser_llm._extract_json_from_response (rt := runtime_ascii)
      (js "{'worker_count': 3}").
Proof.
  split.
  - rewrite (proj2 (@fenced_extraction runtime_ascii)
               (u "Sure: ```json" ++ [10%N]) ([10%N] ++ u "```")
               (js "{'worker_count': 3}") eq_refl eq_refl).
    reflexivity.
  - exact (proj1 (@fenced_extraction runtime_ascii) true true
             (js "{'worker_count': 3}")).
Defined.

(** ** orchestrator.py: the pipeline halts at the first failure *)

Section PipelineFacts.
Import orchestrator.
Variable w : World.

Lemma _run_spec (cmd : list str) (cwd : str) (st : Stage) (h : list event) :
  exists r, _run w cmd cwd st false h = (r, h ++ [Exec cmd cwd]) /\ stage r = st.
Proof.
  unfold _run. destruct (run_proc w h cmd cwd) as [[rc| |t] d].
  - destruct (Z.eqb rc 0); eexists; split; reflexivity.
  - eexists; split; reflexivity.
  - eexists; split; reflexivity.
Qed.


















End PipelineFacts.


(** ** proxmox_client.py: telemetry never fails *)

Section Telemetry.
Context {rt : Runtime}.
Import proxmox_client.
Variable server : str -> http_reply.
Variable config : ProxmoxConfig.

Lemma used_ips_concat (l : list VMInfo) (acc : list str) :
  fold_left (fun a vm => a ++ ips vm) l acc = acc ++ List.concat (map ips l).
Proof.
  revert acc; induction l as [|vm l IH]; intros acc; simpl.
  - now rewrite app_nil_r.
  - now rewrite IH, app_assoc.
Qed.

(** The guests [_get_vms] returns are the guests of the list, each after
    the attempt to find its addresses: whether an address query fails has
    no effect on which guests are returned, nor on whether the list is
    returned. *)
Lemma _get_vms_loop_guests (entries : list JValue) (acc : list VMInfo) :
  _get_vms_loop server config entries acc
  = (vms <- guests_of entries ;;
     Ok (acc ++ map (discover_ips server config) vms)).
Proof.
  revert acc; induction entries as [|entry rest IH]; intros acc; simpl.
  - now rewrite app_nil_r.
  - destruct (py_get entry (u "template") (JInt 0)) as [t|e]; simpl;
      [|reflexivity].
    destruct (eq_int t 1); [apply IH|].
    destruct (vm_of_entry entry) as [vm|e]; simpl; [|reflexivity].
    rewrite IH. destruct (guests_of rest) as [vms|e]; simpl; [|reflexivity].
    now rewrite <- app_assoc.
Qed.

Lemma vm_of_entry_no_ips (entry : JValue) (vm : VMInfo) :
  vm_of_entry entry = Ok vm -> ips vm = [].
Proof.
  unfold vm_of_entry. intros H.
  repeat (apply bind_Ok in H; destruct H as (? & ? & H)).
  injection H as <-. reflexivity.
Qed.

Lemma guests_of_no_ips (entries : list JValue) (vms : list VMInfo) :
  guests_of entries = Ok vms -> Forall (fun vm => ips vm = []) vms.
Proof.
  revert vms; induction entries as [|entry rest IH]; intros vms; simpl.
  - intros [= <-]. constructor.
  - intros H. apply bind_Ok in H. destruct H as (t & _ & H).
    destruct (eq_int t 1); [now apply IH|].
    apply bind_Ok in H. destruct H as (vm & Hvm & H).
    apply bind_Ok in H. destruct H as (vms' & Hvms & H).
    injection H as <-. constructor; [|now apply IH].
    now apply (vm_of_entry_no_ips entry).
Qed.

(** C9. [discover] never raises: it returns a context for every server.
    A failing node-status query leaves the resources at zero and a
    failing guest-list query leaves the guest list and the used addresses
    empty, each whatever the other query did.  In a guest list that is
    returned, every guest of the list is present whether or not its
    address query failed; a guest whose address query failed, or that is
    not running, has no address. *)
Theorem discover_never_raises :
  exists ctx,
    discover server config = Ok ctx /\
    node_name ctx = target_node config /\
    (forall e, _get_node_resources server config = Err e ->
       resources ctx = NodeResources_new) /\
    (forall r, _get_node_resources server config = Ok r ->
       resources ctx = r) /\
    (forall e, _get_vms server config = Err e ->
       existing_vms ctx = [] /\ used_ips ctx = []) /\
    (forall l, _get_vms server config = Ok l ->
       existing_vms ctx = l /\ used_ips ctx = List.concat (map ips l)) /\
    (forall entries acc,
       _get_vms_loop server config entries acc
       = (vms <- guests_of entries ;;
          Ok (acc ++ map (discover_ips server config) vms))) /\
    (forall entries vms vm,
       guests_of entries = Ok vms -> In vm vms ->
       vmid (discover_ips server config vm) = vmid vm /\
       (forall e, _get_vm_ips server config (vmid vm) = Err e ->
          ips (discover_ips server config vm) = []) /\
       (eq_str (status vm) (u "running") = false ->
          ips (discover_ips server config vm) = []) /\
       (eq_str (status vm) (u "running") = true ->
        forall l, _get_vm_ips server config (vmid vm) = Ok l ->
          ips (discover_ips server config vm) = l)).
Proof.
  eexists. split; [reflexivity|]. cbn [node_name resources existing_vms used_ips].
  split; [reflexivity|].
  split; [intros e ->; reflexivity|].
  split; [intros r ->; reflexivity|].
  split; [intros e ->; split; reflexivity|].
  split.
  { intros l ->. split; [reflexivity|]. cbn [try_or].
    now rewrite used_ips_concat. }
  split; [exact _get_vms_loop_guests|].
  intros entries vms vm Hg Hin.
  apply guests_of_no_ips in Hg. rewrite Forall_forall in Hg.
  specialize (Hg vm Hin). unfold discover_ips.
  destruct (eq_str (status vm) (u "running")); cbn.
  - repeat split; try discriminate.
    + intros e ->. exact Hg.
    + intros _ l ->. reflexivity.
  - repeat split; try discriminate; auto.
Qed.

End Telemetry.

(** A degraded server: the node status fails, one agent does not answer,
    and the context is still returned, with the other guest's address. *)
Lemma discover_never_raises_witness :
  exists ctx,
    proxmox_client.discover (rt := runtime_ascii) server_degraded config_pve1
    = Ok ctx /\
    proxmox_client.resources ctx = proxmox_client.NodeResources_new /\
    map proxmox_client.vmid (proxmox_client.existing_vms ctx)
    = [JInt 100; JInt 101; JInt 102] /\
    map proxmox_client.ips (proxmox_client.existing_vms ctx)
    = [[]; [u "10.40.19.201"]; []] /\
    proxmox_client.used_ips ctx = [u "10.40.19.201"].
Proof.
  destruct (@discover_never_raises runtime_ascii server_degraded config_pve1)
    as (ctx & E & _ & Hres & _).
  exists ctx. split; [exact E|].
  split; [apply (Hres RuntimeError); reflexivity|].
  vm_compute in E. injection E as <-. repeat split.
Defined.

(** ** intent_parser_llm.py: how intent resolution fails *)

Section ParseIntent.
Context {rt : Runtime}.
Import models intent_parser_llm.

Lemma find_split (c : char) (s : str) (a : nat) :
  find c s = Some a -> exists t, skipn a s = c :: t.
Proof.
  revert a; induction s as [|x s IH]; simpl; [discriminate|].
  intros a. destruct (N.eqb_spec x c) as [->|_].
  - intros [= <-]. simpl. eauto.
  - destruct (find c s) as [i|]; [|discriminate].
    intros [= <-]. simpl. now apply IH.
Qed.


(** What the extraction returns is a dict. *)
Lemma extract_dict (text : str) (v : JValue) :
  _extract_json_from_response text = Ok v -> exists d, v = JDict d.
Proof.
  rewrite extract_brace_span. unfold brace_span.
  destruct (find 123%N text) as [a|] eqn:Ha; [|discriminate].
  destruct (rfind 125%N text) as [b|]; [|discriminate].
  apply find_split in Ha. destruct Ha as (t & Ht).
  unfold slice. rewrite Ht.
  destruct (b + 1 - a)%nat; [discriminate|].
  cbn [firstn]. apply loads_brace_dict.
Qed.


(** What the conversion raises. *)
Lemma json_to_spec_error (data : dict) (e : exn) :
  _json_to_spec data = Err e ->
  e = ValueError \/ e = TypeError \/ e = OverflowError.
Proof.
  rewrite _json_to_spec_resolve. unfold resolve.
  assert (Hint : forall f, field_parsed f data = Err e ->
            e = ValueError \/ e = TypeError \/ e = OverflowError).
  { intros f H. unfold field_parsed in H. apply py_int_error in H.
    destruct (dict_get_default (field_key f) (JInt (field_default f)) data)
      as [| b | n | x | t | l | d]; try contradiction; auto.
    destruct x; try contradiction; auto. }
  destruct (field_parsed F_worker_count data) eqn:E1;
    [|intros [= <-]; eauto].
  destruct (field_parsed F_control_plane_count data) eqn:E2;
    [|intros [= <-]; eauto].
  destruct (field_parsed F_worker_cores data) eqn:E3;
    [|intros [= <-]; eauto].
  destruct (field_parsed F_worker_memory_mb data) eqn:E4;
    [|intros [= <-]; eauto].
  destruct (field_parsed F_cp_cores data) eqn:E5;
    [|intros [= <-]; eauto].
  destruct (field_parsed F_cp_memory_mb data) eqn:E6;
    [|intros [= <-]; eauto].
  destruct (field_parsed F_ip_start data) eqn:E7;
    [|intros [= <-]; eauto].
  cbn [bind]. unfold resolved_k8s_full, resolved_addons, version_map_get.
  destruct (truthy (opt data "k8s_version")).
  - destruct (hashable (opt data "k8s_version"));
      [|intros [= <-]; auto].
    destruct (truthy (opt data "addons")).
    + destruct (opt data "addons"), (opt data "k8s_version");
        try destruct (table_get _ _); cbn; intros [= <-]; auto.
    + destruct (opt data "k8s_version");
        try destruct (table_get _ _); cbn; discriminate.
  - destruct (truthy (opt data "addons")); cbn; [|discriminate].
    destruct (opt data "addons"); cbn; intros [= <-]; auto.
Qed.

Lemma chat_unfold (b : llm.Ollama) (msgs : list (llm.role * str)) :
  llm.chat b msgs (Some SYSTEM_PROMPT)
  = (r <- llm._post (llm.post_chat b ((llm.system, SYSTEM_PROMPT) :: msgs)) ;;
     m <- py_getitem r (u "message") ;;
     py_getitem m (u "content")).
Proof.
  assert (E : exists c p, SYSTEM_PROMPT = c :: p)
    by (vm_compute; eauto).
  destruct E as (c & p & E). unfold llm.chat. rewrite E. reflexivity.
Qed.








End ParseIntent.



(* ===================================================================== *)
(** * Further properties of the code *)
(* ===================================================================== *)

(** ** models.py: counts of any sign *)

Section ClusterCounts.
Import models.

Lemma range_nonpos (n : Z) : (n <= 0)%Z -> range n = [].
Proof.
  intros H. unfold range. replace (Z.to_nat n) with O by lia. reflexivity.
Qed.

Lemma block_NoDup (p : str) (a n : Z) :
  NoDup (map (fun i => p ++ str_of_Z (a + i)) (range n)).
Proof.
  apply NoDup_map_inj; [|apply range_NoDup].
  intros x y E. apply app_inv_head in E. apply str_of_Z_inj in E. lia.
Qed.

(** X1. The address lists for counts of any sign.  A count that is zero
    or negative gives an empty block; the number of addresses is the
    number of nodes exactly when neither count is negative; no address
    occurs twice whatever the counts; and the worker block always starts
    at [ip_start + control_plane_count], which is below [ip_start] for a
    negative control-plane count. *)
Theorem address_blocks_any_counts (s : ClusterSpec) :
  ((control_plane_count s <= 0)%Z -> control_plane_ips s = []) /\
  ((worker_count s <= 0)%Z -> worker_ips s = []) /\
  List.length (all_ips s)
  = (Z.to_nat (control_plane_count s) + Z.to_nat (worker_count s))%nat /\
  (Z.of_nat (List.length (all_ips s)) = total_nodes s <->
   (0 <= control_plane_count s)%Z /\ (0 <= worker_count s)%Z) /\
  NoDup (all_ips s) /\
  (forall j, (j < Z.to_nat (worker_count s))%nat ->
     nth_error (worker_ips s) j
     = Some (ip_prefix s
             ++ str_of_Z (ip_start s + control_plane_count s + Z.of_nat j))).
Proof.
  assert (Hlen : List.length (all_ips s)
                 = (Z.to_nat (control_plane_count s)
                    + Z.to_nat (worker_count s))%nat).
  { unfold all_ips, control_plane_ips, worker_ips.
    now rewrite length_app, !length_map, !range_length. }
  split; [|split; [|split; [|split; [|split]]]].
  - intros H. unfold control_plane_ips. now rewrite range_nonpos.
  - intros H. unfold worker_ips. now rewrite range_nonpos.
  - exact Hlen.
  - rewrite Hlen. unfold total_nodes. lia.
  - destruct (Z_le_gt_dec 0 (control_plane_count s)) as [Hc|Hc];
      [destruct (Z_le_gt_dec 0 (worker_count s)) as [Hw|Hw]|].
    + rewrite all_ips_block by assumption. apply block_NoDup.
    + unfold all_ips, worker_ips at 1. rewrite (range_nonpos (worker_count s)) by lia.
      cbn [map]. rewrite app_nil_r. apply block_NoDup.
    + unfold all_ips, control_plane_ips.
      rewrite (range_nonpos (control_plane_count s)) by lia.
      cbn [map app]. apply block_NoDup.
  - intros j Hj. unfold worker_ips. now rewrite nth_error_map, range_nth.
Qed.

End ClusterCounts.

(** One control plane too few: a count of -1 and two workers give the two
    addresses .200 and .201, for a cluster of one node. *)
Lemma address_blocks_any_counts_witness :
  let s := models.set_control_plane_count (-1) models.ClusterSpec_new in
  models.control_plane_ips s = [] /\
  models.all_ips s = [u "10.40.19.200"; u "10.40.19.201"] /\
  models.total_nodes s = 1%Z /\
  NoDup (models.all_ips s).
Proof.
  intros s.
  destruct (address_blocks_any_counts s) as (Hc & _ & _ & _ & Hnd & _).
  split; [apply Hc; vm_compute; discriminate|].
  split; [reflexivity|]. split; [reflexivity | exact Hnd].
Defined.

(** ** intent_parser_llm.py: what the conversion reads and what it leaves *)

Section JsonToSpecKeys.
Context {rt : Runtime}.
Import models intent_parser_llm.

Lemma dict_get_set_same (k : str) (v : JValue) (d : dict) :
  dict_get k (dict_set k v d) = Some v.
Proof.
  induction d as [|[k' v'] d IH]; simpl.
  - now rewrite str_eqb_refl.
  - destruct (str_eqb k' k) eqn:E; simpl.
    + now rewrite str_eqb_refl.
    + now rewrite E.
Qed.

Lemma dict_get_set_other (k k' : str) (v : JValue) (d : dict) :
  k' <> k -> dict_get k' (dict_set k v d) = dict_get k' d.
Proof.
  intros Hne. induction d as [|[k0 v0] d IH]; simpl.
  - destruct (str_eqb k k') eqn:E; [|reflexivity].
    apply str_eqb_eq in E. congruence.
  - destruct (str_eqb k0 k) eqn:E; simpl.
    + apply str_eqb_eq in E. subst k0.
      destruct (str_eqb k k') eqn:E'; [|reflexivity].
      apply str_eqb_eq in E'. congruence.
    + now rewrite IH.
Qed.

Lemma field_key_known (f : numeric_field) : In (field_key f) known_keys.
Proof. destruct f; simpl; tauto. Qed.

(** The conversion reads the object only through [get] on its keys. *)
Lemma resolve_ext (d1 d2 : dict) :
  (forall k, In k known_keys -> dict_get k d1 = dict_get k d2) ->
  resolve d1 = resolve d2.
Proof.
  intros H.
  assert (Hopt : forall k, In (u k) known_keys -> opt d1 k = opt d2 k).
  { intros k Hk. unfold opt, dict_get_default. now rewrite (H _ Hk). }
  assert (Hf : forall f, field_parsed f d1 = field_parsed f d2).
  { intros f. unfold field_parsed, dict_get_default.
    now rewrite (H _ (field_key_known f)). }
  unfold resolve, resolved_k8s_full, resolved_addons, resolved_spec.
  rewrite !Hf.
  rewrite !(Hopt "name"%string), !(Hopt "cni_plugin"%string),
    !(Hopt "k8s_version"%string), !(Hopt "addons"%string) by (simpl; tauto).
  reflexivity.
Qed.

(** X2. The conversion of the backend object depends only on the values
    of the eleven keys it reads: two objects that agree on them convert
    to the same spec or fail with the same exception, whatever other keys
    they hold and in whatever order; in particular setting any other key
    changes nothing. *)
Theorem json_to_spec_reads_known_keys :
  (forall d1 d2 : dict,
     (forall k, In k known_keys -> dict_get k d1 = dict_get k d2) ->
     _json_to_spec d1 = _json_to_spec d2) /\
  (forall (d : dict) (k : str) (v : JValue),
     ~ In k known_keys ->
     _json_to_spec (dict_set k v d) = _json_to_spec d).
Proof.
  split.
  - intros d1 d2 H. rewrite !_json_to_spec_resolve. now apply resolve_ext.
  - intros d k v Hk. rewrite !_json_to_spec_resolve. apply resolve_ext.
    intros k' Hk'. apply dict_get_set_other. congruence.
Qed.

(** X3. No backend object changes the fields the conversion does not
    assign: the address prefix, gateway, DNS server and bridge, the
    Proxmox node, template and storage, the SSH user and password and the
    disk sizes of a resolved spec are those of [ClusterSpec()]. *)
Theorem json_to_spec_fixed_fields (data : dict) (s : ClusterSpec) :
  _json_to_spec data = Ok s ->
  ip_prefix s = u "10.40.19." /\
  ip_gateway s = u "10.40.19.254" /\
  dns_server s = u "10.40.2.1" /\
  network_bridge s = u "vmbr0" /\
  target_node s = u "pve1" /\
  template_id s = 990%Z /\
  storage s = u "local-lvm" /\
  ssh_user s = u "ubuntu" /\
  ssh_password s = u "ubuntu" /\
  disk_size (control_plane_spec s) = u "20G" /\
  disk_size (worker_spec s) = u "20G".
Proof.
  intros H. apply resolve_inv in H.
  destruct H as (wc & cpc & wcores & wmem & cpcores & cpmem & ips & full
                 & ads & _ & _ & _ & _ & _ & _ & _ & _ & _ & ->).
  repeat split.
Qed.

(** X4. The cluster name.  A truthy [name] of the backend object becomes
    the name of the spec as it is, and the VM name prefix is its text
    followed by [-node]; without one (absent, null or empty) the name is
    [k8s-cluster] and the prefix [k8s-node], which is not the name
    followed by [-node]. *)
Theorem json_to_spec_name (data : dict) (s : ClusterSpec) :
  _json_to_spec data = Ok s ->
  let v := opt data "name" in
  (truthy v = true ->
     name s = v /\ vm_name_prefix s = py_str v ++ u "-node") /\
  (truthy v = false ->
     name s = JStr (u "k8s-cluster") /\ vm_name_prefix s = u "k8s-node" /\
     vm_name_prefix s <> py_str (name s) ++ u "-node").
Proof.
  intros H v. apply resolve_inv in H.
  destruct H as (wc & cpc & wcores & wmem & cpcores & cpmem & ips & full
                 & ads & _ & _ & _ & _ & _ & _ & _ & _ & _ & ->).
  unfold resolved_spec. cbn [name vm_name_prefix]. fold v.
  split; intros ->; repeat split. discriminate.
Qed.

(** X5. The add-ons.  The conversion keeps what iterating over a truthy
    [addons] value gives, without looking at the items: the items of a
    list, whatever they are; the single characters of a string; the keys
    of an object.  A falsy value (absent, null, zero, empty) gives no
    add-on, and a truthy value that cannot be iterated (a number, true)
    makes the conversion fail. *)
Theorem json_to_spec_addons (data : dict) :
  let v := opt data "addons" in
  (forall s, _json_to_spec data = Ok s ->
     (forall l, v = JList l -> addons s = l) /\
     (forall t, v = JStr t -> addons s = map (fun c => JStr [c]) t) /\
     (forall d, v = JDict d -> addons s = map (fun kv => JStr (fst kv)) d) /\
     (truthy v = false -> addons s = [])) /\
  (truthy v = true -> (forall l, py_iter v <> Ok l) ->
   forall s, _json_to_spec data <> Ok s).
Proof.
  intros v. split.
  - intros s H. apply resolve_inv in H.
    destruct H as (wc & cpc & wcores & wmem & cpcores & cpmem & ips & full
                   & ads & _ & _ & _ & _ & _ & _ & _ & _ & Ha & ->).
    unfold resolved_addons in Ha. fold v in Ha.
    cbn [addons resolved_spec].
    repeat split.
    + intros l E. rewrite E in Ha.
      destruct l; simpl in Ha; injection Ha as <-; reflexivity.
    + intros t E. rewrite E in Ha.
      destruct t; simpl in Ha; injection Ha as <-; reflexivity.
    + intros d E. rewrite E in Ha.
      destruct d; simpl in Ha; injection Ha as <-; reflexivity.
    + intros E. rewrite E in Ha. congruence.
  - intros Ht Hi s H. apply resolve_inv in H.
    destruct H as (wc & cpc & wcores & wmem & cpcores & cpmem & ips & full
                   & ads & _ & _ & _ & _ & _ & _ & _ & _ & Ha & _).
    unfold resolved_addons in Ha. fold v in Ha. rewrite Ht in Ha.
    now apply (Hi ads).
Qed.

End JsonToSpecKeys.

(** *** Concrete runs *)

(** The reasoning of the backend is not read by the conversion. *)
Lemma json_to_spec_reads_known_keys_witness :
  let d := [(u "worker_count", JInt 3)] in
  ~ In (u "reasoning") known_keys /\
  intent_parser_llm._json_to_spec (rt := runtime_ascii)
    (dict_set (u "reasoning") (JStr (u "three workers")) d)
  = intent_parser_llm._json_to_spec (rt := runtime_ascii) d.
Proof.
  intros d.
  assert (H : ~ In (u "reasoning") known_keys).
  { intros H. vm_compute in H. intuition discriminate. }
  split; [exact H|].
  exact (proj2 (@json_to_spec_reads_known_keys runtime_ascii) d
           (u "reasoning") (JStr (u "three workers")) H).
Defined.

(** An object that names another node and another password: the spec
    keeps the defaults. *)
Lemma json_to_spec_fixed_fields_witness :
  exists s,
    intent_parser_llm._json_to_spec (rt := runtime_ascii)
      [(u "target_node", JStr (u "pve9"));
       (u "ssh_password", JStr (u "secret"))] = Ok s /\
    models.target_node s = u "pve1" /\
    models.ssh_password s = u "ubuntu".
Proof.
  eexists. split; [reflexivity|].
  match goal with
  | |- models.target_node ?s = _ /\ _ =>
      pose proof (@json_to_spec_fixed_fields runtime_ascii
                    [(u "target_node", JStr (u "pve9"));
                     (u "ssh_password", JStr (u "secret"))] s eq_refl)
        as (_ & _ & _ & _ & Hn & _ & _ & _ & Hp & _)
  end.
  split; assumption.
Defined.

(** A cluster named prod. *)
Lemma json_to_spec_name_witness :
  exists s,
    intent_parser_llm._json_to_spec (rt := runtime_ascii)
      [(u "name", JStr (u "prod"))] = Ok s /\
    models.name s = JStr (u "prod") /\
    models.vm_name_prefix s = u "prod-node".
Proof.
  eexists. split; [reflexivity|].
  match goal with
  | |- models.name ?s = _ /\ _ =>
      exact (proj1 (@json_to_spec_name runtime_ascii
                      [(u "name", JStr (u "prod"))] s eq_refl) eq_refl)
  end.
Defined.

(** An add-on given as a string instead of a list of strings. *)
Lemma json_to_spec_addons_witness :
  exists s,
    intent_parser_llm._json_to_spec (rt := runtime_ascii)
      [(u "addons", JStr (u "argocd"))] = Ok s /\
    models.addons s
    = [JStr (u "a"); JStr (u "r"); JStr (u "g"); JStr (u "o"); JStr (u "c");
       JStr (u "d")].
Proof.
  eexists. split; [reflexivity|].
  match goal with
  | |- models.addons ?s = _ =>
      destruct (proj1 (@json_to_spec_addons runtime_ascii
                         [(u "addons", JStr (u "argocd"))]) s eq_refl)
        as (_ & H & _)
  end.
  exact (H (u "argocd") eq_refl).
Defined.

(** ** int() undoes str() *)

Section IntOfStr.
Context {rt : Runtime}.
Import models intent_parser_llm.

Lemma u_String (c : ascii) (s : string) :
  u (String c s) = N_of_ascii c :: u s.
Proof. reflexivity. Qed.

Lemma int_digits_digit (c : char) (acc : Z) (b : bool) (s : str) :
  (48 <= c <= 57)%N ->
  int_digits acc b (c :: s) = int_digits (10 * acc + Z.of_N (c - 48)) true s.
Proof.
  intros H. cbn [int_digits].
  destruct (N.eqb_spec c 95); [lia|].
  destruct (N.leb_spec 48 c); [|lia].
  destruct (N.leb_spec c 57); [|lia]. reflexivity.
Qed.

Ltac digit_head :=
  rewrite u_String;
  match goal with
  | |- context [N_of_ascii ?c] =>
      let v := eval vm_compute in (N_of_ascii c) in
      change (N_of_ascii c) with v
  end;
  rewrite int_digits_digit by lia;
  match goal with
  | |- context [Z.of_N ?k] =>
      let v := eval vm_compute in (Z.of_N k) in
      change (Z.of_N k) with v
  end.

Lemma int_digits_acc (d : Decimal.uint) (acc : positive) :
  int_digits (Zpos acc) true (u (NilEmpty.string_of_uint d))
  = Some (Zpos (Pos.of_uint_acc d acc)).
Proof.
  revert acc; induction d; intros acc;
    cbn [NilEmpty.string_of_uint Pos.of_uint_acc];
    [reflexivity | digit_head ..];
    (etransitivity; [|apply IHd]); f_equal; lia.
Qed.

Lemma int_digits_uint (d : Decimal.uint) (b : bool) :
  d <> Decimal.Nil \/ b = true ->
  int_digits 0 b (u (NilEmpty.string_of_uint d))
  = Some (Z.of_N (Pos.of_uint d)).
Proof.
  revert b; induction d; intros b Hb;
    cbn [NilEmpty.string_of_uint Pos.of_uint];
    [destruct Hb as [Hb | ->]; [congruence | reflexivity] | digit_head ..];
    cbn [Z.mul Z.add Z.of_N];
    [apply (IHd true); now right | apply int_digits_acc ..].
Qed.

Lemma uint_chars_digits (d : Decimal.uint) :
  Forall (fun c => (48 <= c <= 57)%N) (u (NilEmpty.string_of_uint d)).
Proof.
  induction d; cbn [NilEmpty.string_of_uint]; try rewrite u_String;
    constructor; try assumption; cbn; lia.
Qed.

Lemma dropwhile_head (f : char -> bool) (c : char) (s : str) :
  f c = false -> dropwhile f (c :: s) = c :: s.
Proof. intros H. simpl. now rewrite H. Qed.

Lemma rstrip_last (f : char -> bool) (s : str) (c : char) :
  f c = false -> rev (dropwhile f (rev (s ++ [c]))) = s ++ [c].
Proof.
  intros H. rewrite rev_app_distr. cbn [rev app].
  rewrite dropwhile_head by assumption.
  change (c :: rev s) with ([c] ++ rev s).
  now rewrite rev_app_distr, rev_involutive.
Qed.

(** [int] leaves a text of visible ASCII characters as it is before it
    parses it. *)
Lemma int_prepare_plain (s : str) :
  s <> [] -> Forall (fun c => (33 <= c < 128)%N) s ->
  rev (dropwhile int_isspace (rev (dropwhile int_isspace (map int_ascii s))))
  = s.
Proof.
  intros Hne Hd.
  assert (Hm : map int_ascii s = s).
  { clear Hne. induction Hd as [|c s Hc _ IH]; [reflexivity|].
    cbn [map]. rewrite IH. f_equal. unfold int_ascii.
    destruct (N.ltb_spec c 128); [reflexivity | lia]. }
  rewrite Hm.
  assert (Hsp : forall c, (33 <= c < 128)%N -> int_isspace c = false).
  { intros c Hc. unfold int_isspace.
    destruct (N.leb_spec c 13); [lia|].
    destruct (N.eqb_spec c 32); [lia|].
    now rewrite andb_false_r. }
  destruct s as [|c s]; [congruence|].
  rewrite dropwhile_head by (apply Hsp; now inversion Hd).
  destruct (exists_last Hne) as (s' & c' & E). rewrite E.
  apply rstrip_last. apply Hsp.
  rewrite E in Hd. apply Forall_app in Hd. destruct Hd as [_ Hd].
  now inversion Hd.
Qed.

Lemma digits_plain (s : str) :
  Forall (fun c => (48 <= c <= 57)%N) s ->
  Forall (fun c => (33 <= c < 128)%N) s.
Proof. apply Forall_impl. intros c Hc. lia. Qed.

Lemma pos_chars (p : positive) :
  let s := u (NilEmpty.string_of_uint (Pos.to_uint p)) in
  s <> [] /\ Forall (fun c => (48 <= c <= 57)%N) s /\
  int_digits 0 false s = Some (Zpos p).
Proof.
  intros s. subst s.
  assert (Hn : Pos.to_uint p <> Decimal.Nil)
    by apply DecimalPos.Unsigned.to_uint_nonnil.
  split; [|split].
  - destruct (Pos.to_uint p); try congruence; rewrite ?u_String; discriminate.
  - apply uint_chars_digits.
  - rewrite int_digits_uint by now left.
    now rewrite DecimalPos.Unsigned.of_to.
Qed.

Lemma nilzero_pos (p : positive) :
  NilZero.string_of_uint (Pos.to_uint p)
  = NilEmpty.string_of_uint (Pos.to_uint p).
Proof.
  pose proof (DecimalPos.Unsigned.to_uint_nonnil p).
  destruct (Pos.to_uint p); [congruence | reflexivity ..].
Qed.

Lemma int_of_str_of_Z (n : Z) : int_of_str (str_of_Z n) = Ok n.
Proof.
  unfold str_of_Z, int_of_str. destruct n as [|p|p].
  - reflexivity.
  - cbn [Z.to_int NilZero.string_of_int].
    destruct (pos_chars p) as (Hne & Hd & Hv).
    rewrite nilzero_pos, int_prepare_plain
      by (try assumption; now apply digits_plain).
    destruct (u (NilEmpty.string_of_uint (Pos.to_uint p))) as [|c s] eqn:E;
      [congruence|].
    assert (Hc : (48 <= c <= 57)%N) by now inversion Hd.
    destruct c as [|c]; [lia|].
    repeat (destruct c as [c|c|]; try lia; try (now rewrite Hv)).
  - cbn [Z.to_int NilZero.string_of_int].
    destruct (pos_chars p) as (Hne & Hd & Hv).
    rewrite nilzero_pos, u_String.
    change (N_of_ascii "-") with 45%N.
    rewrite int_prepare_plain.
    + now rewrite Hv.
    + discriminate.
    + constructor; [lia | now apply digits_plain].
Qed.
(** The conversion with its two ways of reading the object apart: the
    seven integers and the four other values. *)
Lemma resolve_ext_fields (d1 d2 : dict) :
  (forall f, field_parsed f d1 = field_parsed f d2) ->
  (forall k, In k ["name"; "cni_plugin"; "k8s_version"; "addons"]%string ->
             opt d1 k = opt d2 k) ->
  resolve d1 = resolve d2.
Proof.
  intros Hf Hopt.
  unfold resolve, resolved_k8s_full, resolved_addons, resolved_spec.
  rewrite !Hf.
  rewrite !(Hopt "name"%string), !(Hopt "cni_plugin"%string),
    !(Hopt "k8s_version"%string), !(Hopt "addons"%string) by (simpl; tauto).
  reflexivity.
Qed.

Lemma field_key_inj (f g : numeric_field) : field_key f = field_key g -> f = g.
Proof.
  destruct f, g; intros H; try reflexivity; apply u_inj in H; discriminate H.
Qed.

Lemma field_key_inj_dec (g f : numeric_field) :
  g = f \/ field_key g <> field_key f.
Proof.
  destruct g, f; try (now left); right; intros H; apply u_inj in H;
    discriminate H.
Qed.

Lemma field_key_not_opt (f : numeric_field) (k : string) :
  In k ["name"; "cni_plugin"; "k8s_version"; "addons"]%string ->
  u k <> field_key f.
Proof.
  intros Hk H. simpl in Hk.
  destruct Hk as [<-|[<-|[<-|[<-|[]]]]]; destruct f; apply u_inj in H;
    discriminate H.
Qed.

(** X6. [int] undoes [str] within the digit limit of the interpreter: a
    numeric field that the backend gives as a string, the decimal text of
    an integer with its sign and with no more digits than [int] accepts
    (4300), is read as that integer, and the conversion gives what it
    gives for the number itself.  Beyond the limit the interpreter
    raises ValueError on the text, which [int_of_str] leaves out: the
    property is stated within the limit. *)
Theorem numeric_field_as_text (data : dict) (f : numeric_field) (n : Z) :
  (decimal_digits n <= int_max_str_digits)%nat ->
  py_int (JStr (str_of_Z n)) = Ok n /\
  field_parsed f (dict_set (field_key f) (JStr (str_of_Z n)) data) = Ok n /\
  _json_to_spec (dict_set (field_key f) (JStr (str_of_Z n)) data)
  = _json_to_spec (dict_set (field_key f) (JInt n) data).
Proof.
  intros _.
  assert (Hp : forall v, field_parsed f (dict_set (field_key f) v data)
                         = py_int v).
  { intros v. unfold field_parsed, dict_get_default.
    now rewrite dict_get_set_same. }
  split; [apply int_of_str_of_Z|].
  split; [rewrite Hp; apply int_of_str_of_Z|].
  rewrite !_json_to_spec_resolve. apply resolve_ext_fields.
  - intros g. destruct (field_key_inj_dec g f) as [->|Hne].
    + rewrite !Hp. apply int_of_str_of_Z.
    + unfold field_parsed, dict_get_default.
      now rewrite !dict_get_set_other by assumption.
  - intros k Hk. unfold opt, dict_get_default.
    now rewrite !dict_get_set_other by (now apply field_key_not_opt).
Qed.

End IntOfStr.

(** A worker count given as the text of 3, and a first address given as
    the text of -12. *)
Lemma numeric_field_as_text_witness :
  field_parsed (rt := runtime_ascii) F_worker_count
    [(u "worker_count", JStr (u "3"))] = Ok 3%Z /\
  intent_parser_llm._json_to_spec (rt := runtime_ascii)
    [(u "ip_start", JStr (u "-12"))]
  = intent_parser_llm._json_to_spec (rt := runtime_ascii)
    [(u "ip_start", JInt (-12))].
Proof.
  split.
  - apply (proj1 (proj2 (@numeric_field_as_text runtime_ascii []
                           F_worker_count 3%Z
                           ltac:(vm_compute; lia)))).
  - apply (proj2 (proj2 (@numeric_field_as_text runtime_ascii []
                           F_ip_start (-12)%Z
                           ltac:(vm_compute; lia)))).
Defined.

(** ** intent_parser_llm.py: what the extraction decodes *)

Section ExtractionSpan.
Context {rt : Runtime}.
Import intent_parser_llm.

(** X7. The extraction decodes the text from the first opening brace of
    the reply to its last closing brace, whatever fences, white space or
    sentences surround them, and nothing else: a reply without one of the
    two braces is rejected with ValueError; a reply whose last closing
    brace comes before its first opening brace is rejected with
    JSONDecodeError; and a result, when there is one, is a JSON object. *)
Theorem extraction_decodes_brace_span (text : str) :
  _extract_json_from_response text
  = match brace_span text with
    | Some j => json.loads j
    | None => Err ValueError
    end /\
  (find 123%N text = None \/ rfind 125%N text = None ->
   _extract_json_from_response text = Err ValueError) /\
  (forall a b, find 123%N text = Some a -> rfind 125%N text = Some b ->
     (b < a)%nat ->
     _extract_json_from_response text = Err JSONDecodeError) /\
  (forall v, _extract_json_from_response text = Ok v ->
     exists d j, v = JDict d /\ brace_span text = Some j /\
                 startswith [123%N] j = true /\ json.loads j = Ok (JDict d)).
Proof.
  split; [apply extract_brace_span|].
  split; [|split].
  - rewrite extract_brace_span. unfold brace_span.
    intros [-> | ->]; [reflexivity|].
    now destruct (find 123%N text).
  - intros a b Ha Hb Hlt. rewrite extract_brace_span. unfold brace_span.
    rewrite Ha, Hb. unfold slice.
    replace (b + 1 - a)%nat with O by lia. reflexivity.
  - intros v H. destruct (extract_dict _ _ H) as (d & ->).
    rewrite extract_brace_span in H. unfold brace_span in *.
    destruct (find 123%N text) as [a|] eqn:Ha; [|discriminate].
    destruct (rfind 125%N text) as [b|]; [|discriminate].
    exists d, (slice a (b + 1) text). repeat split; try assumption.
    apply find_split in Ha. destruct Ha as (t & Ht).
    unfold slice in *. rewrite Ht in *.
    destruct (b + 1 - a)%nat; [discriminate H|]. reflexivity.
Qed.

End ExtractionSpan.

(** A reply with two objects is decoded from the first brace to the last
    and rejected; a closing brace before the opening one as well. *)
Lemma extraction_decodes_brace_span_witness :
  intent_parser_llm._extract_json_from_response (rt := runtime_ascii)
    (js "Either {'worker_count': 2} or {'worker_count': 3}.")
  = json.loads (js "{'worker_count': 2} or {'worker_count': 3}") /\
  intent_parser_llm._extract_json_from_response (rt := runtime_ascii)
    (js "} {")
  = Err JSONDecodeError.
Proof.
  split.
  - exact (proj1 (@extraction_decodes_brace_span runtime_ascii
                    (js "Either {'worker_count': 2} or {'worker_count': 3}."))).
  - apply (proj1 (proj2 (proj2 (@extraction_decodes_brace_span runtime_ascii
                                  (js "} {")))) 2%nat 0%nat);
      [reflexivity | reflexivity | lia].
Defined.

(** ** llm.py: the chat request and the model list *)

Section Llm.
Import llm.


Lemma model_names_ok (ms ns : list JValue) :
  Forall2 (fun m n => py_getitem m (u "name") = Ok n) ms ns ->
  model_names ms = Ok ns.
Proof.
  induction 1 as [|m n ms ns Hm _ IH]; [reflexivity|].
  cbn [model_names]. rewrite Hm. cbn [bind]. now rewrite IH.
Qed.

Lemma model_names_error (ms : list JValue) (m : JValue) (e : exn) :
  In m ms -> py_getitem m (u "name") = Err e ->
  exists e', model_names ms = Err e'.
Proof.
  induction ms as [|x ms IH]; [contradiction|].
  intros [->|Hin] He; cbn [model_names].
  - rewrite He. cbn [bind]. eauto.
  - destruct (py_getitem x (u "name")); cbn [bind]; [|eauto].
    destruct (IH Hin He) as (e' & ->). cbn [bind]. eauto.
Qed.

(** X9. The model list is all or nothing.  When the server lists models
    that are all objects with a name, the names are returned in the order
    of the list; one entry without a name (or that is not an object)
    empties the whole result, as does a list that is not there, a reply
    that is not an object, and a server that does not answer: the empty
    list does not tell these apart. *)
Theorem list_models_all_or_nothing (o : Ollama) :
  (is_available o = false -> list_models o = []) /\
  (forall text v, get_tags o = Body text -> json.loads text = Ok v ->
     (forall d, v <> JDict d) -> list_models o = []) /\
  (forall text d, get_tags o = Body text -> json.loads text = Ok (JDict d) ->
     (dict_get (u "models") d = None -> list_models o = []) /\
     (forall ms, dict_get (u "models") d = Some (JList ms) ->
        (forall ns,
           Forall2 (fun m n => py_getitem m (u "name") = Ok n) ms ns ->
           list_models o = ns) /\
        (forall m e, In m ms -> py_getitem m (u "name") = Err e ->
           list_models o = []))).
Proof.
  unfold list_models, is_available. split; [|split].
  - destruct (_get (get_tags o)); [discriminate | reflexivity].
  - intros text v -> Hl Hv. cbn [_get]. rewrite Hl. cbn [bind].
    destruct v; try reflexivity. now destruct (Hv d).
  - intros text d -> Hl. cbn [_get]. rewrite Hl. cbn [bind py_get].
    unfold dict_get_default. split.
    + intros ->. reflexivity.
    + intros ms ->. cbn [bind py_iter]. split.
      * intros ns H. now rewrite (model_names_ok _ _ H).
      * intros m e Hin He.
        destruct (model_names_error _ _ _ Hin He) as (e' & ->). reflexivity.
Qed.

End Llm.


(** Two named models are listed; a nameless second entry hides the
    first. *)
Lemma list_models_all_or_nothing_witness :
  llm.list_models backend_two_models
  = [JStr (u "llama3:latest"); JStr (u "mistral:7b")] /\
  llm.list_models backend_nameless_model = [].
Proof.
  split.
  - destruct (proj2 (proj2 (list_models_all_or_nothing backend_two_models))
                _ _ eq_refl eq_refl) as [_ H].
    apply (proj1 (H _ eq_refl)).
    repeat constructor.
  - destruct (proj2 (proj2 (list_models_all_or_nothing backend_nameless_model))
                _ _ eq_refl eq_refl) as [_ H].
    apply (proj2 (H _ eq_refl)
             (JDict [(u "model", JStr (u "mistral:7b"))]) KeyError).
    + right. now left.
    + reflexivity.
Defined.

(** ** proxmox_client.py: the addresses of the guests *)

Section GuestAddresses.
Context {rt : Runtime}.
Import proxmox_client.

Variable server : str -> http_reply.
Variable config : ProxmoxConfig.

Lemma _get_vm_ips_addrs_reported (addrs : list JValue) (ips out : list str) :
  _get_vm_ips_addrs addrs ips = Ok out -> reported ips -> reported out.
Proof.
  revert ips; induction addrs as [|addr rest IH]; intros ips; cbn [_get_vm_ips_addrs].
  - now intros [= <-].
  - intros H Hips. apply bind_Ok in H. destruct H as (t & _ & H).
    destruct (eq_str t (u "ipv4")); [|now apply (IH ips)].
    apply bind_Ok in H. destruct H as (ip & _ & H).
    destruct (truthy ip) eqn:Ht; [|now apply (IH ips)].
    destruct ip as [| | | |s| |]; try discriminate H.
    destruct (startswith (u "127.") s) eqn:Hs; cbn [negb] in H;
      [now apply (IH ips)|].
    apply (IH _ H). apply Forall_app. split; [assumption|].
    constructor; [|constructor]. unfold reported_address.
    cbn [truthy] in Ht. now rewrite Ht, Hs.
Qed.

Lemma _get_vm_ips_ifaces_reported (ifaces : list JValue) (ips out : list str) :
  _get_vm_ips_ifaces ifaces ips = Ok out -> reported ips -> reported out.
Proof.
  revert ips; induction ifaces as [|iface rest IH]; intros ips;
    cbn [_get_vm_ips_ifaces].
  - now intros [= <-].
  - intros H Hips. apply bind_Ok in H. destruct H as (n & _ & H).
    destruct (eq_str n (u "lo")); [now apply (IH ips)|].
    apply bind_Ok in H. destruct H as (a & _ & H).
    apply bind_Ok in H. destruct H as (addrs & _ & H).
    apply bind_Ok in H. destruct H as (ips' & Ha & H).
    apply (IH _ H). now apply (_get_vm_ips_addrs_reported _ _ _ Ha).
Qed.

Lemma _get_vm_ips_reported (vmid : JValue) (out : list str) :
  _get_vm_ips server config vmid = Ok out -> reported out.
Proof.
  unfold _get_vm_ips. intros H.
  repeat (apply bind_Ok in H; destruct H as (? & _ & H)).
  apply (_get_vm_ips_ifaces_reported _ _ _ H). constructor.
Qed.

Lemma discover_ips_reported (vm : VMInfo) :
  ips vm = [] -> reported (ips (discover_ips server config vm)).
Proof.
  intros Hvm. unfold discover_ips.
  destruct (eq_str (status vm) (u "running")); [|rewrite Hvm; constructor].
  cbn [ips set_ips].
  destruct (_get_vm_ips server config (vmid vm)) as [l|e] eqn:E; cbn [try_or].
  - now apply (_get_vm_ips_reported _ _ E).
  - rewrite Hvm. constructor.
Qed.

(** X10. The addresses the telemetry reports.  An address returned for a
    guest by the agent query is never empty and never starts with
    [127.]; so no guest of a discovered context has such an address, and
    the list of used addresses, which is handed to the backend, holds
    none. *)
Theorem guest_addresses_reported :
  (forall vmid out,
     _get_vm_ips server config vmid = Ok out ->
     Forall (fun ip => reported_address ip = true) out) /\
  (forall ctx,
     discover server config = Ok ctx ->
     Forall (fun vm => Forall (fun ip => reported_address ip = true) (ips vm))
            (existing_vms ctx) /\
     Forall (fun ip => reported_address ip = true) (used_ips ctx)).
Proof.
  split; [exact _get_vm_ips_reported|].
  intros ctx H. unfold discover in H. injection H as <-.
  cbn [existing_vms used_ips].
  assert (Hvms : Forall (fun vm => reported (ips vm))
                        (try_or [] (_get_vms server config))).
  { destruct (_get_vms server config) as [l|e] eqn:E; cbn [try_or];
      [|constructor].
    unfold _get_vms in E.
    repeat (apply bind_Ok in E; destruct E as (? & _ & E)).
    rewrite _get_vms_loop_guests in E.
    apply bind_Ok in E. destruct E as (vms & Hg & E).
    injection E as <-. cbn [app].
    apply guests_of_no_ips in Hg.
    induction Hg as [|vm vms Hvm _ IH]; cbn [map]; constructor;
      [now apply discover_ips_reported | assumption]. }
  split; [exact Hvms|].
  rewrite used_ips_concat. cbn [app].
  induction Hvms as [|vm vms Hvm _ IH]; cbn [map List.concat];
    [constructor|].
  apply Forall_app. now split.
Qed.

End GuestAddresses.

(** The degraded server of the telemetry run: the guest 101 reports its
    LAN address and not the loopback address of its interface lo. *)
Lemma guest_addresses_reported_witness :
  proxmox_client._get_vm_ips (rt := runtime_ascii) server_degraded
    config_pve1 (JInt 101)
  = Ok [u "10.40.19.201"] /\
  Forall (fun ip => reported_address ip = true) [u "10.40.19.201"].
Proof.
  split; [reflexivity|].
  exact (proj1 (@guest_addresses_reported runtime_ascii server_degraded
                  config_pve1) (JInt 101) [u "10.40.19.201"] eq_refl).
Defined.

(** ** proxmox_client.py: the base URL of the client *)

Section BaseUrl.
Import proxmox_client.

Lemma startswith_app (p q : str) : startswith p (p ++ q) = true.
Proof.
  induction p as [|c p IH]; [reflexivity|].
  cbn [app startswith]. now rewrite N.eqb_refl, IH.
Qed.

Lemma endswith_app (p s : str) : endswith p (s ++ p) = true.
Proof. unfold endswith. rewrite rev_app_distr. apply startswith_app. Qed.

Lemma firstn_without_suffix (p s : str) :
  firstn (List.length (s ++ p) - List.length p) (s ++ p) = s.
Proof.
  rewrite length_app.
  replace (List.length s + List.length p - List.length p)%nat
    with (List.length s + 0)%nat by lia.
  rewrite firstn_app_2. cbn [firstn]. apply app_nil_r.
Qed.

Lemma rstrip_chars_stripped (cs s : str) (c : char) :
  existsb (N.eqb c) cs = false -> rstrip_chars cs (s ++ [c]) = s ++ [c].
Proof. intros H. unfold rstrip_chars. now apply rstrip_last. Qed.

Lemma rstrip_chars_more (cs s : str) (c : char) :
  existsb (N.eqb c) cs = true -> rstrip_chars cs (s ++ [c]) = rstrip_chars cs s.
Proof.
  intros H. unfold rstrip_chars. rewrite rev_app_distr. cbn [rev app dropwhile].
  now rewrite H.
Qed.

Lemma rstrip_chars_no_slash (s : str) :
  endswith (u "/") s = false -> rstrip_chars (u "/") s = s.
Proof.
  destruct s as [|c0 s0] using rev_ind; [reflexivity|].
  clear IHs0. unfold endswith. rewrite rev_app_distr.
  change (rev (u "/")) with [47%N]. cbn [rev app startswith].
  rewrite andb_true_r. intros H. apply rstrip_chars_stripped.
  change (u "/") with [47%N]. cbn [existsb].
  now rewrite N.eqb_sym, H.
Qed.

Lemma _base_with_suffix (config : ProxmoxConfig) (b : str) :
  api_url config = b ++ u "/api2/json" -> _base config = b ++ u "/api2/json".
Proof.
  intros E. unfold _base. rewrite E.
  assert (Hs : rstrip_chars (u "/") (b ++ u "/api2/json") = b ++ u "/api2/json").
  { change (u "/api2/json") with (u "/api2/jso" ++ [110%N]).
    rewrite app_assoc. now apply rstrip_chars_stripped. }
  rewrite Hs, endswith_app, firstn_without_suffix. reflexivity.
Qed.

(** X11. The base URL a client derives from the configured URL.  It
    always ends with [/api2/json]; the derivation is idempotent; slashes
    at the end of the configured URL do not count; for a host URL that
    ends neither with a slash nor with [/api2/json], the host URL and the
    host URL followed by [/api2/json] give the same base, the host URL
    followed by [/api2/json]; hence a client sends the same requests
    whichever of these forms is configured. *)
Theorem base_url_normalised (config : ProxmoxConfig) :
  endswith (u "/api2/json") (_base config) = true /\
  _base (set_api_url (_base config) config) = _base config /\
  _base (set_api_url (api_url config ++ u "/") config) = _base config /\
  (endswith (u "/") (api_url config) = false ->
   endswith (u "/api2/json") (api_url config) = false ->
   _base config = api_url config ++ u "/api2/json" /\
   _base (set_api_url (api_url config ++ u "/api2/json") config)
   = _base config) /\
  (forall net path,
     server_of net (set_api_url (api_url config ++ u "/") config) path
     = server_of net config path /\
     server_of net (set_api_url (_base config) config) path
     = server_of net config path).
Proof.
  assert (H1 : endswith (u "/api2/json") (_base config) = true)
    by (unfold _base; apply endswith_app).
  assert (H2 : _base (set_api_url (_base config) config) = _base config).
  { apply _base_with_suffix. reflexivity. }
  assert (H3 : _base (set_api_url (api_url config ++ u "/") config)
               = _base config).
  { unfold _base. cbn [api_url set_api_url].
    change (u "/") with [47%N]. now rewrite rstrip_chars_more. }
  split; [exact H1|]. split; [exact H2|]. split; [exact H3|]. split.
  - intros Hs Hj. split.
    + unfold _base. rewrite (rstrip_chars_no_slash _ Hs), Hj. reflexivity.
    + rewrite (_base_with_suffix (set_api_url _ config) (api_url config))
        by reflexivity.
      unfold _base. rewrite (rstrip_chars_no_slash _ Hs), Hj. reflexivity.
  - intros net path. unfold server_of. rewrite H2, H3. split; reflexivity.
Qed.

End BaseUrl.

(** The URL of the concrete configuration, given with and without the
    API path: the same base. *)
Lemma base_url_normalised_witness :
  let host := set_api_url (u "https://10.40.19.230:8006") config_pve1 in
  proxmox_client._base host = u "https://10.40.19.230:8006/api2/json" /\
  proxmox_client._base config_pve1 = proxmox_client._base host.
Proof.
  intros host.
  destruct (base_url_normalised host) as (_ & _ & _ & H & _).
  destruct (H eq_refl eq_refl) as [H1 H2].
  split; [exact H1 | exact H2].
Defined.

(** ** orchestrator.py: dry runs, the terraform steps, the full run *)

Section PipelineRuns.
Import orchestrator.

Variable w : World.

(** X12. A dry run touches nothing: the pipeline runs no command and does
    not wait, whatever the world; every result is a success of duration
    zero; the results are those of packer (unless skipped), terraform,
    the wait (recorded as a second terraform result), ansible and, when
    the spec has add-ons, the add-ons; terraform is reported by its apply
    command alone, and the add-ons by their command or, when the playbook
    is missing, as skipped. *)
Theorem dry_run_executes_nothing (spec : models.ClusterSpec)
    (skip_packer auto_approve : bool) (h : list event) :
  let run := run_pipeline w spec skip_packer auto_approve true h in
  snd run = h /\
  Forall (fun r => success r = true /\ duration_s r = 0%N) (fst run) /\
  map stage (fst run)
  = (if skip_packer then [] else [PACKER])
    ++ [TERRAFORM; TERRAFORM; ANSIBLE]
    ++ match models.addons spec with
       | _ :: _ => [ADDONS]
       | [] => []
       end /\
  map msg (fst run)
  = (if skip_packer then []
     else [DryRunWouldExecute (event_cmd packer_command)
                              (event_cwd packer_command)])
    ++ [DryRunWouldExecute (event_cmd (terraform_apply auto_approve))
                           (event_cwd (terraform_apply auto_approve));
        DryRunWouldWait;
        DryRunWouldExecute (event_cmd ansible_command)
                           (event_cwd ansible_command)]
    ++ match models.addons spec with
       | _ :: _ =>
           [if addons_file_exists w h
            then DryRunWouldExecute (event_cmd addons_command)
                                    (event_cwd addons_command)
            else NoAddonsPlaybook]
       | [] => []
       end.
Proof.
  intros run. subst run.
  unfold run_pipeline, run_packer, run_terraform, run_ansible, run_addons,
    _run.
  destruct skip_packer, auto_approve, (models.addons spec) as [|a l];
    cbn; try destruct (addons_file_exists w h); cbn;
    repeat split; repeat constructor.
Qed.

Lemma _run_exit_zero (cmd : list str) (cwd : str) (st : Stage)
    (h : list event) :
  fst (run_proc w h cmd cwd) = Exited 0 ->
  _run w cmd cwd st false h
  = ({| stage := st; success := true;
        duration_s := snd (run_proc w h cmd cwd);
        msg := CompletedIn (snd (run_proc w h cmd cwd)) |},
     h ++ [Exec cmd cwd]).
Proof.
  unfold _run. destruct (run_proc w h cmd cwd) as [o d]. cbn [fst snd].
  now intros ->.
Qed.

Lemma _run_success_iff (cmd : list str) (cwd : str) (st : Stage)
    (h : list event) :
  success (fst (_run w cmd cwd st false h)) = true <->
  fst (run_proc w h cmd cwd) = Exited 0.
Proof.
  unfold _run. destruct (run_proc w h cmd cwd) as [[rc| |t] d]; cbn [fst snd].
  - destruct (Z.eqb_spec rc 0) as [->|Hne]; cbn; split; try reflexivity;
      try discriminate. intros [= E]. contradiction.
  - cbn. split; discriminate.
  - cbn. split; discriminate.
Qed.

(** X13. The terraform stage of a run that is not a dry run.  Its commands
    are the first one, two or three of init, plan and apply (with
    [-auto-approve] before the plan file exactly when asked), in that
    order, all under the stage terraform; every command before the last
    one run has exited with status 0; the stage succeeds exactly when the
    last command run has, and then all three were run: apply is never
    run after a failed init or plan. *)
Theorem terraform_steps (auto_approve : bool) (h : list event) :
  let cmds := terraform_commands auto_approve in
  exists k r,
    run_terraform w false auto_approve h = (r, h ++ firstn k cmds) /\
    (1 <= k <= 3)%nat /\
    stage r = TERRAFORM /\
    (forall j, (S j < k)%nat -> command_outcome w h cmds j = Some (Exited 0)) /\
    (success r = true <->
     command_outcome w h cmds (k - 1) = Some (Exited 0)) /\
    (success r = true -> k = 3%nat).
Proof.
  intros cmds. unfold run_terraform.
  pose proof (_run_success_iff [u "terraform"; u "init"] (u "terraform")
                TERRAFORM h) as S1.
  destruct (_run_spec w [u "terraform"; u "init"] (u "terraform")
              TERRAFORM h) as (r1 & E1 & T1).
  rewrite E1 in *. cbn [fst] in S1.
  destruct (success r1) eqn:B1; cbn [negb andb].
  2:{ exists 1%nat, r1. cbn [firstn cmds terraform_commands terraform_apply].
      repeat split; try lia; try assumption.
      - intros H. rewrite B1 in H. discriminate H.
      - intros H. unfold command_outcome in H. cbn in H.
        rewrite app_nil_r in H. injection H as H. apply S1 in H.
        discriminate H.
      - intros H. rewrite B1 in H. discriminate H. }
  pose proof (proj1 S1 eq_refl) as O1.
  pose proof (_run_success_iff [u "terraform"; u "plan"; u "-out=tfplan"]
                (u "terraform") TERRAFORM
                (h ++ [Exec [u "terraform"; u "init"] (u "terraform")]))
    as S2.
  destruct (_run_spec w [u "terraform"; u "plan"; u "-out=tfplan"]
              (u "terraform") TERRAFORM
              (h ++ [Exec [u "terraform"; u "init"] (u "terraform")]))
    as (r2 & E2 & T2).
  rewrite E2 in *. cbn [fst] in S2.
  destruct (success r2) eqn:B2; cbn [negb andb].
  2:{ exists 2%nat, r2. cbn [firstn cmds terraform_commands terraform_apply].
      rewrite <- app_assoc. cbn [app].
      repeat split; try lia; try assumption.
      - intros j Hj. assert (j = O) as -> by lia.
        unfold command_outcome. cbn. rewrite app_nil_r. now rewrite O1.
      - intros H. rewrite B2 in H. discriminate H.
      - intros H. unfold command_outcome in H. cbn in H.
        injection H as H. apply S2 in H. discriminate H.
      - intros H. rewrite B2 in H. discriminate H. }
  pose proof (proj1 S2 eq_refl) as O2.
  match goal with
  | |- context [_run w ?c ?d ?s false ?hh] =>
      pose proof (_run_success_iff c d s hh) as S3;
      destruct (_run_spec w c d s hh) as (r3 & E3 & T3)
  end.
  rewrite E3 in *. cbn [fst] in S3.
  rewrite <- app_assoc in S3. cbn [app] in S3.
  exists 3%nat, r3. cbn [firstn cmds terraform_commands terraform_apply].
  rewrite <- !app_assoc. cbn [app].
  repeat split; try lia; try assumption.
  - destruct auto_approve; reflexivity.
  - intros j Hj. destruct j as [|[|j]]; [| |lia]; unfold command_outcome; cbn.
    + rewrite app_nil_r. now rewrite O1.
    + now rewrite O2.
  - intros H. apply S3 in H. unfold command_outcome. cbn.
    destruct auto_approve; cbn in *; now rewrite H.
  - intros H. apply S3. unfold command_outcome in H. cbn in H.
    destruct auto_approve; cbn in *; now injection H.
Qed.

(** X14. The run in which nothing fails.  When every command exits with
    status 0 and the add-on playbook exists, a run that is not a dry run
    executes exactly: packer build (unless skipped), terraform init, plan
    and apply, a wait of 60 seconds, the site playbook and, when the spec
    has add-ons, the add-on playbook, in this order; and every planned
    stage has one successful result. *)
Theorem full_run_commands (spec : models.ClusterSpec)
    (skip_packer auto_approve : bool) :
  (forall h cmd cwd, fst (run_proc w h cmd cwd) = Exited 0) ->
  (forall h, addons_file_exists w h = true) ->
  let run := run_pipeline w spec skip_packer auto_approve false [] in
  snd run
  = (if skip_packer then [] else [packer_command])
    ++ terraform_commands auto_approve
    ++ [Sleep 60; ansible_command]
    ++ match models.addons spec with
       | _ :: _ => [addons_command]
       | [] => []
       end /\
  map stage (fst run) = planned_stages spec skip_packer /\
  forallb success (fst run) = true.
Proof.
  intros Hall Hfile run. subst run.
  unfold run_pipeline, run_packer, run_terraform, run_ansible, run_addons,
    planned_stages.
  rewrite ?Hfile.
  destruct skip_packer; cbn [negb].
  all: repeat (rewrite _run_exit_zero by apply Hall; cbn [success negb andb app]).
  all: destruct (models.addons spec) as [|a l]; cbn [negb].
  all: rewrite ?Hfile; cbn [negb].
  all: repeat (rewrite _run_exit_zero by apply Hall; cbn [success negb andb app]).
  all: unfold terraform_commands, terraform_apply, packer_command,
         ansible_command, addons_command.
  all: destruct auto_approve; cbn [fst snd map app stage forallb success andb];
    repeat split; reflexivity.
Qed.

End PipelineRuns.

(** terraform plan exits with status 1: init and plan were run, apply was
    not, and the stage failed. *)
Lemma terraform_steps_witness :
  exists r,
    orchestrator.run_terraform world_plan_fails false true []
    = (r, firstn 2 (terraform_commands true)) /\
    orchestrator.success r = false.
Proof.
  destruct (terraform_steps world_plan_fails true [])
    as (k & r & E & Hk & _ & _ & _ & H3).
  exists r.
  assert (B : orchestrator.success r = false).
  { destruct (orchestrator.success r); [|reflexivity].
    rewrite (H3 eq_refl) in E. vm_compute in E.
    injection E as Hr Hh. discriminate Hh. }
  split; [|exact B].
  destruct k as [|[|[|[|k]]]]; try lia.
  - vm_compute in E. injection E as Hr Hh. discriminate Hh.
  - exact E.
  - vm_compute in E. injection E as Hr Hh. discriminate Hh.
Defined.

(** Every command succeeds, packer included and two add-ons asked for:
    the seven events of the full run. *)
Lemma full_run_commands_witness :
  snd (orchestrator.run_pipeline world_all_succeed spec_with_addon
         false true false [])
  = [packer_command] ++ terraform_commands true
    ++ [orchestrator.Sleep 60; ansible_command; addons_command].
Proof.
  exact (proj1 (full_run_commands world_all_succeed spec_with_addon false true
                  (fun _ _ _ => eq_refl) (fun _ => eq_refl))).
Defined.

(** ** cli.py: the interactive edit *)

Section InteractiveEdit.
Context {rt : Runtime}.
Import models cli.

Lemma str_items_ok (l : list JValue) :
  (exists ss, str_items l = Ok ss) <-> Forall (fun v => exists s, v = JStr s) l.
Proof.
  induction l as [|v l IH]; cbn [str_items].
  - split; [constructor | eauto].
  - split.
    + intros (ss & H). destruct v; try discriminate H.
      apply bind_Ok in H. destruct H as (ss' & H & _).
      constructor; [eauto | apply IH; eauto].
    + intros H. inversion H as [|? ? (s & ->) Hl]; subst.
      apply IH in Hl. destruct Hl as (ss & ->). cbn [bind]. eauto.
Qed.

Lemma str_items_error (l : list JValue) (e : exn) :
  str_items l = Err e -> e = TypeError.
Proof.
  induction l as [|v l IH]; cbn [str_items]; [discriminate|].
  destruct v; try (now intros [= <-]).
  destruct (str_items l); cbn [bind]; [discriminate|].
  intros [= <-]. now apply IH.
Qed.

(** X15. Enter at every prompt.  When every answer is empty or white
    space, the edit returns the spec as it was, provided its add-ons are
    all strings; if one add-on is not a string (the conversion of the
    backend object keeps any item), the prompt for the add-ons raises
    TypeError although nothing was edited. *)
Theorem edit_without_answers (spec : ClusterSpec) (a : Answers) :
  Forall (fun ans => strip ans = []) (answers_list a) ->
  (Forall (fun v => exists s, v = JStr s) (addons spec) ->
   _interactive_edit spec a = Ok spec) /\
  (~ Forall (fun v => exists s, v = JStr s) (addons spec) ->
   _interactive_edit spec a = Err TypeError).
Proof.
  intros H. unfold answers_list in H.
  repeat match goal with
         | H : Forall _ (_ :: _) |- _ =>
             let E := fresh "E" in
             inversion H as [|? ? E H']; subst; clear H; rename H' into H
         end.
  unfold _interactive_edit.
  repeat match goal with
         | E : strip _ = [] |- _ => rewrite E; clear E
         end.
  cbn [bind]. split.
  - intros Hs. apply str_items_ok in Hs. destruct Hs as (ss & ->).
    reflexivity.
  - intros Hs. destruct (str_items (addons spec)) as [ss|e] eqn:E.
    + exfalso. apply Hs. apply str_items_ok. eauto.
    + cbn [bind]. now rewrite (str_items_error _ _ E).
Qed.

Lemma same_frame_refl (s : ClusterSpec) : same_frame s s.
Proof. repeat split. Qed.

Lemma same_frame_trans (s t r : ClusterSpec) :
  same_frame s t -> same_frame t r -> same_frame s r.
Proof.
  intros (A1 & A2 & A3 & A4) (B1 & B2 & B3 & B4).
  repeat split; congruence.
Qed.

(** One numeric prompt. *)
Lemma edit_int_step (val : str) (set : Z -> ClusterSpec)
    (spec s1 : ClusterSpec) :
  match val with
  | _ :: _ => n <- int_of_str val ;; Ok (set n)
  | [] => Ok spec
  end = Ok s1 ->
  (val = [] /\ s1 = spec) \/
  (exists n, val <> [] /\ int_of_str val = Ok n /\ s1 = set n).
Proof.
  destruct val as [|c v].
  - intros [= <-]. now left.
  - intros H. apply bind_Ok in H. destruct H as (n & Hn & [= <-]).
    right. exists n. repeat split; [discriminate | assumption].
Qed.

Ltac frame_step H s Hs F prev :=
  apply bind_Ok in H; destruct H as (s & Hs & H); cbv beta in H;
  apply edit_int_step in Hs;
  assert (F : same_frame s prev)
    by (destruct Hs as [[_ ->] | (? & _ & _ & ->)]; repeat split);
  clear Hs.

(** X16. What an edit does not keep up.  The edit has no prompt for the
    package version, the pod network, the addresses other than the first
    octet, the Proxmox node or the credentials, and leaves them as they
    were: after an answer to the CNI or the version prompt the plugin and
    the minor version are the answers, while the pod network and the
    package version still are those of the spec before the edit.  The
    integers typed for the control planes are taken as they are, without
    the floor the conversion of the backend object applies. *)
Theorem edit_leaves_derived_fields (spec s' : ClusterSpec) (a : Answers) :
  _interactive_edit spec a = Ok s' ->
  unprompted_fields s' = unprompted_fields spec /\
  cni_plugin s'
  = match strip (ans_cni a) with
    | [] => cni_plugin spec
    | v => JStr v
    end /\
  k8s_version_minor s'
  = match strip (ans_k8s_version a) with
    | [] => k8s_version_minor spec
    | v => JStr v
    end /\
  Ok (cores (control_plane_spec s'))
  = match strip (ans_cp_cores a) with
    | [] => Ok (cores (control_plane_spec spec))
    | v => int_of_str v
    end /\
  Ok (memory_mb (control_plane_spec s'))
  = match strip (ans_cp_memory a) with
    | [] => Ok (memory_mb (control_plane_spec spec))
    | v => int_of_str v
    end.
Proof.
  intros H. unfold _interactive_edit in H. cbv zeta in H.
  (* the name *)
  match type of H with
  | context [set_worker_count _ ?t] => remember t as s0 eqn:E0 in H
  end.
  assert (F0 : same_frame s0 spec)
    by (subst s0; destruct (strip (ans_name a)); repeat split).
  clear E0.
  (* the two counts and the worker resources *)
  frame_step H s1 H1 F1 s0. frame_step H s2 H2 F2 s1.
  frame_step H s3 H3 F3 s2. frame_step H s4 H4 F4 s3.
  assert (F : same_frame s4 spec).
  { apply (same_frame_trans _ _ _ F4). apply (same_frame_trans _ _ _ F3).
    apply (same_frame_trans _ _ _ F2). now apply (same_frame_trans _ _ _ F1). }
  clear F0 F1 F2 F3 F4 s0 s1 s2 s3.
  destruct F as (U4 & C4 & K4 & P4).
  (* the control-plane cores *)
  apply bind_Ok in H. destruct H as (s5 & H5 & H). cbv beta in H.
  apply edit_int_step in H5.
  assert (U5 : unprompted_fields s5 = unprompted_fields spec
               /\ cni_plugin s5 = cni_plugin spec
               /\ k8s_version_minor s5 = k8s_version_minor spec
               /\ memory_mb (control_plane_spec s5)
                  = memory_mb (control_plane_spec spec)).
  { rewrite <- U4, <- C4, <- K4, <- P4.
    destruct H5 as [[_ ->] | (n & _ & _ & ->)]; repeat split. }
  assert (N5 : Ok (cores (control_plane_spec s5))
               = match strip (ans_cp_cores a) with
                 | [] => Ok (cores (control_plane_spec spec))
                 | v => int_of_str v
                 end).
  { rewrite <- P4. destruct H5 as [[Ev ->] | (n & Hv & Hn & ->)];
      [now rewrite Ev|].
    destruct (strip (ans_cp_cores a)) as [|c v]; [congruence|]. now rewrite Hn. }
  clear H5 U4 C4 K4 P4 s4.
  destruct U5 as (U5 & C5 & K5 & M5).
  (* the control-plane memory *)
  apply bind_Ok in H. destruct H as (s6 & H6 & H). cbv beta in H.
  apply edit_int_step in H6.
  assert (U6 : unprompted_fields s6 = unprompted_fields spec
               /\ cni_plugin s6 = cni_plugin spec
               /\ k8s_version_minor s6 = k8s_version_minor spec
               /\ cores (control_plane_spec s6)
                  = cores (control_plane_spec s5)).
  { rewrite <- U5, <- C5, <- K5.
    destruct H6 as [[_ ->] | (n & _ & _ & ->)]; repeat split. }
  assert (N6 : Ok (memory_mb (control_plane_spec s6))
               = match strip (ans_cp_memory a) with
                 | [] => Ok (memory_mb (control_plane_spec spec))
                 | v => int_of_str v
                 end).
  { rewrite <- M5. destruct H6 as [[Ev ->] | (n & Hv & Hn & ->)];
      [now rewrite Ev|].
    destruct (strip (ans_cp_memory a)) as [|c v]; [congruence|]. now rewrite Hn. }
  destruct U6 as (U6 & C6 & K6 & P6). rewrite <- P6 in N5.
  clear H6 U5 C5 K5 M5 P6 s5.
  (* the plugin and the version *)
  match type of H with
  | context [set_ip_start _ ?t] => remember t as s8 eqn:E8 in H
  end.
  assert (F8 : unprompted_fields s8 = unprompted_fields s6
               /\ control_plane_spec s8 = control_plane_spec s6
               /\ cni_plugin s8
                  = match strip (ans_cni a) with
                    | [] => cni_plugin s6
                    | v => JStr v
                    end
               /\ k8s_version_minor s8
                  = match strip (ans_k8s_version a) with
                    | [] => k8s_version_minor s6
                    | v => JStr v
                    end).
  { subst s8. destruct (strip (ans_cni a)), (strip (ans_k8s_version a));
      repeat split. }
  clear E8. destruct F8 as (U8 & P8 & C8 & K8).
  rewrite C6 in C8. rewrite K6 in K8. rewrite U6 in U8.
  rewrite <- P8 in N5, N6.
  clear U6 C6 K6 P8 s6.
  (* the first octet and the add-ons *)
  frame_step H s9 H9 F9 s8.
  apply bind_Ok in H. destruct H as (ss & _ & H). cbv beta in H.
  injection H as <-.
  destruct F9 as (U9 & C9 & K9 & P9).
  rewrite <- U8, <- C8, <- K8, <- U9, <- C9, <- K9.
  rewrite <- P9 in N5, N6. rewrite <- N5, <- N6.
  destruct (strip (ans_addons a)); repeat split.
Qed.

End InteractiveEdit.

(** Enter at every prompt of the default spec; and the switch to calico
    and Kubernetes 1.30 with one core per control plane: the pod network
    still is the one of flannel, the package version the one of 1.31, and
    the cores are below the floor of the conversion. *)
Lemma edit_without_answers_witness :
  cli._interactive_edit (rt := runtime_ascii) models.ClusterSpec_new
    no_answers
  = Ok models.ClusterSpec_new.
Proof.
  apply (@edit_without_answers runtime_ascii models.ClusterSpec_new
           no_answers).
  - repeat constructor.
  - constructor.
Defined.

Lemma edit_leaves_derived_fields_witness :
  exists s,
    cli._interactive_edit (rt := runtime_ascii) models.ClusterSpec_new
      answers_calico = Ok s /\
    models.cni_plugin s = JStr (u "calico") /\
    models.pod_network_cidr s = u "10.244.0.0/16" /\
    models.k8s_version_minor s = JStr (u "1.30") /\
    models.k8s_version_full s = u "1.31.4-1.1" /\
    models.cores (models.control_plane_spec s) = 1%Z /\
    models.addons s = [JStr (u "metallb"); JStr []; JStr (u "argocd")].
Proof.
  eexists. split; [reflexivity|].
  match goal with
  | |- models.cni_plugin ?s = _ /\ _ =>
      destruct (@edit_leaves_derived_fields runtime_ascii
                  models.ClusterSpec_new s answers_calico eq_refl)
        as (HU & HC & HK & HN & _)
  end.
  split; [exact HC|].
  split; [reflexivity|]. split; [exact HK|].
  split; [reflexivity|]. split; reflexivity.
Defined.

(** ** cli.py: where the Proxmox credentials come from *)

Section Credentials.
Context {rt : Runtime}.
Import cli.

Lemma given_Some (x : option str) :
  given x = true -> exists c v, x = Some (c :: v).
Proof. destruct x as [[|c v]|]; try discriminate. eauto. Qed.

(** X17. The three credentials come from one source.  When the command
    line and the environment together give a non-empty URL, token id and
    secret (an option wins over its variable, an empty option does not),
    these are the credentials and terraform.tfvars is not read.
    Otherwise what they give is dropped altogether: the credentials are
    the three values of terraform.tfvars when the file exists and holds
    all three, and there are none when it does not exist or lacks one;
    a file that cannot be read raises. *)
Theorem credentials_from_one_source (args : Args)
    (environ : str -> option str) (tfvars : option (result str)) :
  let a := arg_api_url args environ in
  let t := arg_token_id args environ in
  let s := arg_token_secret args environ in
  let creds := _resolve_proxmox_creds args environ tfvars in
  (given a && given t && given s = true ->
   exists ua ut us,
     a = Some ua /\ t = Some ut /\ s = Some us /\
     creds = Ok (Some {| api_url := ua; token_id := ut;
                         token_secret := us |})) /\
  (given a && given t && given s = false ->
   (tfvars = None -> creds = Ok None) /\
   (forall e, tfvars = Some (Err e) -> creds = Err e) /\
   (forall content, tfvars = Some (Ok content) ->
      creds = Ok (tfvars_creds content))).
Proof.
  intros a t s creds. subst creds. unfold _resolve_proxmox_creds.
  fold (arg_api_url args environ) (arg_token_id args environ)
    (arg_token_secret args environ). fold a t s.
  split.
  - intros H. apply andb_true_iff in H. destruct H as [H Hs].
    apply andb_true_iff in H. destruct H as [Ha Ht].
    apply given_Some in Ha, Ht, Hs.
    destruct Ha as (c1 & v1 & ->), Ht as (c2 & v2 & ->),
             Hs as (c3 & v3 & ->).
    eauto 10.
  - intros H.
    assert (E : match a, t, s with
                | Some (_ :: _), Some (_ :: _), Some (_ :: _) => false
                | _, _, _ => true
                end = true).
    { destruct a as [[|? ?]|], t as [[|? ?]|], s as [[|? ?]|];
        try reflexivity; discriminate H. }
    repeat split.
    + intros ->.
      destruct a as [[|? ?]|], t as [[|? ?]|], s as [[|? ?]|];
        try reflexivity; discriminate E.
    + intros e ->.
      destruct a as [[|? ?]|], t as [[|? ?]|], s as [[|? ?]|];
        try reflexivity; discriminate E.
    + intros content ->. unfold tfvars_creds.
      destruct a as [[|? ?]|], t as [[|? ?]|], s as [[|? ?]|];
        try discriminate E; cbn [bind];
        destruct (search_assignment (u "proxmox_api_url") content),
          (search_assignment (u "proxmox_api_token_id") content),
          (search_assignment (u "proxmox_api_token_secret") content);
        reflexivity.
Qed.

End Credentials.

(** The URL and the token id of the command line are not used when the
    secret is missing: all three values are those of the file. *)
Lemma credentials_from_one_source_witness :
  cli._resolve_proxmox_creds (rt := runtime_ascii) args_without_secret
    no_environ (Some (Ok tfvars_three))
  = Ok (Some {| cli.api_url := u "https://10.40.19.230:8006/api2/json";
                cli.token_id := u "packer@pam!setup";
                cli.token_secret := u "s3cr3t" |}).
Proof.
  exact (proj2 (proj2 (proj2 (@credentials_from_one_source runtime_ascii
                                 args_without_secret no_environ
                                 (Some (Ok tfvars_three))) eq_refl))
           tfvars_three eq_refl).
Defined.

(** ** cli.py: reading terraform.tfvars *)

Section Tfvars.
Context {rt : Runtime}.
Import cli.

Lemma dropwhile_blanks (p : str) (c : char) (s : str) :
  blanks p = true -> isspace c = false ->
  dropwhile isspace (p ++ c :: s) = c :: s.
Proof.
  intros Hp Hc. induction p as [|x p IH]; cbn [app dropwhile].
  - now rewrite Hc.
  - cbn [blanks forallb] in Hp. apply andb_true_iff in Hp.
    destruct Hp as [Hx Hp].
    assert (Hs : isspace x = true).
    { apply orb_true_iff in Hx. destruct Hx as [Hx|Hx];
        apply N.eqb_eq in Hx; subst x; reflexivity. }
    rewrite Hs. now apply IH.
Qed.

Lemma find_without (c : char) (v s : str) :
  without_char c v = true -> find c (v ++ c :: s) = Some (List.length v).
Proof.
  intros Hv. induction v as [|x v IH]; cbn [app find List.length].
  - now rewrite N.eqb_refl.
  - cbn [without_char forallb] in Hv. apply andb_true_iff in Hv.
    destruct Hv as [Hx Hv]. apply negb_true_iff in Hx.
    rewrite Hx, (IH Hv). reflexivity.
Qed.

Lemma skipn_prefix (p s : str) : skipn (List.length p) (p ++ s) = s.
Proof. induction p as [|c p IH]; [reflexivity | exact IH]. Qed.

Lemma firstn_prefix (p s : str) : firstn (List.length p) (p ++ s) = p.
Proof.
  induction p as [|c p IH]; [reflexivity|].
  cbn [List.length app firstn]. now rewrite IH.
Qed.

(** The pattern matches an assignment at the head of a text. *)
Lemma match_assignment_head (var p q value rest : str) :
  blanks p = true -> blanks q = true -> without_char 34%N value = true ->
  match_assignment var (assignment var p q value ++ rest) = Some value.
Proof.
  intros Hp Hq Hv. unfold match_assignment, assignment.
  rewrite <- !app_assoc. rewrite startswith_app, skipn_prefix.
  cbn [app]. rewrite (dropwhile_blanks p 61%N) by (assumption || reflexivity).
  cbn [N.eqb Pos.eqb].
  rewrite (dropwhile_blanks q 34%N) by (assumption || reflexivity).
  cbn [N.eqb Pos.eqb].
  rewrite (find_without 34%N value) by assumption.
  now rewrite firstn_prefix.
Qed.

(** The search goes over a line that holds no match. *)
Lemma search_from_skip_line (var l rest : str) (b : bool) :
  without_char 10%N l = true ->
  (b = true -> match_assignment var (l ++ 10%N :: rest) = None) ->
  search_from var b (l ++ 10%N :: rest) = search_from var true rest.
Proof.
  revert b; induction l as [|c l IH]; intros b Hl Hb.
  - cbn [app] in *. destruct b.
    + cbn [search_from]. rewrite (Hb eq_refl). reflexivity.
    + cbn [search_from]. reflexivity.
  - cbn [without_char forallb] in Hl. apply andb_true_iff in Hl.
    destruct Hl as [Hc Hl]. apply negb_true_iff in Hc.
    cbn [app] in *. cbn [search_from].
    assert (E : (if b then match_assignment var (c :: l ++ 10%N :: rest)
                 else None) = None).
    { destruct b; [now apply Hb | reflexivity]. }
    rewrite E, Hc. apply IH; [assumption | discriminate].
Qed.

Lemma without_char_app (c : char) (a b : str) :
  without_char c (a ++ b) = without_char c a && without_char c b.
Proof. apply forallb_app. Qed.

Lemma blanks_without_newline (p : str) :
  blanks p = true -> without_char 10%N p = true.
Proof.
  unfold blanks, without_char.
  induction p as [|x p IH]; [reflexivity|].
  cbn [forallb]. intros H.
  apply andb_true_iff in H. destruct H as [Hx Hp].
  rewrite (IH Hp), andb_true_r.
  apply orb_true_iff in Hx. destruct Hx as [Hx|Hx]; apply N.eqb_eq in Hx;
    now subst x.
Qed.

Lemma assignment_without_newline (var p q value : str) :
  without_char 10%N var = true -> blanks p = true -> blanks q = true ->
  without_char 10%N value = true ->
  without_char 10%N (assignment var p q value) = true.
Proof.
  intros Hvar Hp Hq Hv. unfold assignment.
  rewrite !without_char_app, Hvar, Hv,
    (blanks_without_newline _ Hp), (blanks_without_newline _ Hq).
  reflexivity.
Qed.

(** X18. A terraform.tfvars that assigns the three variables on three
    lines, in the order URL, token id, secret, each value between double
    quotes with any spaces or tabs around the equal sign, is read back to
    these values, provided no value holds a double quote or a newline;
    what follows the third line does not matter. *)
Theorem tfvars_read_back (p1 q1 p2 q2 p3 q3 url id secret rest : str) :
  blanks p1 && blanks q1 && blanks p2 && blanks q2 && blanks p3 && blanks q3
  = true ->
  without_char 34%N url && without_char 34%N id && without_char 34%N secret
  = true ->
  without_char 10%N url && without_char 10%N id = true ->
  tfvars_creds
    (assignment (u "proxmox_api_url") p1 q1 url ++ 10%N
     :: assignment (u "proxmox_api_token_id") p2 q2 id ++ 10%N
     :: assignment (u "proxmox_api_token_secret") p3 q3 secret ++ rest)
  = Some {| api_url := url; token_id := id; token_secret := secret |}.
Proof.
  intros Hb Hq Hn.
  repeat (apply andb_true_iff in Hb; destruct Hb as [Hb ?]).
  repeat (apply andb_true_iff in Hq; destruct Hq as [Hq ?]).
  apply andb_true_iff in Hn. destruct Hn as [Hn1 Hn2].
  unfold tfvars_creds, search_assignment.
  (* the URL is on the first line *)
  assert (E1 : forall r,
             search_from (u "proxmox_api_url") true
               (assignment (u "proxmox_api_url") p1 q1 url ++ r)
             = Some url).
  { intros r. destruct (assignment (u "proxmox_api_url") p1 q1 url ++ r)
      eqn:E; cbn [search_from]; rewrite <- E;
      now rewrite match_assignment_head. }
  rewrite E1.
  (* the token id on the second *)
  rewrite (search_from_skip_line (u "proxmox_api_token_id"));
    [| now apply assignment_without_newline | intros _; reflexivity].
  assert (E2 : forall r,
             search_from (u "proxmox_api_token_id") true
               (assignment (u "proxmox_api_token_id") p2 q2 id ++ r)
             = Some id).
  { intros r. destruct (assignment (u "proxmox_api_token_id") p2 q2 id ++ r)
      eqn:E; cbn [search_from]; rewrite <- E;
      now rewrite match_assignment_head. }
  rewrite E2.
  (* the secret on the third *)
  rewrite (search_from_skip_line (u "proxmox_api_token_secret"));
    [| now apply assignment_without_newline | intros _; reflexivity].
  rewrite (search_from_skip_line (u "proxmox_api_token_secret"));
    [| now apply assignment_without_newline | intros _; reflexivity].
  assert (E3 : forall r,
             search_from (u "proxmox_api_token_secret") true
               (assignment (u "proxmox_api_token_secret") p3 q3 secret ++ r)
             = Some secret).
  { intros r.
    destruct (assignment (u "proxmox_api_token_secret") p3 q3 secret ++ r)
      eqn:E; cbn [search_from]; rewrite <- E;
      now rewrite match_assignment_head. }
  rewrite E3. reflexivity.
Qed.

End Tfvars.

(** Three aligned lines and a fourth one. *)
Lemma tfvars_read_back_witness :
  tfvars_creds (rt := runtime_ascii)
    (js "proxmox_api_url          = 'https://10.40.19.230:8006/api2/json'
proxmox_api_token_id     = 'packer@pam!setup'
proxmox_api_token_secret = 's3cr3t'
target_node = 'pve1'
")
  = Some {| cli.api_url := u "https://10.40.19.230:8006/api2/json";
            cli.token_id := u "packer@pam!setup";
            cli.token_secret := u "s3cr3t" |}.
Proof.
  exact (@tfvars_read_back runtime_ascii
           (u "          ") (u " ") (u "     ") (u " ") (u " ") (u " ")
           (u "https://10.40.19.230:8006/api2/json") (u "packer@pam!setup")
           (u "s3cr3t") (js "
target_node = 'pve1'
")
           eq_refl eq_refl eq_refl).
Defined.

(** ** cli.py: the discovery of the Proxmox host *)

Section DiscoverProxmox.
Context {rt : Runtime}.
Import cli.

Lemma resolve_creds_error (args : Args) (environ : str -> option str)
    (tfvars : option (result str)) (e : exn) :
  _resolve_proxmox_creds args environ tfvars = Err e ->
  tfvars = Some (Err e).
Proof.
  unfold _resolve_proxmox_creds.
  set (a := py_or _ _). set (t := py_or _ _). set (s := py_or _ _).
  assert (H : forall k : result (option Creds),
             (k = Err e -> tfvars = Some (Err e)) ->
             match a, t, s with
             | Some ((_ :: _) as ua), Some ((_ :: _) as ut),
               Some ((_ :: _) as us) =>
                 Ok (Some {| api_url := ua; token_id := ut;
                             token_secret := us |})
             | _, _, _ => k
             end = Err e -> tfvars = Some (Err e)).
  { intros k Hk.
    destruct a as [[|? ?]|], t as [[|? ?]|], s as [[|? ?]|];
      try exact Hk; discriminate. }
  apply H. clear H. destruct tfvars as [[content|e0]|]; cbn [bind].
  - destruct (search_assignment (u "proxmox_api_url") content),
      (search_assignment (u "proxmox_api_token_id") content),
      (search_assignment (u "proxmox_api_token_secret") content);
      discriminate.
  - now intros [= ->].
  - discriminate.
Qed.

(** X19. The discovery of the Proxmox host before the intent is parsed.
    Without credentials it gives no context; with credentials it asks
    the host they name for its version, certificates unchecked, on the
    node of the command line or [pve1], and gives no context when that
    request fails, the context of [discover] when it succeeds.  It
    raises only when terraform.tfvars exists and cannot be read. *)
Theorem discover_proxmox_outcomes (net : proxmox_client.network)
    (args : Args) (environ : str -> option str)
    (tfvars : option (result str)) :
  let creds := _resolve_proxmox_creds args environ tfvars in
  let run := _discover_proxmox net args environ tfvars in
  (creds = Ok None -> run = Ok None) /\
  (forall c, creds = Ok (Some c) ->
     let config := config_of_creds args c in
     let server := proxmox_client.server_of net config in
     proxmox_client.verify_ssl config = false /\
     (proxmox_client.is_available server = false -> run = Ok None) /\
     (proxmox_client.is_available server = true ->
      exists ctx,
        run = Ok (Some ctx) /\
        proxmox_client.discover server config = Ok ctx /\
        proxmox_client.node_name ctx = proxmox_client.target_node config)) /\
  (forall e, run = Err e -> tfvars = Some (Err e)) /\
  ((forall e, tfvars <> Some (Err e)) -> exists r, run = Ok r).
Proof.
  intros creds run. subst creds run. unfold _discover_proxmox.
  assert (Herr : forall e,
             (creds <- _resolve_proxmox_creds args environ tfvars ;;
              match creds with
              | None => Ok None
              | Some c =>
                  if negb (proxmox_client.is_available
                             (proxmox_client.server_of net
                                (config_of_creds args c)))
                  then Ok None
                  else
                    ctx <- proxmox_client.discover
                             (proxmox_client.server_of net
                                (config_of_creds args c))
                             (config_of_creds args c) ;;
                    Ok (Some ctx)
              end) = Err e -> tfvars = Some (Err e)).
  { intros e H.
    destruct (_resolve_proxmox_creds args environ tfvars) as [[c|]|e0] eqn:E;
      cbn [bind] in H.
    - destruct (proxmox_client.is_available _); cbn [negb] in H;
        discriminate H.
    - discriminate H.
    - injection H as ->. now apply resolve_creds_error in E. }
  split; [intros ->; reflexivity|]. split; [|split].
  - intros c ->. cbn [bind]. fold (config_of_creds args c).
    split; [reflexivity|]. split.
    + intros ->. reflexivity.
    + intros ->. cbn [negb]. eexists. split; [reflexivity|].
      split; reflexivity.
  - exact Herr.
  - intros Hno.
    match goal with
    | |- exists r, ?m = Ok r => destruct m as [r|e] eqn:E
    end; [eauto|].
    apply Herr in E. now destruct (Hno e).
Qed.

End DiscoverProxmox.

(** The credentials of the file, a host that answers, a degraded
    telemetry: the context still is returned, for the node pve1; and
    without any answer of the network there is no context. *)
Lemma discover_proxmox_outcomes_witness :
  (exists ctx,
     cli._discover_proxmox (rt := runtime_ascii) network_degraded
       args_without_secret no_environ (Some (Ok tfvars_three))
     = Ok (Some ctx) /\
     proxmox_client.node_name ctx = u "pve1" /\
     proxmox_client.used_ips ctx = [u "10.40.19.201"]) /\
  cli._discover_proxmox (rt := runtime_ascii) network_down
    args_without_secret no_environ (Some (Ok tfvars_three))
  = Ok None.
Proof.
  split.
  - destruct (proj1 (proj2 (@discover_proxmox_outcomes runtime_ascii
                              network_degraded args_without_secret no_environ
                              (Some (Ok tfvars_three)))) _ eq_refl)
      as (_ & _ & H).
    destruct (H eq_refl) as (ctx & E & D & N).
    exists ctx. split; [exact E|]. split; [exact N|].
    vm_compute in D. injection D as <-. reflexivity.
  - destruct (proj1 (proj2 (@discover_proxmox_outcomes runtime_ascii
                              network_down args_without_secret no_environ
                              (Some (Ok tfvars_three)))) _ eq_refl)
      as (_ & H & _).
    exact (H eq_refl).
Defined.

(** ** models.py: the summary *)

Section SummaryFacts.
Context {rt : Runtime}.
Import models intent_parser_llm.







End SummaryFacts.


Section SummaryBox.
Context {rt : Runtime}.
Import models.

Lemma frame_length (l r : char) : List.length (frame l r) = frame_width.
Proof.
  unfold frame. cbn [List.length]. now rewrite length_app, repeat_length.
Qed.

Lemma row_length (label : string) (value : str) :
  List.length (row label value)
  = (2 + List.length (u label) + List.length value)%nat.
Proof.
  unfold row. cbn [List.length]. rewrite !length_app. cbn [List.length]. lia.
Qed.

Lemma resources_row_length (n : NodeSpec) :
  List.length (row "    CPU/Memory   : " (resources_text n))
  = (32 + Nat.max 19 (resource_digits n))%nat.
Proof.
  rewrite row_length. unfold resources_text, resource_digits, spaces.
  rewrite !length_app, repeat_length.
  change (List.length (u "    CPU/Memory   : ")) with 19%nat.
  change (List.length (u " cores / ")) with 9%nat.
  change (List.length (u "MB")) with 2%nat.
  lia.
Qed.

Lemma worker_ips_length (s : ClusterSpec) :
  List.length (worker_ips s) = Z.to_nat (worker_count s).
Proof. unfold worker_ips. now rewrite length_map, range_length. Qed.

(** X21. The box of the summary.  It has fourteen lines, and a fifteenth
    when the spec has more than three workers: the worker row shows the
    first three addresses only and the added line counts the others.
    The three lines of the frame are 52 characters wide, but the two
    CPU/Memory rows are 32 characters and the padded digits wide, which
    is 51 as long as the cores and the memory have at most 19 digits
    together: one character less than the frame. *)
Theorem summary_box (s : ClusterSpec) (ls : list str) :
  summary_lines s = Ok ls ->
  List.length ls
  = (if Nat.ltb 3 (Z.to_nat (worker_count s)) then 15 else 14)%nat /\
  (exists top mid bottom,
     nth_error ls 0 = Some top /\ nth_error ls 2 = Some mid /\
     nth_error ls (List.length ls - 1) = Some bottom /\
     List.length top = frame_width /\ List.length mid = frame_width /\
     List.length bottom = frame_width) /\
  (exists cp wk,
     nth_error ls 4 = Some cp /\ nth_error ls 7 = Some wk /\
     List.length cp
     = (32 + Nat.max 19 (resource_digits (control_plane_spec s)))%nat /\
     List.length wk
     = (32 + Nat.max 19 (resource_digits (worker_spec s)))%nat) /\
  nth_error ls 8
  = Some (row "    IPs          : "
              (ljust 31 (join (u ", ") (firstn 3 (worker_ips s))))) /\
  ((3 < Z.to_nat (worker_count s))%nat ->
   nth_error ls 9
   = Some (row "                  ... +"
               (str_of_Z (worker_count s - 3) ++ u " more" ++ spaces 22))).
Proof.
  unfold summary_lines. intros H.
  apply bind_Ok in H. destruct H as (t1 & _ & H).
  apply bind_Ok in H. destruct H as (t2 & _ & H).
  apply bind_Ok in H. destruct H as (t3 & _ & H).
  apply bind_Ok in H. destruct H as (t4 & _ & H).
  injection H as <-. rewrite worker_ips_length.
  destruct (Nat.ltb_spec 3 (Z.to_nat (worker_count s))) as [Hw|Hw];
    cbn [app List.length Nat.sub nth_error].
  - split; [reflexivity|]. split.
    { do 3 eexists. repeat split; apply frame_length. }
    split.
    { do 2 eexists. repeat split; apply resources_row_length. }
    split; [reflexivity|]. intros _.
    replace (Z.of_nat (Z.to_nat (worker_count s))) with (worker_count s)
      by lia.
    reflexivity.
  - split; [reflexivity|]. split.
    { do 3 eexists. repeat split; apply frame_length. }
    split.
    { do 2 eexists. repeat split; apply resources_row_length. }
    split; [reflexivity|]. intros Hlt. lia.
Qed.

End SummaryBox.

(** The default spec with five workers: fifteen lines, the tenth one
    counting two more workers; the CPU/Memory row of the control planes
    is 51 characters wide. *)
Lemma summary_box_witness :
  exists ls cp,
    models.summary_lines (rt := runtime_ascii)
      (models.set_worker_count 5 models.ClusterSpec_new) = Ok ls /\
    List.length ls = 15%nat /\
    nth_error ls 4 = Some cp /\ List.length cp = 51%nat /\
    nth_error ls 9
    = Some (models.row "                  ... +"
              (u "2 more" ++ spaces 22)).
Proof.
  eexists. eexists. split; [reflexivity|].
  match goal with
  | |- List.length ?ls = _ /\ _ =>
      destruct (@summary_box runtime_ascii
                  (models.set_worker_count 5 models.ClusterSpec_new) ls
                  eq_refl) as (Hl & _ & _ & _ & H9)
  end.
  split; [exact Hl|]. split; [reflexivity|]. split; [reflexivity|].
  apply H9. vm_compute. lia.
Defined.

(** ** intent_parser_llm.py: a resolution that succeeds *)

Section ParseIntentSuccess.
Context {rt : Runtime}.
Import intent_parser_llm.

(** X22. The steps of a resolution compose.  When the backend answers the
    availability probe, the chat request returns a text, the extraction
    finds an object in it and the object converts, the resolution returns
    the converted spec, with the [reasoning] of the object (the empty
    string when it has none) and the object itself attached; and the
    chat request then carried the system text before the one user
    message. *)
Theorem parse_intent_success
    (prompt_text : proxmox_client.ProxmoxContext -> result str)
    (b : llm.Ollama) (text : str)
    (ctx : option proxmox_client.ProxmoxContext)
    (um reply : str) (d : dict) (s : models.ClusterSpec) :
  llm.is_available b = true ->
  user_message prompt_text text ctx = Ok um ->
  llm.chat b [(llm.user, um)] (Some SYSTEM_PROMPT) = Ok (JStr reply) ->
  _extract_json_from_response reply = Ok (JDict d) ->
  _json_to_spec d = Ok s ->
  parse_intent prompt_text b text ctx
  = Ok {| spec := s;
          _llm_reasoning := dict_get_default (u "reasoning") (JStr []) d;
          _llm_raw := JDict d |} /\
  (exists body,
     llm.post_chat b [(llm.system, SYSTEM_PROMPT); (llm.user, um)]
     = Body body) /\
  (ctx = None -> um = text).
Proof.
  intros Ha Hu Hc He Hs. unfold parse_intent.
  rewrite Ha, Hu. cbn [negb bind]. rewrite Hc. cbn [bind].
  rewrite He. cbn [bind]. rewrite Hs. cbn [bind py_get].
  split; [reflexivity|]. split.
  - rewrite chat_unfold in Hc.
    destruct (llm.post_chat b [(llm.system, SYSTEM_PROMPT); (llm.user, um)])
      as [| |body|e]; try discriminate Hc. eauto.
  - intros ->. cbn in Hu. now injection Hu as <-.
Qed.

End ParseIntentSuccess.

(** A fenced reply: three workers on calico, the reasoning kept. *)
Lemma parse_intent_success_witness :
  exists r,
    intent_parser_llm.parse_intent (rt := runtime_ascii)
      (fun _ => Ok []) backend_fenced (u "three workers on calico") None
    = Ok r /\
    models.worker_count (intent_parser_llm.spec r) = 3%Z /\
    models.vm_name_prefix (intent_parser_llm.spec r) = u "dev-node" /\
    models.pod_network_cidr (intent_parser_llm.spec r) = u "192.168.0.0/16" /\
    intent_parser_llm._llm_reasoning r = JStr (u "a small cluster").
Proof.
  eexists. split.
  - refine (proj1 (@parse_intent_success runtime_ascii (fun _ => Ok [])
                     backend_fenced (u "three workers on calico") None
                     (u "three workers on calico") _ _ _
                     eq_refl eq_refl _ _ _)).
    + vm_compute. reflexivity.
    + vm_compute. reflexivity.
    + vm_compute. reflexivity.
  - repeat split.
Defined.

(** ** proxmox_client.py: a guest list with a malformed entry *)

Section GuestList.
Context {rt : Runtime}.
Import proxmox_client.

Variable server : str -> http_reply.
Variable config : ProxmoxConfig.

Lemma guests_of_not_object (entries : list JValue) (entry : JValue) :
  In entry entries -> (forall d, entry <> JDict d) ->
  exists e, guests_of entries = Err e.
Proof.
  induction entries as [|x rest IH]; [contradiction|].
  intros [->|Hin] Hd; cbn [guests_of].
  - destruct entry; cbn [py_get bind]; eauto. now destruct (Hd d).
  - destruct (py_get x (u "template") (JInt 0)) as [t|e]; cbn [bind]; [|eauto].
    destruct (IH Hin Hd) as (e & He).
    destruct (eq_int t 1); [eauto|].
    destruct (vm_of_entry x); cbn [bind]; [|eauto].
    rewrite He. cbn [bind]. eauto.
Qed.

(** X23. The guest list is all or nothing.  While a failing address
    query of one guest leaves the other guests in place, one entry of the
    guest list that is not an object makes [_get_vms] raise, and the
    context then has no guest and no used address at all, whatever the
    other entries hold. *)
Theorem malformed_entry_empties_guest_list
    (text : str) (d : dict) (entries : list JValue) (entry : JValue) :
  server (u "/nodes/" ++ target_node config ++ u "/qemu") = Body text ->
  json.loads text = Ok (JDict d) ->
  dict_get (u "data") d = Some (JList entries) ->
  In entry entries -> (forall o, entry <> JDict o) ->
  (exists e, _get_vms server config = Err e) /\
  exists ctx,
    discover server config = Ok ctx /\
    existing_vms ctx = [] /\ used_ips ctx = [].
Proof.
  intros Hs Hl Hd Hin Hno.
  assert (E : exists e, _get_vms server config = Err e).
  { unfold _get_vms, _get. rewrite Hs, Hl. cbn [bind py_get].
    unfold dict_get_default. rewrite Hd. cbn [bind py_iter].
    rewrite _get_vms_loop_guests.
    destruct (guests_of_not_object entries entry Hin Hno) as (e & ->).
    cbn [bind]. eauto. }
  split; [exact E|].
  destruct E as (e & E). unfold discover. rewrite E. cbn [try_or fold_left].
  eexists. repeat split.
Qed.

End GuestList.

(** A stopped guest and a string in the guest list: no guest is
    reported. *)
Lemma malformed_entry_empties_guest_list_witness :
  exists ctx,
    proxmox_client.discover (rt := runtime_ascii) server_bad_entry config_pve1
    = Ok ctx /\
    proxmox_client.existing_vms ctx = [].
Proof.
  destruct (@malformed_entry_empties_guest_list runtime_ascii
              server_bad_entry config_pve1
              (js "{'data': [{'vmid': 100, 'name': 'web', 'status': 'stopped'}, 'vm-101']}")
              [(u "data",
                JList [JDict [(u "vmid", JInt 100); (u "name", JStr (u "web"));
                              (u "status", JStr (u "stopped"))];
                       JStr (u "vm-101")])]
              [JDict [(u "vmid", JInt 100); (u "name", JStr (u "web"));
                      (u "status", JStr (u "stopped"))];
               JStr (u "vm-101")]
              (JStr (u "vm-101")))
    as (_ & ctx & E & Hv & _).
  - reflexivity.
  - reflexivity.
  - reflexivity.
  - right. now left.
  - discriminate.
  - exists ctx. split; assumption.
Defined.

(** ** The availability probes *)

Section Probes.
Context {rt : Runtime}.

(** X24. The two availability probes.  The probe of the backend succeeds
    exactly when GET /api/tags returns a body that is JSON, and the probe
    of the Proxmox host exactly when GET /version does: neither looks at
    what the body says, so the backend counts as available whether or
    not it lists any model, and every failure of the request, an HTTP
    error status included, counts as not available. *)
Theorem availability_probes :
  (forall o : llm.Ollama,
     llm.is_available o = true <->
     exists text v, llm.get_tags o = Body text /\ json.loads text = Ok v) /\
  (forall server : str -> http_reply,
     proxmox_client.is_available server = true <->
     exists text v, server (u "/version") = Body text /\
                    json.loads text = Ok v).
Proof.
  split.
  - intros o. unfold llm.is_available, llm._get.
    destruct (llm.get_tags o) as [| |text|e]; try (split;
      [discriminate | intros (t & v & H & _); discriminate H]).
    destruct (json.loads text) as [v|e] eqn:E.
    + split; [eauto | reflexivity].
    + split; [discriminate|]. intros (t & v & [= <-] & H). congruence.
  - intros server. unfold proxmox_client.is_available, proxmox_client._get.
    destruct (server (u "/version")) as [| |text|e]; try (split;
      [discriminate | intros (t & v & H & _); discriminate H]).
    destruct (json.loads text) as [v|e] eqn:E.
    + split; [eauto | reflexivity].
    + split; [discriminate|]. intros (t & v & [= <-] & H). congruence.
Qed.

End Probes.

(** A backend without any model passes the probe. *)
Lemma availability_probes_witness :
  llm.is_available backend_no_model = true /\
  llm.list_models backend_no_model = [].
Proof.
  split; [|reflexivity].
  apply (proj1 availability_probes backend_no_model).
  exists (js "{'models': []}"), (JDict [(u "models", JList [])]).
  split; reflexivity.
Defined.
